(** * Sales Management System: a shallow embedding of [scr/main.py]

    The program is a single-user command-line tool: a password prompt, a
    menu loop, a list of sale records kept in memory and rewritten to a
    JSON file on every addition, a daily total and a textual report.

    Layout of the development:
    - [Float64]: Python's [float] as IEEE-754 binary64, on [SpecFloat];
    - exceptions, with the class hierarchy the [except] clauses match on;
    - the objects [json.load] produces, and the date/time values;
    - [Runtime]: what the program takes from the Python runtime and differs
      between runtimes or is not part of this repository: the text parsers
      ([float] on a [str], [datetime.fromisoformat], [repr]), the algorithm
      of the built-in [sum] and the width of [%Y] in [strftime];
    - the world (console, clock, data file, report files, and the ways the
      disk may refuse a write) and the program's functions, in the order of
      the source;
    - [Reference]: a runtime for the closed examples;
    - lemmas on the floats, the dictionaries, the validator and the loops;
    - the properties of the program, claim by claim. *)

From Stdlib Require Import ZArith List String Ascii Bool Lia.
From Stdlib Require Import QArith Qpower.
From Stdlib Require Import SpecFloat DecimalString.
From Stdlib Require Import Sorting.Mergesort Sorting.Sorted Sorting.Permutation.
From Stdlib Require Import Orders.
Import ListNotations.
Local Open Scope list_scope.
Local Open Scope string_scope.
Local Open Scope Z_scope.

(** ** Python floats *)

Definition float : Type := spec_float.

Module Float64.

Definition prec : Z := 53.
Definition emax : Z := 1024.

Definition zero : float := S754_zero false.
Definition one : float := S754_finite false 4503599627370496 (-52).
Definition nan : float := S754_nan.
Definition inf : float := S754_infinity false.

Definition add : float -> float -> float := SFadd prec emax.
Definition sub : float -> float -> float := SFsub prec emax.
Definition div : float -> float -> float := SFdiv prec emax.
Definition opp : float -> float := SFopp.
Definition abs : float -> float := SFabs.

(** [x < y], [x > y] and [x <= y]: every comparison with a NaN is false. *)
Definition ltb (x y : float) : bool := SFltb x y.
Definition gtb (x y : float) : bool := SFltb y x.
Definition leb (x y : float) : bool := SFleb x y.
Definition geb (x y : float) : bool := SFleb y x.

Definition is_nan (x : float) : bool :=
  match x with S754_nan => true | _ => false end.

Definition is_finite (x : float) : bool :=
  match x with S754_zero _ | S754_finite _ _ _ => true | _ => false end.

(** The integer [z] rounded to the nearest float, ties to even; the result
    is an infinity when [z] is out of range. *)
Definition of_Z (z : Z) : float := binary_normalize prec emax z 0 false.

(** The exact value of a finite float, as [m * 2^e]. *)
Definition exact (x : float) : Z * Z :=
  match x with
  | S754_finite s m e => (cond_Zopp s (Zpos m), e)
  | _ => (0, 0)
  end.

Definition exact_add (a b : Z * Z) : Z * Z :=
  let e := Z.min (snd a) (snd b) in
  (fst a * 2 ^ (snd a - e) + fst b * 2 ^ (snd b - e), e).

(** [m * 2^e / d] rounded to the nearest float, ties to even. *)
Definition round_ratio (m e : Z) (d : positive) : float :=
  match m with
  | Z0 => zero
  | Zpos p =>
      let '(q, e', l) := SFdiv_core_binary prec emax (Zpos p) e (Zpos d) 0 in
      binary_round_aux prec emax false q e' l
  | Zneg p =>
      let '(q, e', l) := SFdiv_core_binary prec emax (Zpos p) e (Zpos d) 0 in
      binary_round_aux prec emax true q e' l
  end.

End Float64.

(** ** Exceptions *)

Inductive exn : Type :=
| Exception
| LookupError
| KeyError
| TypeError
| ValueError
| ArithmeticError
| OverflowError
| UnicodeError
| UnicodeDecodeError
| JSONDecodeError
| StatisticsError
| RuntimeError
| RecursionError
| OSError
| FileNotFoundError
| FileExistsError
| PermissionError
| IsADirectoryError
| EOFError.

Definition exn_eqb (a b : exn) : bool :=
  match a, b with
  | Exception, Exception | LookupError, LookupError | KeyError, KeyError
  | TypeError, TypeError | ValueError, ValueError
  | ArithmeticError, ArithmeticError | OverflowError, OverflowError
  | UnicodeError, UnicodeError | UnicodeDecodeError, UnicodeDecodeError
  | JSONDecodeError, JSONDecodeError | StatisticsError, StatisticsError
  | RuntimeError, RuntimeError | RecursionError, RecursionError
  | OSError, OSError | FileNotFoundError, FileNotFoundError
  | FileExistsError, FileExistsError | PermissionError, PermissionError
  | IsADirectoryError, IsADirectoryError | EOFError, EOFError => true
  | _, _ => false
  end.

(** The base class of each exception class ([Exception] is the root here). *)
Definition base (e : exn) : option exn :=
  match e with
  | Exception => None
  | LookupError | TypeError | ValueError | ArithmeticError | RuntimeError
  | OSError | EOFError => Some Exception
  | KeyError => Some LookupError
  | OverflowError => Some ArithmeticError
  | UnicodeError | JSONDecodeError | StatisticsError => Some ValueError
  | UnicodeDecodeError => Some UnicodeError
  | RecursionError => Some RuntimeError
  | FileNotFoundError | FileExistsError | PermissionError | IsADirectoryError =>
      Some OSError
  end.

(** [issubclass e c]; the hierarchy above is four classes deep. *)
Fixpoint issubclass_upto (depth : nat) (e c : exn) : bool :=
  exn_eqb e c ||
  match depth with
  | O => false
  | S d => match base e with
           | Some b => issubclass_upto d b c
           | None => false
           end
  end.

Definition issubclass (e c : exn) : bool := issubclass_upto 4 e c.

(** Does [except (c1, c2, ...)] catch an exception of class [e]? *)
Definition catches (classes : list exn) (e : exn) : bool :=
  existsb (issubclass e) classes.

Inductive result (A : Type) : Type :=
| Ok (a : A)
| Raise (e : exn).

Arguments Ok {A} a.
Arguments Raise {A} e.

Definition rbind {A B : Type} (r : result A) (k : A -> result B) : result B :=
  match r with
  | Ok a => k a
  | Raise e => Raise e
  end.

(** [try: body / except classes: handler]. *)
Definition try_except {A : Type} (body : result A) (classes : list exn)
    (handler : result A) : result A :=
  match body with
  | Ok a => Ok a
  | Raise e => if catches classes e then handler else Raise e
  end.

Declare Scope result_scope.
Delimit Scope result_scope with result.
Notation "x <- r ;; k" := (rbind r (fun x => k))
  (at level 61, r at next level, right associativity) : result_scope.

(** ** Python objects

    The objects [json.load] returns: [None], booleans, integers of any
    size, floats (the decoder also reads [NaN], [Infinity] and
    [-Infinity]), strings, lists and dictionaries with string keys. A
    dictionary is the list of its items in insertion order; a key is looked
    up from the front. *)

#[local] Unset Elimination Schemes.

Inductive pyval : Type :=
| PNone
| PBool (b : bool)
| PInt (z : Z)
| PFloat (f : float)
| PStr (s : string)
| PList (items : list pyval)
| PDict (items : list (string * pyval)).

#[local] Set Elimination Schemes.

Fixpoint dict_get {V : Type} (key : string) (d : list (string * V)) : option V :=
  match d with
  | [] => None
  | (k, v) :: rest => if String.eqb k key then Some v else dict_get key rest
  end.

(** [d[key] = v]: an existing key keeps its place, a new one goes last. *)
Fixpoint dict_set {V : Type} (key : string) (v : V) (d : list (string * V))
    : list (string * V) :=
  match d with
  | [] => [(key, v)]
  | (k, v') :: rest =>
      if String.eqb k key then (k, v) :: rest else (k, v') :: dict_set key v rest
  end.

Definition dict_keys {V : Type} (d : list (string * V)) : list string :=
  map fst d.

(** [obj[key]] for a string [key]: only a dictionary can be subscripted by
    a string, and a missing key is a [KeyError]. *)
Definition getitem (obj : pyval) (key : string) : result pyval :=
  match obj with
  | PDict items =>
      match dict_get key items with
      | Some v => Ok v
      | None => Raise KeyError
      end
  | _ => Raise TypeError
  end.

(** ** Dates and times *)

Record date : Type := mkdate { dyear : Z; dmonth : Z; dday : Z }.

(** A [datetime]; [utcoffset], in seconds, is present on an aware value. *)
Record datetime : Type := mkdatetime {
  year : Z; month : Z; day : Z;
  hour : Z; minute : Z; second : Z; microsecond : Z;
  utcoffset : option Z
}.

Definition date_of (t : datetime) : date := mkdate (year t) (month t) (day t).

Definition date_eqb (a b : date) : bool :=
  (dyear a =? dyear b) && (dmonth a =? dmonth b) && (dday a =? dday b).

Definition digit (n : Z) : ascii := ascii_of_nat (48 + Z.to_nat (n mod 10)).

Definition pad2 (n : Z) : string :=
  String (digit (n / 10)) (String (digit n) "").

Definition pad4 (n : Z) : string :=
  String (digit (n / 1000)) (String (digit (n / 100)) (pad2 n)).

Definition str_of_Z (z : Z) : string := NilZero.string_of_int (Z.to_int z).

(** [t.strftime("%H:%M:%S")], for fields in their ranges. *)
Definition strftime_time (t : datetime) : string :=
  pad2 (hour t) ++ ":" ++ pad2 (minute t) ++ ":" ++ pad2 (second t).

Definition format_offset (off : Z) : string :=
  let a := Z.abs off in
  (if off <? 0 then "-" else "+") ++ pad2 (a / 3600) ++ ":" ++ pad2 (a / 60 mod 60)
  ++ (if a mod 60 =? 0 then "" else ":" ++ pad2 (a mod 60)).

(** [t.isoformat(timespec="seconds")]: the year on four digits, whatever
    the platform, and the microseconds dropped. *)
Definition isoformat_seconds (t : datetime) : string :=
  pad4 (year t) ++ "-" ++ pad2 (month t) ++ "-" ++ pad2 (day t)
  ++ "T" ++ strftime_time t
  ++ match utcoffset t with
     | None => ""
     | Some off => format_offset off
     end.

(** What parsing that text back gives: the same instant, to the second. *)
Definition truncate_seconds (t : datetime) : datetime :=
  mkdatetime (year t) (month t) (day t) (hour t) (minute t) (second t) 0
    (utcoffset t).

(** ** Strings

    A Python [str] is modelled by a [string] whose characters are its code
    points, taken below 256. *)

(** [c.isspace()] for a character below 256. *)
Definition isspace (c : ascii) : bool :=
  let n := nat_of_ascii c in
  ((9 <=? n) && (n <=? 13) || (28 <=? n) && (n <=? 32)
   || (n =? 133) || (n =? 160))%nat.

Fixpoint lstrip (s : string) : string :=
  match s with
  | String c rest => if isspace c then lstrip rest else s
  | EmptyString => EmptyString
  end.

Fixpoint rstrip (s : string) : string :=
  match s with
  | String c rest =>
      match rstrip rest with
      | EmptyString => if isspace c then EmptyString else String c EmptyString
      | r => String c r
      end
  | EmptyString => EmptyString
  end.

(** [s.strip()]. *)
Definition strip (s : string) : string := rstrip (lstrip s).

Definition nl : string := String (ascii_of_nat 10) "".

(** ["sep".join(lines)]. *)
Fixpoint join (sep : string) (lines : list string) : string :=
  match lines with
  | [] => ""
  | [l] => l
  | l :: rest => l ++ sep ++ join sep rest
  end.

(** ** Formatting an amount: [f"{x:.2f}"]

    The exact binary value is rounded to the nearest hundredth, ties to
    even. *)

Definition round_half_even_div (n d : Z) : Z :=
  let q := n / d in
  match (2 * (n mod d) ?= d) with
  | Lt => q
  | Gt => q + 1
  | Eq => if Z.even q then q else q + 1
  end.

Definition hundredths (m : positive) (e : Z) : Z :=
  if 0 <=? e then Zpos m * 2 ^ e * 100
  else round_half_even_div (Zpos m * 100) (2 ^ (- e)).

Definition format_2f (x : float) : string :=
  match x with
  | S754_nan => "nan"
  | S754_infinity s => if s then "-inf" else "inf"
  | S754_zero s => (if s then "-" else "") ++ "0.00"
  | S754_finite s m e =>
      let c := hundredths m e in
      (if s then "-" else "") ++ str_of_Z (c / 100) ++ "." ++ pad2 (c mod 100)
  end.

(** ** Built-in functions on lists of floats *)

(** A running total: [total = 0.0] and then [total += x] for each item,
    from left to right. It is what the loops of the program compute and
    what [sum(xs)] computes before CPython 3.12. *)
Definition py_sum (xs : list float) : float :=
  fold_left Float64.add xs Float64.zero.

(** [sum(xs)] in CPython 3.12 and later. The first item is added to the
    integer [0]; from then on the running total [t] comes with a
    correction [c] for the rounding errors of its additions (Neumaier's
    summation), which is added at the end when it is finite and not zero. *)
Definition neumaier_step (acc : float * float) (x : float) : float * float :=
  let '(f_result, c) := acc in
  let t := Float64.add f_result x in
  (t,
   if Float64.geb (Float64.abs f_result) (Float64.abs x)
   then Float64.add c (Float64.add (Float64.sub f_result t) x)
   else Float64.add c (Float64.add (Float64.sub x t) f_result)).

Definition compensated_sum (xs : list float) : float :=
  match xs with
  | [] => Float64.zero
  | x :: rest =>
      let '(f_result, c) :=
        fold_left neumaier_step rest (Float64.add Float64.zero x, Float64.zero) in
      match c with
      | S754_finite _ _ _ => Float64.add f_result c
      | _ => f_result
      end
  end.

(** [max(xs)]: the first item, replaced by each later item that compares
    greater than the current one. *)
Definition py_max (xs : list float) : result float :=
  match xs with
  | [] => Raise ValueError
  | x :: rest =>
      Ok (fold_left (fun m item => if Float64.gtb item m then item else m) rest x)
  end.

(** [min(xs)]: likewise with [<]. *)
Definition py_min (xs : list float) : result float :=
  match xs with
  | [] => Raise ValueError
  | x :: rest =>
      Ok (fold_left (fun m item => if Float64.ltb item m then item else m) rest x)
  end.

(** [statistics.mean(xs)] on floats. Finite data are summed exactly, as
    fractions, and the quotient by the count is rounded once. When an
    infinity or a NaN is present, the non-finite items alone are added as
    floats and the result is divided by the count. *)
Definition mean (xs : list float) : result float :=
  match xs with
  | [] => Raise StatisticsError
  | _ =>
      let n := Z.of_nat (List.length xs) in
      if forallb Float64.is_finite xs then
        let total :=
          fold_left (fun acc x => Float64.exact_add acc (Float64.exact x)) xs (0, 0) in
        Ok (Float64.round_ratio (fst total) (snd total) (Z.to_pos n))
      else
        let total :=
          fold_left Float64.add
            (filter (fun x => negb (Float64.is_finite x)) xs) Float64.zero in
        Ok (Float64.div total (Float64.of_Z n))
  end.

(** [float(n)] for an integer: an [OverflowError] when [n] is too large. *)
Definition float_of_int (z : Z) : result float :=
  match Float64.of_Z z with
  | S754_infinity _ => Raise OverflowError
  | f => Ok f
  end.

(** [sorted(keys)] for strings: ascending in code-point order. *)
Module StringOrder <: TotalLeBool.
Definition t := string.
Definition leb (a b : string) : bool := String.leb a b.
Definition leb_total : forall a b, leb a b = true \/ leb b a = true :=
  String.leb_total.
End StringOrder.

Module StringSort := Sort StringOrder.

Definition sorted (keys : list string) : list string := StringSort.sort keys.

(** ** The runtime

    The program relies on three parsers of the Python runtime, whose input
    languages are not part of this repository; every property below holds
    whatever they accept.
    - [float_of_str s] is [float(s)] for a string: [None] stands for the
      [ValueError] raised on text that is not a number;
    - [fromisoformat s] is [datetime.fromisoformat(s)]: [None] stands for
      the [ValueError] raised on malformed text;
    - [repr v] is [str(v)] for an object that is not a string.

    Two library functions differ between runtimes:
    - [sum_compensates]: the built-in [sum] adds floats with a correction
      term (CPython 3.12 and later) or as a plain running total;
    - [strftime_pads_year]: [%Y] is written on four digits for every year,
      or without leading zeros as the C library of Linux does. *)

Class Runtime : Type := {
  float_of_str : string -> option float;
  fromisoformat : string -> option datetime;
  repr : pyval -> string;
  sum_compensates : bool;
  strftime_pads_year : bool
}.

Section Platform.

Context {rt : Runtime}.

(** [sum(xs)] for a list of floats. *)
Definition builtin_sum (xs : list float) : float :=
  if sum_compensates then compensated_sum xs else py_sum xs.

(** [%Y], for a year from 1 to 9999. *)
Definition strftime_year (y : Z) : string :=
  if strftime_pads_year then pad4 y else str_of_Z y.

(** [t.strftime("%Y-%m-%d")], for fields in their calendar ranges. *)
Definition strftime_date (t : datetime) : string :=
  strftime_year (year t) ++ "-" ++ pad2 (month t) ++ "-" ++ pad2 (day t).

(** [t.strftime("%Y-%m-%d %H:%M:%S")]. *)
Definition strftime_seconds (t : datetime) : string :=
  strftime_date t ++ " " ++ strftime_time t.

(** [t.strftime("sales_report_%Y%m%d_%H%M%S.txt")]. *)
Definition strftime_report_name (t : datetime) : string :=
  "sales_report_" ++ strftime_year (year t) ++ pad2 (month t) ++ pad2 (day t)
  ++ "_" ++ pad2 (hour t) ++ pad2 (minute t) ++ pad2 (second t) ++ ".txt".

End Platform.

(** ** The world: console, clock, environment and files *)

Inductive open_error : Type :=
| PermissionDenied
| IsADirectory
| AlreadyExists
| OtherOSError.

Definition exn_of_open_error (e : open_error) : exn :=
  match e with
  | PermissionDenied => PermissionError
  | IsADirectory => IsADirectoryError
  | AlreadyExists => FileExistsError
  | OtherOSError => OSError
  end.

(** The data file, by what opening and reading it does.
    - [Missing]: there is no such file;
    - [Unopenable e]: the path exists and opening it, to read or to write,
      fails with an OS error (a directory, a file the user has no right
      to);
    - [Undecodable]: its bytes are not valid UTF-8;
    - [Malformed]: its text is not a JSON document (an empty file is such);
    - [IntegerTooLong]: its text is a JSON document with an integer of more
      digits than the runtime converts: [json.load] raises [ValueError];
    - [NestedTooDeep]: its text is a JSON document nested beyond the
      recursion limit: [json.load] raises [RecursionError];
    - [Document v]: its text is a JSON document that [json.load] reads
      as [v]. *)
Inductive file_state : Type :=
| Missing
| Unopenable (e : open_error)
| Undecodable
| Malformed
| IntegerTooLong
| NestedTooDeep
| Document (v : pyval).

(** How a call that writes to the disk may fail.
    - [Refused e]: the call raises before anything is changed (no right to
      write, a read-only disk, a file where a directory is meant);
    - [BrokenOff kept]: the file is opened, and with that created or
      emptied, and the writing then raises [OSError] (a full disk): of the
      text, which is cut short, no more than the first [kept] characters
      reach the file. *)
Inductive fault : Type :=
| Refused (e : open_error)
| BrokenOff (kept : nat).

Definition exn_of_fault (f : fault) : exn :=
  match f with
  | Refused e => exn_of_open_error e
  | BrokenOff _ => OSError
  end.

Inductive event : Type :=
| Printed (text : string)
| Prompted (text : string)
| Appended (record : pyval)
| DataWritten (sales : list pyval)
| ReportsDirMade
| ReportWritten (name : string) (text : string).

Record world : Type := mkworld {
  stdin : list string;                  (* the lines still to be typed *)
  clock : nat -> datetime;              (* successive readings of now() *)
  ticks : nat;                          (* readings taken so far *)
  environ : option string;              (* SMS_ADMIN_PASSWORD, if set *)
  data_file : file_state;               (* sales_data.json *)
  report_files : list (string * string);(* reports/: name, content *)
  faults : nat -> option fault;         (* how the n-th writing call fails *)
  writes : nat;                         (* writing calls made so far *)
  report_path : string -> string;       (* str(REPORTS_DIR / name) *)
  events : list event                   (* what the program did, in order *)
}.

Definition M (A : Type) : Type := world -> result A * world.

Definition ret {A : Type} (a : A) : M A := fun w => (Ok a, w).

Definition bind {A B : Type} (m : M A) (k : A -> M B) : M B :=
  fun w =>
    match m w with
    | (Ok a, w') => k a w'
    | (Raise e, w') => (Raise e, w')
    end.

Definition lift {A : Type} (r : result A) : M A := fun w => (r, w).

Declare Scope prog_scope.
Delimit Scope prog_scope with prog.
Notation "x <- m ;; k" := (bind m (fun x => k))
  (at level 61, m at next level, right associativity) : prog_scope.
Notation "m ;; k" := (bind m (fun _ => k))
  (at level 61, right associativity) : prog_scope.

Definition emit (e : event) (w : world) : world :=
  mkworld (stdin w) (clock w) (ticks w) (environ w) (data_file w)
    (report_files w) (faults w) (writes w) (report_path w)
    (events w ++ [e])%list.

Definition print (text : string) : M unit :=
  fun w => (Ok tt, emit (Printed text) w).

(** [sales.append(record)], seen from outside the list. *)
Definition append_record (record : pyval) : M unit :=
  fun w => (Ok tt, emit (Appended record) w).

(** [input(prompt)]: the next line typed, or [EOFError] at end of input. *)
Definition input (prompt : string) : M string :=
  fun w =>
    match stdin w with
    | [] => (Raise EOFError, emit (Prompted prompt) w)
    | line :: rest =>
        (Ok line,
         emit (Prompted prompt)
           (mkworld rest (clock w) (ticks w) (environ w) (data_file w)
              (report_files w) (faults w) (writes w) (report_path w)
              (events w)))
    end.

(** [datetime.now()]. *)
Definition now : M datetime :=
  fun w =>
    (Ok (clock w (ticks w)),
     mkworld (stdin w) (clock w) (S (ticks w)) (environ w) (data_file w)
       (report_files w) (faults w) (writes w) (report_path w) (events w)).

Definition getenv (default : string) : M string :=
  fun w => (Ok (match environ w with Some v => v | None => default end), w).

Definition file_exists (f : file_state) : bool :=
  match f with Missing => false | _ => true end.

(** [with DATA_FILE.open("r", encoding="utf-8") as file: json.load(file)]. *)
Definition open_and_json_load (f : file_state) : result pyval :=
  match f with
  | Missing => Raise FileNotFoundError
  | Unopenable e => Raise (exn_of_open_error e)
  | Undecodable => Raise UnicodeDecodeError
  | Malformed => Raise JSONDecodeError
  | IntegerTooLong => Raise ValueError
  | NestedTooDeep => Raise RecursionError
  | Document v => Ok v
  end.

(** The world once a call that writes to the disk is made, and the data
    file and the report files are left as [file] and [reports]. *)
Definition written (file : file_state) (reports : list (string * string))
    (w : world) : world :=
  mkworld (stdin w) (clock w) (ticks w) (environ w) file reports
    (faults w) (S (writes w)) (report_path w) (events w).

(** How opening the data file to write fails, if it does: always on a
    path that cannot be opened, and otherwise as the disk decides. *)
Definition write_fault (w : world) : option fault :=
  match data_file w with
  | Unopenable e => Some (Refused e)
  | _ => faults w (writes w)
  end.

(** [with DATA_FILE.open("w", encoding="utf-8") as file:
    json.dump(sales, file, indent=2)]: the file then holds the document
    [sales]. Opening empties the file before anything is written, and a
    JSON list cut short is no JSON document: a write that breaks off
    leaves a file that reads as [Malformed]. *)
Definition write_data_file (sales : list pyval) : M unit :=
  fun w =>
    match write_fault w with
    | Some (Refused e) =>
        (Raise (exn_of_open_error e), written (data_file w) (report_files w) w)
    | Some (BrokenOff _) =>
        (Raise OSError, written Malformed (report_files w) w)
    | None =>
        (Ok tt,
         emit (DataWritten sales)
           (written (Document (PList sales)) (report_files w) w))
    end.

(** [REPORTS_DIR.mkdir(exist_ok=True)]. *)
Definition mkdir_reports : M unit :=
  fun w =>
    match faults w (writes w) with
    | Some f => (Raise (exn_of_fault f), written (data_file w) (report_files w) w)
    | None => (Ok tt, emit ReportsDirMade (written (data_file w) (report_files w) w))
    end.

(** [REPORTS_DIR / name], as [str] gives it. *)
Definition path_in_reports (name : string) : M string :=
  fun w => (Ok (report_path w name), w).

(** [with report_path.open("w", encoding="utf-8") as report_file:
    report_file.write(text)]. *)
Definition write_report_file (name text : string) : M unit :=
  fun w =>
    match faults w (writes w) with
    | Some (Refused e) =>
        (Raise (exn_of_open_error e), written (data_file w) (report_files w) w)
    | Some (BrokenOff kept) =>
        (Raise OSError,
         written (data_file w)
           (dict_set name (substring 0 kept text) (report_files w)) w)
    | None =>
        (Ok tt,
         emit (ReportWritten name text)
           (written (data_file w) (dict_set name text (report_files w)) w))
    end.

(** ** The program *)

Definition DEFAULT_ADMIN_PASSWORD : string := "admin123".
Definition MAX_LOGIN_ATTEMPTS : nat := 3.

Definition get_admin_password : M string := getenv DEFAULT_ADMIN_PASSWORD.

Definition load_sales_data : M (list pyval) :=
  fun w =>
    if negb (file_exists (data_file w)) then (Ok [], w)
    else
      (try_except
         (data <- open_and_json_load (data_file w) ;;
          Ok (match data with PList items => items | _ => [] end))%result
         [JSONDecodeError; OSError]
         (Ok []),
       w).

Definition save_sales_data (sales : list pyval) : M unit :=
  write_data_file sales.

Section Program.

Context {rt : Runtime}.

(** [str(v)]. *)
Definition py_str (v : pyval) : string :=
  match v with
  | PStr s => s
  | _ => repr v
  end.

(** [float(v)]. *)
Definition py_float (v : pyval) : result float :=
  match v with
  | PFloat f => Ok f
  | PInt z => float_of_int z
  | PBool b => Ok (if b then Float64.one else Float64.zero)
  | PStr s =>
      match float_of_str s with
      | Some f => Ok f
      | None => Raise ValueError
      end
  | PNone | PList _ | PDict _ => Raise TypeError
  end.

Definition datetime_fromisoformat (s : string) : result datetime :=
  match fromisoformat s with
  | Some t => Ok t
  | None => Raise ValueError
  end.

Definition parse_sale_record (record : pyval) : result (option (datetime * float)) :=
  try_except
    (ts <- getitem record "timestamp" ;;
     let timestamp := py_str ts in
     am <- getitem record "amount" ;;
     amount <- py_float am ;;
     parsed_time <- datetime_fromisoformat timestamp ;;
     Ok (Some (parsed_time, amount)))%result
    [KeyError; TypeError; ValueError]
    (Ok None).

Fixpoint login_attempts (admin_password : string) (attempts : list nat) : M bool :=
  match attempts with
  | [] =>
      (print "Access denied. Too many failed attempts." ;;
       ret false)%prog
  | attempt :: rest =>
      (line <- input "Enter admin password: " ;;
       let password := strip line in
       if String.eqb password admin_password then
         print ("Login successful." ++ nl) ;;
         ret true
       else
         let attempts_left := (MAX_LOGIN_ATTEMPTS - attempt)%nat in
         (if (0 <? attempts_left)%nat then
            print ("Invalid password. Attempts left: "
                   ++ str_of_Z (Z.of_nat attempts_left))
          else ret tt) ;;
         login_attempts admin_password rest)%prog
  end.

Definition authenticate : M bool :=
  (print (nl ++ "=== Sales Management Login ===") ;;
   admin_password <- get_admin_password ;;
   login_attempts admin_password (seq 1 MAX_LOGIN_ATTEMPTS))%prog.

(** The record [add_sale] appends. *)
Definition new_record (amount : float) (t : datetime) : pyval :=
  PDict [("amount", PFloat amount); ("timestamp", PStr (isoformat_seconds t))].

(** The [try] block of [add_sale]. *)
Definition read_amount (amount_text : string) : result float :=
  (amount <- py_float (PStr amount_text) ;;
   if Float64.ltb amount Float64.zero then Raise ValueError else Ok amount)%result.

(** [add_sale] returns the list as it is when the function returns: the
    caller's list, grown by one record or left alone. The append is made
    before the list is saved: it is recorded as an event, which remains
    when saving raises. *)
Definition add_sale (sales : list pyval) : M (list pyval) :=
  (line <- input "Enter sale amount: " ;;
   let amount_text := strip line in
   match read_amount amount_text with
   | Raise e =>
       if catches [ValueError] e then
         print "Invalid amount. Please enter a non-negative number." ;;
         ret sales
       else lift (Raise e)
   | Ok amount =>
       t <- now ;;
       let sales' := (sales ++ [new_record amount t])%list in
       append_record (new_record amount t) ;;
       save_sales_data sales' ;;
       print ("Sale of " ++ format_2f amount ++ " added successfully.") ;;
       ret sales'
   end)%prog.

Fixpoint view_sales_loop (index : Z) (records : list pyval) (displayed : Z) : M Z :=
  match records with
  | [] => ret displayed
  | record :: rest =>
      (parsed <- lift (parse_sale_record record) ;;
       match parsed with
       | None =>
           print (str_of_Z index ++ ". Invalid record skipped") ;;
           view_sales_loop (index + 1) rest displayed
       | Some (sale_time, amount) =>
           print (str_of_Z index ++ ". Amount: " ++ format_2f amount ++ " | "
                  ++ "Time: " ++ strftime_seconds sale_time) ;;
           view_sales_loop (index + 1) rest (displayed + 1)
       end)%prog
  end.

Definition view_sales (sales : list pyval) : M unit :=
  match sales with
  | [] => print "No sales records found."
  | _ =>
      (print (nl ++ "=== Sales Records ===") ;;
       displayed <- view_sales_loop 1 sales 0 ;;
       if displayed =? 0 then print "No valid sales records to display."
       else ret tt)%prog
  end.

(** The loop of [show_daily_total]. *)
Fixpoint daily_total (today : date) (sales : list pyval) (total : float)
    : result float :=
  match sales with
  | [] => Ok total
  | record :: rest =>
      (parsed <- parse_sale_record record ;;
       match parsed with
       | None => daily_total today rest total
       | Some (sale_time, amount) =>
           if date_eqb (date_of sale_time) today
           then daily_total today rest (Float64.add total amount)
           else daily_total today rest total
       end)%result
  end.

Definition show_daily_total (sales : list pyval) : M unit :=
  (t <- now ;;
   let today := date_of t in
   total <- lift (daily_total today sales Float64.zero) ;;
   print ("Today's total sales: " ++ format_2f total))%prog.

(** The first loop of [generate_sales_report]. *)
Fixpoint collect_valid (sales : list pyval) (valid_sales : list (datetime * float))
    : result (list (datetime * float)) :=
  match sales with
  | [] => Ok valid_sales
  | record :: rest =>
      (parsed <- parse_sale_record record ;;
       match parsed with
       | Some p => collect_valid rest (valid_sales ++ [p])%list
       | None => collect_valid rest valid_sales
       end)%result
  end.

(** [grouped_by_day[key] += amount] on a [defaultdict(float)]. *)
Definition add_to_day (grouped : list (string * float)) (p : datetime * float)
    : list (string * float) :=
  let key := strftime_date (fst p) in
  let current := match dict_get key grouped with
                 | Some v => v
                 | None => Float64.zero
                 end in
  dict_set key (Float64.add current (snd p)) grouped.

Definition group_by_day (valid_sales : list (datetime * float))
    : list (string * float) :=
  fold_left add_to_day valid_sales [].

(** The figures of a report, as [generate_sales_report] holds them in
    [len(valid_sales)], [total_sales], [average_sale], [max_sale],
    [min_sale] and, per sorted day, [grouped_by_day[day]]. *)
Record statistics : Type := mkstatistics {
  total_records : nat;
  total_sales : float;
  average_sale : float;
  max_sale : float;
  min_sale : float;
  daily_totals : list (string * float)
}.

Definition compute_statistics (valid_sales : list (datetime * float))
    : result statistics :=
  (let amounts := map snd valid_sales in
   let total := builtin_sum amounts in
   average <- mean amounts ;;
   highest <- py_max amounts ;;
   lowest <- py_min amounts ;;
   let grouped_by_day := group_by_day valid_sales in
   Ok (mkstatistics (List.length valid_sales) total average highest lowest
         (map (fun day =>
                 (day, match dict_get day grouped_by_day with
                       | Some v => v
                       | None => Float64.zero
                       end))
              (sorted (dict_keys grouped_by_day)))))%result.

Definition report_lines (generated_at : datetime) (s : statistics) : list string :=
  List.app
   ["=== Sales Report ===";
    "Generated At: " ++ strftime_seconds generated_at;
    "Total Records: " ++ str_of_Z (Z.of_nat (total_records s));
    "Total Sales: " ++ format_2f (total_sales s);
    "Average Sale: " ++ format_2f (average_sale s);
    "Highest Sale: " ++ format_2f (max_sale s);
    "Lowest Sale: " ++ format_2f (min_sale s);
    "";
    "Daily Totals:"]
   (map (fun d => "- " ++ fst d ++ ": " ++ format_2f (snd d)) (daily_totals s)).

Definition NO_DATA : string :=
  "No valid sales records found. Report was not generated.".

Definition generate_sales_report (sales : list pyval) : M unit :=
  (valid_sales <- lift (collect_valid sales []) ;;
   match valid_sales with
   | [] => print NO_DATA
   | _ =>
       s <- lift (compute_statistics valid_sales) ;;
       generated_at <- now ;;
       let report_text := join nl (report_lines generated_at s) in
       print (nl ++ report_text) ;;
       mkdir_reports ;;
       named_at <- now ;;
       let report_name := strftime_report_name named_at in
       report_path <- path_in_reports report_name ;;
       write_report_file report_name (report_text ++ nl) ;;
       print ("Report saved to: " ++ report_path)
   end)%prog.

Definition print_menu : M unit :=
  (print (nl ++ "=== Admin Dashboard ===") ;;
   print "1. Add Sale" ;;
   print "2. View Sales" ;;
   print "3. Show Daily Total" ;;
   print "4. Generate Sales Report" ;;
   print "5. Exit")%prog.

(** The [while True] loop of [menu_loop]. Every turn reads a line, so a turn
    is never started with more turns behind it than lines typed: the loop
    is unrolled [fuel] times and [menu_loop] gives it one more turn than
    there are lines. *)
Fixpoint menu_turns (fuel : nat) (sales : list pyval) : M unit :=
  match fuel with
  | O => lift (Raise EOFError)
  | S fuel' =>
      (print_menu ;;
       line <- input "Choose an option (1-5): " ;;
       let choice := strip line in
       if String.eqb choice "1" then
         sales' <- add_sale sales ;; menu_turns fuel' sales'
       else if String.eqb choice "2" then
         view_sales sales ;; menu_turns fuel' sales
       else if String.eqb choice "3" then
         show_daily_total sales ;; menu_turns fuel' sales
       else if String.eqb choice "4" then
         generate_sales_report sales ;; menu_turns fuel' sales
       else if String.eqb choice "5" then
         print "Exiting Sales Management System. Goodbye!"
       else
         print "Invalid choice. Please select 1, 2, 3, 4, or 5." ;;
         menu_turns fuel' sales)%prog
  end.

Definition menu_loop : M unit :=
  (sales <- load_sales_data ;;
   fun w => menu_turns (S (List.length (stdin w))) sales w)%prog.

Definition main : M unit :=
  (ok <- authenticate ;;
   if ok then menu_loop else ret tt)%prog.

End Program.

(** ** A reference runtime

    A runtime that reads the texts the program itself writes: timestamps
    as [isoformat(timespec="seconds")] prints a naive time (and a date
    alone), plain decimal numerals, and the lower-case words [nan], [inf]
    and [infinity]. It serves the closed examples; on these texts it agrees
    with Python. *)

Module Reference.

Definition digit_value (c : ascii) : option Z :=
  let n := Z.of_nat (nat_of_ascii c) in
  if (48 <=? n) && (n <=? 57) then Some (n - 48) else None.

(** The digits of [s] read as a number, with how many there are. *)
Fixpoint digits_from (s : string) (acc : Z) (count : Z) : option (Z * Z) :=
  match s with
  | EmptyString => Some (acc, count)
  | String c rest =>
      match digit_value c with
      | Some d => digits_from rest (10 * acc + d) (count + 1)
      | None => None
      end
  end.

Definition number (s : string) : option Z :=
  match s with
  | EmptyString => None
  | _ => option_map fst (digits_from s 0 0)
  end.

(** [s] cut at the first occurrence of [c]. *)
Fixpoint split_at (c : ascii) (s : string) : string * option string :=
  match s with
  | EmptyString => (EmptyString, None)
  | String a rest =>
      if Ascii.eqb a c then (EmptyString, Some rest)
      else let '(l, r) := split_at c rest in (String a l, r)
  end.

Definition unsigned_float (negative : bool) (s : string) : option float :=
  if String.eqb s "nan" then Some Float64.nan
  else if String.eqb s "inf" || String.eqb s "infinity"
  then Some (S754_infinity negative)
  else
    let '(whole, fraction) := split_at "." s in
    let fraction := match fraction with Some f => f | None => EmptyString end in
    match whole ++ fraction with
    | EmptyString => None
    | all =>
        match digits_from all 0 0, digits_from fraction 0 0 with
        | Some (m, _), Some (_, k) =>
            if m =? 0 then Some (S754_zero negative)
            else Some (Float64.round_ratio (if negative then - m else m) 0
                         (Z.to_pos (10 ^ k)))
        | _, _ => None
        end
    end.

Definition float_of_str (s : string) : option float :=
  match s with
  | String "-" rest => unsigned_float true rest
  | String "+" rest => unsigned_float false rest
  | _ => unsigned_float false s
  end.

Definition is_leap (y : Z) : bool :=
  (y mod 4 =? 0) && (negb (y mod 100 =? 0) || (y mod 400 =? 0)).

Definition days_in_month (y m : Z) : Z :=
  if m =? 2 then (if is_leap y then 29 else 28)
  else if (m =? 4) || (m =? 6) || (m =? 9) || (m =? 11) then 30
  else 31.

Definition valid_date (y m d : Z) : bool :=
  (1 <=? y) && (y <=? 9999) && (1 <=? m) && (m <=? 12)
  && (1 <=? d) && (d <=? days_in_month y m).

Definition valid_time (h mi s : Z) : bool :=
  (0 <=? h) && (h <=? 23) && (0 <=? mi) && (mi <=? 59)
  && (0 <=? s) && (s <=? 59).

Definition two (a b : ascii) : option Z :=
  match digit_value a, digit_value b with
  | Some x, Some y => Some (10 * x + y)
  | _, _ => None
  end.

Definition four (a b c d : ascii) : option Z :=
  match two a b, two c d with
  | Some x, Some y => Some (100 * x + y)
  | _, _ => None
  end.

Definition fromisoformat (s : string) : option datetime :=
  match s with
  | String y1 (String y2 (String y3 (String y4 (String "-"
      (String m1 (String m2 (String "-" (String d1 (String d2 rest))))))))) =>
      match four y1 y2 y3 y4, two m1 m2, two d1 d2 with
      | Some y, Some m, Some d =>
          if valid_date y m d then
            match rest with
            | EmptyString => Some (mkdatetime y m d 0 0 0 0 None)
            | String "T" (String h1 (String h2 (String ":"
                (String n1 (String n2 (String ":"
                  (String s1 (String s2 EmptyString)))))))) =>
                match two h1 h2, two n1 n2, two s1 s2 with
                | Some h, Some mi, Some sec =>
                    if valid_time h mi sec
                    then Some (mkdatetime y m d h mi sec 0 None)
                    else None
                | _, _, _ => None
                end
            | _ => None
            end
          else None
      | _, _, _ => None
      end
  | _ => None
  end.

(** [str(v)] for [None], a boolean and an integer; the [repr] of a float or
    of a container, which no example below prints, is left as an ellipsis. *)
Definition repr (v : pyval) : string :=
  match v with
  | PNone => "None"
  | PBool true => "True"
  | PBool false => "False"
  | PInt z => str_of_Z z
  | PStr s => s
  | PFloat _ | PList _ | PDict _ => "..."
  end.

(** The built-in [sum] and the [%Y] of CPython 3.11 on Linux. *)
Definition runtime : Runtime :=
  Build_Runtime float_of_str fromisoformat repr false false.

End Reference.

(** ** What the properties are stated with *)

Section Notions.

Context {rt : Runtime}.

(** The validator returns on [record], with a pair or with [None]. *)
Definition returns (record : pyval) : Prop :=
  exists parsed, parse_sale_record record = Ok parsed.

(** The records that validate successfully, as validated pairs, in the
    order of the list. *)
Definition valid_pairs (sales : list pyval) : list (datetime * float) :=
  flat_map (fun record =>
              match parse_sale_record record with
              | Ok (Some p) => [p]
              | _ => []
              end) sales.

Definition valid_amounts (sales : list pyval) : list float :=
  map snd (valid_pairs sales).

End Notions.

Section Rejection.

Context {rt : Runtime}.

(** [record[key]] does not evaluate: [record] is no dictionary, or it has
    no such key. *)
Definition field_missing (record : pyval) (key : string) : Prop :=
  forall v, getitem record key <> Ok v.

(** The timestamp field is there and its text is not an ISO date-time. *)
Definition timestamp_unparseable (record : pyval) : Prop :=
  exists ts, getitem record "timestamp" = Ok ts
             /\ fromisoformat (py_str ts) = None.

(** The amount field is there and [float] refuses it: the wrong type, or
    text that is not a number. *)
Definition amount_not_a_number (record : pyval) : Prop :=
  exists am, getitem record "amount" = Ok am
             /\ (py_float am = Raise TypeError \/ py_float am = Raise ValueError).

(** The amount field is an integer beyond the range of a float. *)
Definition amount_out_of_range (record : pyval) : Prop :=
  exists z, getitem record "amount" = Ok (PInt z)
            /\ float_of_int z = Raise OverflowError.

End Rejection.

(** A stored record whose amount is the integer [10^400], and one whose
    amount is its opposite. *)
Definition oversized_record : pyval :=
  PDict [("timestamp", PStr "2024-01-01T00:00:00"); ("amount", PInt (10 ^ 400))].

Definition negative_oversized_record : pyval :=
  PDict [("timestamp", PStr "2024-01-01T00:00:00");
         ("amount", PInt (- (10 ^ 400)))].

Definition on_date (today : date) (p : datetime * float) : bool :=
  date_eqb (date_of (fst p)) today.

(** [m] is the largest of the numbers among [xs]: one of them, and none
    of them is above it. A NaN is no number: it is neither the largest nor
    compared with it. *)
Definition is_maximum (m : float) (xs : list float) : Prop :=
  In m xs /\ Float64.is_nan m = false
  /\ forall x, In x xs -> Float64.is_nan x = false -> Float64.leb x m = true.

Definition is_minimum (m : float) (xs : list float) : Prop :=
  In m xs /\ Float64.is_nan m = false
  /\ forall x, In x xs -> Float64.is_nan x = false -> Float64.leb m x = true.

(** The rational [m * 2^e], and the sum, as rationals, of the exact
    values of finite floats. *)
Definition exact_value (x : Z * Z) : Q :=
  (inject_Z (fst x) * Qpower 2 (snd x))%Q.

Definition exact_total (xs : list float) : Q :=
  fold_right (fun x acc => (exact_value (Float64.exact x) + acc)%Q) 0%Q xs.

(** The heading of the dashboard, which nothing but the menu prints. *)
Definition is_menu_line (e : event) : bool :=
  match e with
  | Printed text => String.eqb text (nl ++ "=== Admin Dashboard ===")
  | _ => false
  end.

(** A stored sale, and the report of the three sales of 2024-01-01 (10.00
    and 5.00) and 2024-01-02 (3.00). *)
Definition sale (timestamp : string) (amount : float) : pyval :=
  PDict [("timestamp", PStr timestamp); ("amount", PFloat amount)].

Definition example_statistics : statistics :=
  mkstatistics 3 (Float64.of_Z 18) (Float64.of_Z 6) (Float64.of_Z 10)
    (Float64.of_Z 3)
    [("2024-01-01", Float64.of_Z 15); ("2024-01-02", Float64.of_Z 3)].

(** The world once a line is read at [prompt]. *)
Definition after_input (prompt : string) (rest : list string) (w : world) : world :=
  emit (Prompted prompt)
    (mkworld rest (clock w) (ticks w) (environ w) (data_file w)
       (report_files w) (faults w) (writes w) (report_path w) (events w)).

(** A world where nothing has happened yet: [lines] are typed, the clock
    reads noon of 2024-01-02 and then a second more at each reading, the
    disk refuses nothing and the script is in [/srv/sales]. *)
Definition initial_world (lines : list string) (file : file_state) : world :=
  mkworld lines (fun n => mkdatetime 2024 1 2 12 0 (Z.of_nat n) 0 None) 0 None
    file [] (fun _ => None) 0 (fun name => "/srv/sales/reports/" ++ name) [].

(** [w] on a disk that fails as [f] says. *)
Definition with_faults (f : nat -> option fault) (w : world) : world :=
  mkworld (stdin w) (clock w) (ticks w) (environ w) (data_file w)
    (report_files w) f (writes w) (report_path w) (events w).

(** The password [authenticate] expects. *)
Definition admin_password_of (w : world) : string :=
  match environ w with Some v => v | None => DEFAULT_ADMIN_PASSWORD end.

(** An action that reads no line leaves the typed lines as they are. *)
Definition keeps_stdin {A : Type} (m : M A) : Prop :=
  forall w, stdin (snd (m w)) = stdin w.

(** [w] with another data file. *)
Definition with_data_file (f : file_state) (w : world) : world :=
  mkworld (stdin w) (clock w) (ticks w) (environ w) f (report_files w)
    (faults w) (writes w) (report_path w) (events w).

(** The error with which a path refuses to be opened, if it does. *)
Definition blocked (f : file_state) : option open_error :=
  match f with
  | Unopenable e => Some e
  | _ => None
  end.

(** Two worlds that differ at most by what the data file holds: the same
    console, clock, reports and disk, and a data file that opens, or
    refuses to, in the same way. *)
Definition same_session (w1 w2 : world) : Prop :=
  stdin w1 = stdin w2 /\ clock w1 = clock w2 /\ ticks w1 = ticks w2
  /\ environ w1 = environ w2 /\ report_files w1 = report_files w2
  /\ faults w1 = faults w2 /\ writes w1 = writes w2
  /\ report_path w1 = report_path w2 /\ events w1 = events w2
  /\ blocked (data_file w1) = blocked (data_file w2).

(** An action that does not read the data file. *)
Definition file_blind {A : Type} (m : M A) : Prop :=
  forall w1 w2, same_session w1 w2 ->
    fst (m w1) = fst (m w2) /\ same_session (snd (m w1)) (snd (m w2)).

(** A calendar date and a time of day within their ranges. *)
Definition valid_datetime (t : datetime) : bool :=
  Reference.valid_date (year t) (month t) (day t)
  && Reference.valid_time (hour t) (minute t) (second t).

(** The data file reads as no list: it is missing, cannot be opened, is
    not JSON, or is a JSON document other than a list. *)
Definition reads_as_empty (f : file_state) : Prop :=
  match f with
  | Missing | Unopenable _ | Malformed => True
  | Document (PList _) | Undecodable | IntegerTooLong | NestedTooDeep => False
  | Document _ => True
  end.

(** [w] after the events [es], in order. *)
Definition emit_all (es : list event) (w : world) : world :=
  fold_left (fun w e => emit e w) es w.

(** An action that does nothing but print. *)
Definition only_prints {A : Type} (m : M A) : Prop :=
  forall w, exists texts, snd (m w) = emit_all (map Printed texts) w.

(** An action that leaves a field of the world as it is. *)
Definition preserves {F A : Type} (field : world -> F) (m : M A) : Prop :=
  forall w, field (snd (m w)) = field w.

(** The prompts and warnings of [n] failed attempts at the password. *)
Definition failed_attempts (n : nat) : list event :=
  flat_map (fun attempt =>
              [Prompted "Enter admin password: ";
               Printed ("Invalid password. Attempts left: "
                        ++ str_of_Z (Z.of_nat (MAX_LOGIN_ATTEMPTS - attempt)))])
           (seq 1 n).

(** The three sales of the example, as stored. *)
Definition example_sales : list pyval :=
  [sale "2024-01-01T09:00:00" (Float64.of_Z 10);
   sale "2024-01-01T17:30:00" (Float64.of_Z 5);
   sale "2024-01-02T08:15:00" (Float64.of_Z 3)].

(** The text [isoformat(timespec="seconds")] gives for a naive time,
    written out. *)
Definition iso_text (y m d h mi s : Z) : string :=
  pad4 y ++ "-" ++ pad2 m ++ "-" ++ pad2 d ++ "T"
  ++ pad2 h ++ ":" ++ pad2 mi ++ ":" ++ pad2 s.

Section Report.

Context {rt : Runtime}.

Definition on_day (key : string) (p : datetime * float) : bool :=
  String.eqb (strftime_date (fst p)) key.

(** The count, the sum, the mean and the sums per day of [pairs]. *)
Definition figures_of (pairs : list (datetime * float)) (s : statistics) : Prop :=
  total_records s = List.length pairs
  /\ total_sales s = builtin_sum (map snd pairs)
  /\ mean (map snd pairs) = Ok (average_sale s)
  /\ Sorted (fun a b => String.leb a b = true) (map fst (daily_totals s))
  /\ NoDup (map fst (daily_totals s))
  /\ (forall key, In key (map fst (daily_totals s))
                  <-> exists p, In p pairs /\ strftime_date (fst p) = key)
  /\ (forall key v, In (key, v) (daily_totals s)
                    -> v = py_sum (map snd (filter (on_day key) pairs))).

(** The highest and the lowest figure of a report on [pairs]: the
    largest and the smallest of the amounts that are numbers, unless the
    first amount is a NaN, which [max] and [min] then keep. *)
Definition extremes_of (pairs : list (datetime * float)) (s : statistics) : Prop :=
  match map snd pairs with
  | [] => True
  | first :: _ =>
      if Float64.is_nan first
      then max_sale s = Float64.nan /\ min_sale s = Float64.nan
      else is_maximum (max_sale s) (map snd pairs)
           /\ is_minimum (min_sale s) (map snd pairs)
  end.

(** The text of a report with the figures [s], made in the world [w]. *)
Definition report_text_of (s : statistics) (w : world) : string :=
  join nl (report_lines (clock w (ticks w)) s).

(** The world once that report is shown. *)
Definition report_shown (s : statistics) (w : world) : world :=
  emit (Printed (nl ++ report_text_of s w)) (snd (now w)).

(** The world once it is shown and saved. *)
Definition report_saved (s : statistics) (w : world) : world :=
  let text := report_text_of s w in
  let name := strftime_report_name (clock w (S (ticks w))) in
  mkworld (stdin w) (clock w) (S (S (ticks w))) (environ w) (data_file w)
    (dict_set name (text ++ nl) (report_files w))
    (faults w) (S (S (writes w))) (report_path w)
    (events w ++ [Printed (nl ++ text); ReportsDirMade;
                  ReportWritten name (text ++ nl);
                  Printed ("Report saved to: " ++ report_path w name)])%list.

(** The line of [view_sales] for the record at place [index]. *)
Definition sales_line (index : Z) (parsed : option (datetime * float)) : string :=
  match parsed with
  | None => str_of_Z index ++ ". Invalid record skipped"
  | Some (sale_time, amount) =>
      str_of_Z index ++ ". Amount: " ++ format_2f amount ++ " | "
      ++ "Time: " ++ strftime_seconds sale_time
  end.

Fixpoint numbered_lines (index : Z) (parsed : list (option (datetime * float)))
    : list event :=
  match parsed with
  | [] => []
  | p :: rest => Printed (sales_line index p) :: numbered_lines (index + 1) rest
  end.

(** What the validator makes of [record], an error counting as a
    rejection. *)
Definition validated (record : pyval) : option (datetime * float) :=
  match parse_sale_record record with
  | Ok parsed => parsed
  | Raise _ => None
  end.

(** The sales entered in a session: records made, as [add_sale] makes
    them, of an amount read from a line of [lines] and not below zero, and
    of a reading of the clock. *)
Definition entered (lines : list string) (clock : nat -> datetime)
    (record : pyval) : Prop :=
  exists line a n,
    In line lines
    /\ float_of_str (strip line) = Some a
    /\ Float64.ltb a Float64.zero = false
    /\ record = PDict [("amount", PFloat a);
                       ("timestamp", PStr (isoformat_seconds (clock n)))].

End Report.

(** ** Order on floats *)

Ltac order_cases :=
  repeat match goal with
  | |- context [PosDef.Pos.compare_cont Eq ?a ?b] =>
      change (PosDef.Pos.compare_cont Eq a b) with (Pos.compare a b) in *
  | H : context [PosDef.Pos.compare_cont Eq ?a ?b] |- _ =>
      change (PosDef.Pos.compare_cont Eq a b) with (Pos.compare a b) in *
  | |- context [Z.compare ?a ?b] => destruct (Z.compare_spec a b)
  | H : context [Z.compare ?a ?b] |- _ => destruct (Z.compare_spec a b)
  | |- context [Pos.compare ?a ?b] => destruct (Pos.compare_spec a b)
  | H : context [Pos.compare ?a ?b] |- _ => destruct (Pos.compare_spec a b)
  end; simpl in *; try congruence; try lia.

Ltac float_cases x := destruct x as [[]|[]| |[] ? ?].

Lemma leb_trans (x y z : float) :
  Float64.leb x y = true -> Float64.leb y z = true -> Float64.leb x z = true.
Proof.
  unfold Float64.leb, SFleb, SFcompare.
  float_cases x; float_cases y; float_cases z; simpl;
    try congruence; intros; order_cases.
Qed.

Lemma ltb_leb (x y : float) : Float64.ltb x y = true -> Float64.leb x y = true.
Proof.
  unfold Float64.ltb, Float64.leb, SFltb, SFleb.
  destruct (SFcompare x y) as [[]|]; congruence.
Qed.

Lemma leb_refl (x : float) : Float64.is_nan x = false -> Float64.leb x x = true.
Proof.
  unfold Float64.leb, SFleb, SFcompare.
  float_cases x; simpl; try congruence; intros; order_cases.
Qed.

Lemma not_ltb_leb (x y : float) :
  Float64.is_nan x = false -> Float64.is_nan y = false ->
  Float64.ltb x y = false -> Float64.leb y x = true.
Proof.
  unfold Float64.ltb, Float64.leb, SFltb, SFleb, SFcompare.
  float_cases x; float_cases y; simpl; try congruence; intros; order_cases.
Qed.

(** ** [max] and [min] *)

Lemma ltb_nan_r (x y : float) : Float64.is_nan y = true -> Float64.ltb x y = false.
Proof. destruct y; try discriminate. intros _. float_cases x; reflexivity. Qed.

Lemma ltb_nan_l (x y : float) : Float64.is_nan x = true -> Float64.ltb x y = false.
Proof. destruct x; try discriminate. intros _. reflexivity. Qed.

Lemma max_fold_spec (rest seen : list float) (m : float) :
  is_maximum m seen ->
  is_maximum
    (fold_left (fun m item => if Float64.gtb item m then item else m) rest m)
    (seen ++ rest).
Proof.
  revert seen m.
  induction rest as [|item rest IH]; intros seen m (Hin & Hm & Hub); simpl.
  - rewrite app_nil_r. repeat split; assumption.
  - replace (seen ++ item :: rest)%list with ((seen ++ [item]) ++ rest)%list
      by (rewrite <- app_assoc; reflexivity).
    apply IH.
    change (Float64.gtb item m) with (Float64.ltb m item).
    destruct (Float64.is_nan item) eqn:Hitem.
    + rewrite (ltb_nan_r m item Hitem).
      split; [apply in_or_app; left; exact Hin | split; [exact Hm |]].
      intros x Hx Hnum. apply in_app_or in Hx. destruct Hx as [Hx | [<- | []]].
      * apply Hub; assumption.
      * congruence.
    + destruct (Float64.ltb m item) eqn:Hlt.
      * split; [apply in_or_app; right; left; reflexivity | split; [exact Hitem |]].
        intros x Hx Hnum. apply in_app_or in Hx. destruct Hx as [Hx | [<- | []]].
        -- apply leb_trans with m; [apply Hub; assumption | apply ltb_leb, Hlt].
        -- apply leb_refl, Hitem.
      * split; [apply in_or_app; left; exact Hin | split; [exact Hm |]].
        intros x Hx Hnum. apply in_app_or in Hx. destruct Hx as [Hx | [<- | []]].
        -- apply Hub; assumption.
        -- apply not_ltb_leb; assumption.
Qed.

Lemma min_fold_spec (rest seen : list float) (m : float) :
  is_minimum m seen ->
  is_minimum
    (fold_left (fun m item => if Float64.ltb item m then item else m) rest m)
    (seen ++ rest).
Proof.
  revert seen m.
  induction rest as [|item rest IH]; intros seen m (Hin & Hm & Hlb); simpl.
  - rewrite app_nil_r. repeat split; assumption.
  - replace (seen ++ item :: rest)%list with ((seen ++ [item]) ++ rest)%list
      by (rewrite <- app_assoc; reflexivity).
    apply IH.
    destruct (Float64.is_nan item) eqn:Hitem.
    + rewrite (ltb_nan_l item m Hitem).
      split; [apply in_or_app; left; exact Hin | split; [exact Hm |]].
      intros x Hx Hnum. apply in_app_or in Hx. destruct Hx as [Hx | [<- | []]].
      * apply Hlb; assumption.
      * congruence.
    + destruct (Float64.ltb item m) eqn:Hlt.
      * split; [apply in_or_app; right; left; reflexivity | split; [exact Hitem |]].
        intros x Hx Hnum. apply in_app_or in Hx. destruct Hx as [Hx | [<- | []]].
        -- apply leb_trans with m; [apply ltb_leb, Hlt | apply Hlb; assumption].
        -- apply leb_refl, Hitem.
      * split; [apply in_or_app; left; exact Hin | split; [exact Hm |]].
        intros x Hx Hnum. apply in_app_or in Hx. destruct Hx as [Hx | [<- | []]].
        -- apply Hlb; assumption.
        -- apply not_ltb_leb; assumption.
Qed.

(** When the first item is a number, [max] and [min] give the largest and
    the smallest of the numbers, the NaNs that follow being passed over. *)
Lemma py_max_spec (x : float) (rest : list float) :
  Float64.is_nan x = false ->
  exists m, py_max (x :: rest) = Ok m /\ is_maximum m (x :: rest).
Proof.
  intros Hx. eexists; split; [reflexivity |].
  apply (max_fold_spec rest [x] x).
  split; [left; reflexivity | split; [exact Hx |]].
  intros y [<- | []] _. apply leb_refl, Hx.
Qed.

Lemma py_min_spec (x : float) (rest : list float) :
  Float64.is_nan x = false ->
  exists m, py_min (x :: rest) = Ok m /\ is_minimum m (x :: rest).
Proof.
  intros Hx. eexists; split; [reflexivity |].
  apply (min_fold_spec rest [x] x).
  split; [left; reflexivity | split; [exact Hx |]].
  intros y [<- | []] _. apply leb_refl, Hx.
Qed.

(** When the first item is a NaN, no later item compares above or below
    it: [max] and [min] give that NaN. *)
Lemma py_max_nan (rest : list float) : py_max (Float64.nan :: rest) = Ok Float64.nan.
Proof.
  unfold py_max. f_equal.
  induction rest as [|item rest IH]; cbn [fold_left]; [reflexivity |].
  change (Float64.gtb item Float64.nan) with (Float64.ltb Float64.nan item).
  rewrite (ltb_nan_l Float64.nan item eq_refl). exact IH.
Qed.

Lemma py_min_nan (rest : list float) : py_min (Float64.nan :: rest) = Ok Float64.nan.
Proof.
  unfold py_min. f_equal.
  induction rest as [|item rest IH]; cbn [fold_left]; [reflexivity |].
  rewrite (ltb_nan_r item Float64.nan eq_refl). exact IH.
Qed.

Lemma is_nan_nan (x : float) : Float64.is_nan x = true -> x = Float64.nan.
Proof. destruct x; try discriminate. reflexivity. Qed.

(** ** The mean

    On finite floats the sum that [mean] divides is exact: no addition
    rounds, and the quotient by the count is rounded once. *)

Lemma pow2_shift (e k : Z) :
  0 <= k -> (inject_Z (2 ^ k) * Qpower 2 e == Qpower 2 (k + e))%Q.
Proof.
  intros Hk. rewrite Zpower_Qpower by exact Hk.
  rewrite Qpower_plus by discriminate. reflexivity.
Qed.

Lemma exact_add_value (a b : Z * Z) :
  (exact_value (Float64.exact_add a b) == exact_value a + exact_value b)%Q.
Proof.
  destruct a as [ma ea], b as [mb eb].
  unfold Float64.exact_add, exact_value. cbn [fst snd].
  set (e := Z.min ea eb).
  rewrite inject_Z_plus, !inject_Z_mult.
  assert (Ha : (inject_Z (2 ^ (ea - e)) * Qpower 2 e == Qpower 2 ea)%Q).
  { rewrite pow2_shift by (subst e; lia).
    replace (ea - e + e) with ea by lia. reflexivity. }
  assert (Hb : (inject_Z (2 ^ (eb - e)) * Qpower 2 e == Qpower 2 eb)%Q).
  { rewrite pow2_shift by (subst e; lia).
    replace (eb - e + e) with eb by lia. reflexivity. }
  rewrite <- Ha, <- Hb. ring.
Qed.

Lemma exact_fold_value (xs : list float) (acc : Z * Z) :
  (exact_value
     (fold_left (fun acc x => Float64.exact_add acc (Float64.exact x)) xs acc)
   == exact_value acc + exact_total xs)%Q.
Proof.
  revert acc. induction xs as [|x xs IH]; intros acc; cbn [fold_left].
  - unfold exact_total. cbn [fold_right]. ring.
  - change (exact_total (x :: xs))
      with (exact_value (Float64.exact x) + exact_total xs)%Q.
    rewrite IH, exact_add_value. ring.
Qed.

Lemma mean_exact (xs : list float) :
  xs <> [] ->
  forallb Float64.is_finite xs = true ->
  exists total : Z * Z,
    (exact_value total == exact_total xs)%Q
    /\ mean xs =
       Ok (Float64.round_ratio (fst total) (snd total)
             (Z.to_pos (Z.of_nat (List.length xs)))).
Proof.
  intros Hne Hfinite.
  exists (fold_left (fun acc x => Float64.exact_add acc (Float64.exact x)) xs (0, 0)).
  split.
  - rewrite exact_fold_value. unfold exact_value. cbn [fst snd]. ring.
  - destruct xs as [|x xs]; [congruence |]. unfold mean. rewrite Hfinite. reflexivity.
Qed.

(** ** Dictionaries *)

Section Dict.

Context {V : Type}.

Lemma dict_get_set_same (key : string) (v : V) (d : list (string * V)) :
  dict_get key (dict_set key v d) = Some v.
Proof.
  induction d as [|[k v'] d IH]; simpl.
  - rewrite String.eqb_refl. reflexivity.
  - destruct (String.eqb k key) eqn:E; simpl; rewrite E; [reflexivity | exact IH].
Qed.

Lemma dict_get_set_other (key key' : string) (v : V) (d : list (string * V)) :
  key <> key' -> dict_get key' (dict_set key v d) = dict_get key' d.
Proof.
  intros Hne. induction d as [|[k v'] d IH]; simpl.
  - destruct (String.eqb key key') eqn:E; [|reflexivity].
    apply String.eqb_eq in E. contradiction.
  - destruct (String.eqb k key) eqn:E; simpl.
    + apply String.eqb_eq in E. subst k.
      destruct (String.eqb key key') eqn:E'; [|reflexivity].
      apply String.eqb_eq in E'. contradiction.
    + rewrite IH. reflexivity.
Qed.

Lemma dict_get_keys (key : string) (d : list (string * V)) :
  In key (dict_keys d) <-> dict_get key d <> None.
Proof.
  induction d as [|[k v] d IH]; simpl.
  - split; [intros [] | congruence].
  - destruct (String.eqb k key) eqn:E.
    + apply String.eqb_eq in E. split; [congruence | intros _; left; exact E].
    + rewrite <- IH. split; [intros [H | H]; [|exact H] | intros H; right; exact H].
      subst k. rewrite String.eqb_refl in E. discriminate.
Qed.

Lemma dict_set_keys_NoDup (key : string) (v : V) (d : list (string * V)) :
  NoDup (dict_keys d) -> NoDup (dict_keys (dict_set key v d)).
Proof.
  intros Hd. induction d as [|[k v'] d IH]; simpl.
  - constructor; [intros [] | constructor].
  - inversion Hd as [|? ? Hk Hd']; subst.
    destruct (String.eqb k key) eqn:E; simpl.
    + constructor; assumption.
    + constructor; [|apply IH, Hd'].
      intros Hin. apply dict_get_keys in Hin.
      rewrite dict_get_set_other in Hin.
      * apply Hk, dict_get_keys, Hin.
      * intros ->. rewrite String.eqb_refl in E. discriminate.
Qed.

End Dict.

(** ** Grouping by day *)

Section Grouping.

Context {rt : Runtime}.

Lemma add_to_day_get (d : list (string * float)) (p : datetime * float) (key : string) :
  dict_get key (add_to_day d p) =
  if on_day key p
  then Some (Float64.add
               (match dict_get key d with Some v => v | None => Float64.zero end)
               (snd p))
  else dict_get key d.
Proof.
  unfold add_to_day, on_day. cbv zeta.
  destruct (String.eqb (strftime_date (fst p)) key) eqn:E.
  - apply String.eqb_eq in E. rewrite <- E. apply dict_get_set_same.
  - apply dict_get_set_other. intros Heq.
    rewrite Heq, String.eqb_refl in E. discriminate.
Qed.

Lemma fold_add_to_day_get (pairs : list (datetime * float)) (d : list (string * float))
    (key : string) :
  dict_get key (fold_left add_to_day pairs d) =
  match dict_get key d, filter (on_day key) pairs with
  | None, [] => None
  | start, matching =>
      Some (fold_left Float64.add (map snd matching)
              (match start with Some v => v | None => Float64.zero end))
  end.
Proof.
  revert d. induction pairs as [|p pairs IH]; intros d; simpl.
  - destruct (dict_get key d); reflexivity.
  - rewrite IH, add_to_day_get.
    destruct (on_day key p); simpl; [|reflexivity].
    destruct (filter (on_day key) pairs); destruct (dict_get key d); reflexivity.
Qed.

Lemma group_by_day_get (pairs : list (datetime * float)) (key : string) :
  dict_get key (group_by_day pairs) =
  match filter (on_day key) pairs with
  | [] => None
  | matching => Some (py_sum (map snd matching))
  end.
Proof.
  unfold group_by_day. rewrite fold_add_to_day_get. simpl.
  destruct (filter (on_day key) pairs); reflexivity.
Qed.

Lemma group_by_day_NoDup (pairs : list (datetime * float)) :
  NoDup (dict_keys (group_by_day pairs)).
Proof.
  unfold group_by_day.
  assert (H : forall d, NoDup (dict_keys d) ->
                        NoDup (dict_keys (fold_left add_to_day pairs d))).
  { induction pairs as [|p pairs IH]; intros d Hd; simpl; [exact Hd |].
    apply IH. unfold add_to_day. apply dict_set_keys_NoDup, Hd. }
  apply H. constructor.
Qed.

Lemma group_by_day_keys (pairs : list (datetime * float)) (key : string) :
  In key (dict_keys (group_by_day pairs))
  <-> exists p, In p pairs /\ strftime_date (fst p) = key.
Proof.
  rewrite dict_get_keys, group_by_day_get. split.
  - intros H. destruct (filter (on_day key) pairs) as [|p l] eqn:E; [congruence |].
    assert (Hp : In p (filter (on_day key) pairs)) by (rewrite E; left; reflexivity).
    apply filter_In in Hp. destruct Hp as [Hp Hday].
    exists p. split; [exact Hp | apply String.eqb_eq, Hday].
  - intros [p [Hp Hday]].
    assert (Hin : In p (filter (on_day key) pairs)).
    { apply filter_In. split; [exact Hp | apply String.eqb_eq, Hday]. }
    destruct (filter (on_day key) pairs); [destruct Hin | congruence].
Qed.

End Grouping.

(** ** The fields of a world

    What [emit] and [after_input] leave of a world. *)

Lemma stdin_emit e w : stdin (emit e w) = stdin w.
Proof. reflexivity. Qed.
Lemma clock_emit e w : clock (emit e w) = clock w.
Proof. reflexivity. Qed.
Lemma ticks_emit e w : ticks (emit e w) = ticks w.
Proof. reflexivity. Qed.
Lemma environ_emit e w : environ (emit e w) = environ w.
Proof. reflexivity. Qed.
Lemma data_file_emit e w : data_file (emit e w) = data_file w.
Proof. reflexivity. Qed.
Lemma report_files_emit e w : report_files (emit e w) = report_files w.
Proof. reflexivity. Qed.
Lemma faults_emit e w : faults (emit e w) = faults w.
Proof. reflexivity. Qed.
Lemma writes_emit e w : writes (emit e w) = writes w.
Proof. reflexivity. Qed.
Lemma report_path_emit e w : report_path (emit e w) = report_path w.
Proof. reflexivity. Qed.
Lemma events_emit e w : events (emit e w) = (events w ++ [e])%list.
Proof. reflexivity. Qed.

Lemma stdin_after_input p rest w : stdin (after_input p rest w) = rest.
Proof. reflexivity. Qed.
Lemma clock_after_input p rest w : clock (after_input p rest w) = clock w.
Proof. reflexivity. Qed.
Lemma ticks_after_input p rest w : ticks (after_input p rest w) = ticks w.
Proof. reflexivity. Qed.
Lemma environ_after_input p rest w : environ (after_input p rest w) = environ w.
Proof. reflexivity. Qed.
Lemma data_file_after_input p rest w :
  data_file (after_input p rest w) = data_file w.
Proof. reflexivity. Qed.
Lemma report_files_after_input p rest w :
  report_files (after_input p rest w) = report_files w.
Proof. reflexivity. Qed.
Lemma faults_after_input p rest w : faults (after_input p rest w) = faults w.
Proof. reflexivity. Qed.
Lemma writes_after_input p rest w : writes (after_input p rest w) = writes w.
Proof. reflexivity. Qed.
Lemma report_path_after_input p rest w :
  report_path (after_input p rest w) = report_path w.
Proof. reflexivity. Qed.
Lemma events_after_input p rest w :
  events (after_input p rest w) = (events w ++ [Prompted p])%list.
Proof. reflexivity. Qed.

Lemma stdin_written f r w : stdin (written f r w) = stdin w.
Proof. reflexivity. Qed.
Lemma clock_written f r w : clock (written f r w) = clock w.
Proof. reflexivity. Qed.
Lemma ticks_written f r w : ticks (written f r w) = ticks w.
Proof. reflexivity. Qed.
Lemma environ_written f r w : environ (written f r w) = environ w.
Proof. reflexivity. Qed.
Lemma data_file_written f r w : data_file (written f r w) = f.
Proof. reflexivity. Qed.
Lemma report_files_written f r w : report_files (written f r w) = r.
Proof. reflexivity. Qed.
Lemma faults_written f r w : faults (written f r w) = faults w.
Proof. reflexivity. Qed.
Lemma writes_written f r w : writes (written f r w) = S (writes w).
Proof. reflexivity. Qed.
Lemma report_path_written f r w : report_path (written f r w) = report_path w.
Proof. reflexivity. Qed.
Lemma events_written f r w : events (written f r w) = events w.
Proof. reflexivity. Qed.

Lemma stdin_now w : stdin (snd (now w)) = stdin w.
Proof. reflexivity. Qed.
Lemma clock_now w : clock (snd (now w)) = clock w.
Proof. reflexivity. Qed.
Lemma ticks_now w : ticks (snd (now w)) = S (ticks w).
Proof. reflexivity. Qed.
Lemma environ_now w : environ (snd (now w)) = environ w.
Proof. reflexivity. Qed.
Lemma data_file_now w : data_file (snd (now w)) = data_file w.
Proof. reflexivity. Qed.
Lemma report_files_now w : report_files (snd (now w)) = report_files w.
Proof. reflexivity. Qed.
Lemma faults_now w : faults (snd (now w)) = faults w.
Proof. reflexivity. Qed.
Lemma writes_now w : writes (snd (now w)) = writes w.
Proof. reflexivity. Qed.
Lemma report_path_now w : report_path (snd (now w)) = report_path w.
Proof. reflexivity. Qed.
Lemma events_now w : events (snd (now w)) = events w.
Proof. reflexivity. Qed.

Create Rewrite HintDb world.
#[global] Hint Rewrite stdin_emit clock_emit ticks_emit environ_emit
  data_file_emit report_files_emit faults_emit writes_emit report_path_emit
  events_emit stdin_after_input
  clock_after_input ticks_after_input environ_after_input
  data_file_after_input report_files_after_input faults_after_input
  writes_after_input report_path_after_input events_after_input
  stdin_written clock_written ticks_written environ_written data_file_written
  report_files_written faults_written writes_written report_path_written
  events_written stdin_now clock_now ticks_now environ_now data_file_now
  report_files_now faults_now writes_now report_path_now events_now : world.

(** Reads the fields of a world built with [emit] and [after_input]. *)
Ltac world_fields :=
  autorewrite with world; repeat rewrite <- app_assoc; cbn [app].

(** Unfolds the primitive effects and flattens the list of events. *)
Ltac run_effects :=
  unfold report_saved, report_shown, report_text_of, after_input, print,
    append_record, input, now, getenv, path_in_reports, ret, written, emit;
  cbn [stdin clock ticks environ data_file report_files faults writes
       report_path events fst snd];
  repeat rewrite <- app_assoc.

(** ** The loops over the records *)

Section Validation.

Context {rt : Runtime}.

Lemma collect_valid_spec (sales : list pyval) (acc : list (datetime * float)) :
  Forall returns sales ->
  collect_valid sales acc = Ok (acc ++ valid_pairs sales)%list.
Proof.
  revert acc. induction sales as [|record sales IH]; intros acc Hret; simpl.
  - rewrite app_nil_r. reflexivity.
  - inversion Hret as [|? ? [parsed Hparsed] Hrest]; subst.
    unfold valid_pairs in *. rewrite Hparsed. simpl.
    destruct parsed as [p|]; rewrite IH by assumption.
    + rewrite <- app_assoc. reflexivity.
    + reflexivity.
Qed.

Lemma daily_total_spec (today : date) (sales : list pyval) (total : float) :
  Forall returns sales ->
  daily_total today sales total =
  Ok (fold_left Float64.add
        (map snd (filter (on_date today) (valid_pairs sales))) total).
Proof.
  revert total. induction sales as [|record sales IH]; intros total Hret; simpl.
  - reflexivity.
  - inversion Hret as [|? ? [parsed Hparsed] Hrest]; subst.
    unfold valid_pairs in *. rewrite Hparsed. simpl.
    destruct parsed as [[sale_time amount]|]; [|apply IH, Hrest].
    simpl. unfold on_date at 1. simpl.
    destruct (date_eqb (date_of sale_time) today); simpl; apply IH, Hrest.
Qed.

Lemma mean_returns (xs : list float) : xs <> [] -> exists m, mean xs = Ok m.
Proof.
  destruct xs as [|x xs]; [congruence | intros _].
  unfold mean. destruct (forallb Float64.is_finite (x :: xs)); eexists; reflexivity.
Qed.

Lemma py_max_returns (xs : list float) : xs <> [] -> exists m, py_max xs = Ok m.
Proof. destruct xs; [congruence | intros _; eexists; reflexivity]. Qed.

Lemma py_min_returns (xs : list float) : xs <> [] -> exists m, py_min xs = Ok m.
Proof. destruct xs; [congruence | intros _; eexists; reflexivity]. Qed.

Lemma sorted_in (keys : list string) (key : string) :
  In key (sorted keys) <-> In key keys.
Proof.
  unfold sorted. split; apply Permutation_in.
  - apply Permutation_sym, StringSort.Permuted_sort.
  - apply StringSort.Permuted_sort.
Qed.

Lemma compute_statistics_spec (pairs : list (datetime * float)) :
  pairs <> [] ->
  exists s, compute_statistics pairs = Ok s
            /\ figures_of pairs s
            /\ extremes_of pairs s.
Proof.
  intros Hne.
  assert (Hamounts : map snd pairs <> [])
    by (destruct pairs; [congruence | discriminate]).
  destruct (mean_returns _ Hamounts) as [average Haverage].
  destruct (py_max_returns _ Hamounts) as [highest Hhighest].
  destruct (py_min_returns _ Hamounts) as [lowest Hlowest].
  unfold compute_statistics. rewrite Haverage, Hhighest, Hlowest. simpl.
  eexists; split; [reflexivity |]. split.
  - unfold figures_of; simpl. rewrite map_map; simpl. rewrite map_id.
    repeat split.
    + assumption.
    + apply StringSort.Sorted_sort.
    + apply (Permutation_NoDup (StringSort.Permuted_sort _)), group_by_day_NoDup.
    + intros H. apply sorted_in, group_by_day_keys in H. exact H.
    + intros H. apply sorted_in, group_by_day_keys, H.
    + intros key v H. apply in_map_iff in H. destruct H as [k [Heq Hk]].
      injection Heq as Hkey Hv. subst k. rewrite <- Hv.
      apply sorted_in, dict_get_keys in Hk.
      rewrite group_by_day_get in *.
      destruct (filter (on_day key) pairs); [congruence | reflexivity].
  - unfold extremes_of; simpl.
    destruct (map snd pairs) as [|first rest] eqn:E; [exact I |].
    destruct (Float64.is_nan first) eqn:Hfirst.
    + apply is_nan_nan in Hfirst. subst first.
      rewrite py_max_nan in Hhighest. rewrite py_min_nan in Hlowest.
      split; congruence.
    + destruct (py_max_spec first rest Hfirst) as [m [Hm Hmax]].
      destruct (py_min_spec first rest Hfirst) as [m' [Hm' Hmin]].
      rewrite Hhighest in Hm. rewrite Hlowest in Hm'.
      injection Hm as ->. injection Hm' as ->. split; assumption.
Qed.

(** The report is shown before anything is saved; what follows depends on
    the disk. *)
Lemma generate_sales_report_saved (sales : list pyval) (w : world) (s : statistics) :
  Forall returns sales ->
  valid_pairs sales <> [] ->
  compute_statistics (valid_pairs sales) = Ok s ->
  faults w (writes w) = None ->
  faults w (S (writes w)) = None ->
  generate_sales_report sales w = (Ok tt, report_saved s w).
Proof.
  intros Hret Hne Hs Hdir Hfile.
  unfold generate_sales_report, bind, lift.
  rewrite (collect_valid_spec sales [] Hret). cbn [app].
  destruct (valid_pairs sales) as [|p pairs] eqn:E; [congruence |].
  rewrite Hs. unfold mkdir_reports, write_report_file. run_effects.
  rewrite Hdir. run_effects. rewrite Hfile. run_effects. reflexivity.
Qed.

Lemma generate_sales_report_mkdir_fails (sales : list pyval) (w : world)
    (s : statistics) (f : fault) :
  Forall returns sales ->
  valid_pairs sales <> [] ->
  compute_statistics (valid_pairs sales) = Ok s ->
  faults w (writes w) = Some f ->
  generate_sales_report sales w =
  (Raise (exn_of_fault f),
   written (data_file w) (report_files w) (report_shown s w)).
Proof.
  intros Hret Hne Hs Hdir.
  unfold generate_sales_report, bind, lift.
  rewrite (collect_valid_spec sales [] Hret). cbn [app].
  destruct (valid_pairs sales) as [|p pairs] eqn:E; [congruence |].
  rewrite Hs. unfold mkdir_reports. run_effects.
  rewrite Hdir. run_effects. reflexivity.
Qed.

Lemma generate_sales_report_write_fails (sales : list pyval) (w : world)
    (s : statistics) (f : fault) :
  Forall returns sales ->
  valid_pairs sales <> [] ->
  compute_statistics (valid_pairs sales) = Ok s ->
  faults w (writes w) = None ->
  faults w (S (writes w)) = Some f ->
  exists w',
    generate_sales_report sales w = (Raise (exn_of_fault f), w')
    /\ data_file w' = data_file w
    /\ events w' =
       (events w ++ [Printed (nl ++ report_text_of s w); ReportsDirMade])%list.
Proof.
  intros Hret Hne Hs Hdir Hfile.
  unfold generate_sales_report, bind, lift.
  rewrite (collect_valid_spec sales [] Hret). cbn [app].
  destruct (valid_pairs sales) as [|p pairs] eqn:E; [congruence |].
  rewrite Hs. unfold mkdir_reports, write_report_file. run_effects.
  rewrite Hdir. run_effects. rewrite Hfile.
  destruct f as [e|]; eexists; (split; [reflexivity |]); run_effects;
    split; reflexivity.
Qed.

(** Whatever the disk does, the report was shown first. *)
Lemma generate_sales_report_shown (sales : list pyval) (w : world) (s : statistics) :
  Forall returns sales ->
  valid_pairs sales <> [] ->
  compute_statistics (valid_pairs sales) = Ok s ->
  exists later,
    events (snd (generate_sales_report sales w)) =
    (events w ++ Printed (nl ++ report_text_of s w) :: later)%list.
Proof.
  intros Hret Hne Hs.
  destruct (faults w (writes w)) as [f|] eqn:Hdir.
  - rewrite (generate_sales_report_mkdir_fails sales w s f Hret Hne Hs Hdir).
    exists []. reflexivity.
  - destruct (faults w (S (writes w))) as [f|] eqn:Hfile.
    + destruct (generate_sales_report_write_fails sales w s f Hret Hne Hs Hdir Hfile)
        as [w' (Hrun & _ & Hev)].
      rewrite Hrun. eexists. exact Hev.
    + rewrite (generate_sales_report_saved sales w s Hret Hne Hs Hdir Hfile).
      eexists. reflexivity.
Qed.

Lemma valid_pairs_app (sales more : list pyval) :
  valid_pairs (sales ++ more) = (valid_pairs sales ++ valid_pairs more)%list.
Proof. unfold valid_pairs. apply flat_map_app. Qed.

Lemma generate_sales_report_no_data (sales : list pyval) (w : world) :
  Forall (fun record => parse_sale_record record = Ok None) sales ->
  generate_sales_report sales w = (Ok tt, emit (Printed NO_DATA) w).
Proof.
  intros Hnone.
  assert (Hret : Forall returns sales).
  { eapply Forall_impl; [|exact Hnone]. intros record H. exists None. exact H. }
  assert (Hvalid : valid_pairs sales = []).
  { unfold valid_pairs. induction Hnone as [|record sales Hrec _ IH]; simpl.
    - reflexivity.
    - rewrite Hrec. simpl. apply IH.
      inversion Hret; assumption. }
  unfold generate_sales_report, bind, lift.
  rewrite (collect_valid_spec sales [] Hret), Hvalid. reflexivity.
Qed.

End Validation.

(** ** The validator *)

Section Validator.

Context {rt : Runtime}.

Lemma catches_validator (e : exn) :
  catches [KeyError; TypeError; ValueError] e = false <->
  e <> KeyError /\ e <> TypeError /\ e <> ValueError /\ e <> UnicodeError
  /\ e <> UnicodeDecodeError /\ e <> JSONDecodeError /\ e <> StatisticsError.
Proof.
  destruct e; cbv; split; intros H; try discriminate; try reflexivity;
    repeat split; try discriminate; try (destruct H as (?&?&?&?&?&?&?); congruence).
Qed.

Lemma getitem_raises (obj : pyval) (key : string) (e : exn) :
  getitem obj key = Raise e -> e = KeyError \/ e = TypeError.
Proof.
  destruct obj; simpl; try (intros [= <-]; right; reflexivity).
  destruct (dict_get key items); [discriminate | intros [= <-]; left; reflexivity].
Qed.

Lemma py_float_raises (v : pyval) (e : exn) :
  py_float v = Raise e ->
  e = TypeError \/ e = ValueError
  \/ (e = OverflowError /\ exists z, v = PInt z /\ float_of_int z = Raise OverflowError).
Proof.
  destruct v; simpl; try discriminate; try (intros [= <-]; left; reflexivity).
  - intros H. right; right.
    assert (e = OverflowError).
    { unfold float_of_int in H. destruct (Float64.of_Z z); congruence. }
    subst e. split; [reflexivity | exists z; split; [reflexivity | exact H]].
  - destruct (float_of_str s); [discriminate | intros [= <-]; right; left; reflexivity].
Qed.

(** A record with both fields, a coercible amount and a parseable
    timestamp is validated, with the amount as [float] gives it. *)
Lemma parse_sale_record_valid (record ts am : pyval) (t : datetime) (a : float) :
  getitem record "timestamp" = Ok ts ->
  getitem record "amount" = Ok am ->
  py_float am = Ok a ->
  fromisoformat (py_str ts) = Some t ->
  parse_sale_record record = Ok (Some (t, a)).
Proof.
  intros Hts Ham Ha Ht. unfold parse_sale_record, datetime_fromisoformat.
  rewrite Hts. simpl. rewrite Ham. simpl. rewrite Ha. simpl. rewrite Ht.
  reflexivity.
Qed.

(** With both fields and a coercible amount, the outcome is that of the
    parsing of the timestamp. *)
Lemma parse_sale_record_converts (record ts am : pyval) (a : float) :
  getitem record "timestamp" = Ok ts ->
  getitem record "amount" = Ok am ->
  py_float am = Ok a ->
  parse_sale_record record =
  Ok (match fromisoformat (py_str ts) with
      | Some t => Some (t, a)
      | None => None
      end).
Proof.
  intros Hts Ham Ha. unfold parse_sale_record, datetime_fromisoformat.
  rewrite Hts. simpl. rewrite Ham. simpl. rewrite Ha. simpl.
  destruct (fromisoformat (py_str ts)); reflexivity.
Qed.

(** The validator returns a pair only for such a record. *)
Lemma parse_sale_record_valid_inv (record : pyval) (t : datetime) (a : float) :
  parse_sale_record record = Ok (Some (t, a)) ->
  exists ts am, getitem record "timestamp" = Ok ts
                /\ getitem record "amount" = Ok am
                /\ py_float am = Ok a
                /\ fromisoformat (py_str ts) = Some t.
Proof.
  unfold parse_sale_record, try_except, datetime_fromisoformat, rbind.
  destruct (getitem record "timestamp") as [ts|e1] eqn:Hts.
  - destruct (getitem record "amount") as [am|e2] eqn:Ham.
    + destruct (py_float am) as [a'|e3] eqn:Ha.
      * destruct (fromisoformat (py_str ts)) as [t'|] eqn:Ht.
        -- intros [= <- <-]. exists ts, am. repeat split; assumption.
        -- simpl. discriminate.
      * destruct (catches _ e3); discriminate.
    + destruct (catches _ e2); discriminate.
  - destruct (catches _ e1); discriminate.
Qed.

Ltac refute :=
  repeat match goal with
  | H : _ \/ _ |- _ => destruct H
  | H : _ /\ _ |- _ => destruct H
  | H : exists _, _ |- _ => destruct H
  | H : Ok _ = Ok _ |- _ => injection H as H; subst
  | H : forall v, Ok ?x <> Ok v |- _ => exfalso; exact (H x eq_refl)
  end; try discriminate; try congruence.

(** The validator rejects exactly the records with a missing field, an
    amount that is no number, or an unparseable timestamp (and an amount in
    range). *)
Lemma parse_sale_record_rejects (record : pyval) :
  parse_sale_record record = Ok None <->
  field_missing record "timestamp"
  \/ field_missing record "amount"
  \/ amount_not_a_number record
  \/ (timestamp_unparseable record /\ ~ amount_out_of_range record).
Proof.
  unfold parse_sale_record, try_except, datetime_fromisoformat, rbind,
    field_missing, timestamp_unparseable, amount_not_a_number, amount_out_of_range.
  destruct (getitem record "timestamp") as [ts|e1] eqn:Hts.
  - destruct (getitem record "amount") as [am|e2] eqn:Ham.
    + destruct (py_float am) as [a|e3] eqn:Ha.
      * destruct (fromisoformat (py_str ts)) as [t|] eqn:Ht; simpl.
        -- split; [discriminate | intros H; refute].
        -- split; [intros _ | reflexivity].
           right; right; right. split; [exists ts; split; [reflexivity | exact Ht] |].
           intros H; refute. simpl in Ha. congruence. 
      * destruct (py_float_raises _ _ Ha) as [-> | [-> | [-> (z & -> & Hz)]]]; simpl.
        -- split; [intros _ | reflexivity].
           right; right; left. exists am. split; [reflexivity | left; exact Ha].
        -- split; [intros _ | reflexivity].
           right; right; left. exists am. split; [reflexivity | right; exact Ha].
        -- split; [discriminate | intros H; refute].
           exfalso. apply H0. exists z. split; [reflexivity | exact Hz].
    + destruct (getitem_raises _ _ _ Ham) as [-> | ->]; simpl;
        (split; [intros _ | reflexivity]); right; left; intros v; discriminate.
  - destruct (getitem_raises _ _ _ Hts) as [-> | ->]; simpl;
      (split; [intros _ | reflexivity]); left; intros v; discriminate.
Qed.

(** The validator raises on no other record than one with a timestamp
    field and an integer amount out of range, and then raises
    [OverflowError]. *)
Lemma parse_sale_record_raises (record : pyval) (e : exn) :
  parse_sale_record record = Raise e <->
  e = OverflowError
  /\ ~ field_missing record "timestamp"
  /\ amount_out_of_range record.
Proof.
  unfold parse_sale_record, try_except, datetime_fromisoformat, rbind,
    field_missing, amount_out_of_range.
  destruct (getitem record "timestamp") as [ts|e1] eqn:Hts.
  - destruct (getitem record "amount") as [am|e2] eqn:Ham.
    + destruct (py_float am) as [a|e3] eqn:Ha.
      * destruct (fromisoformat (py_str ts)) as [t|] eqn:Ht; simpl;
          (split; [discriminate | intros H; refute]); simpl in Ha; congruence.
      * destruct (py_float_raises _ _ Ha) as [-> | [-> | [-> (z & -> & Hz)]]]; simpl.
        -- split; [discriminate | intros H; refute]. simpl in Ha. congruence.
        -- split; [discriminate | intros H; refute]. simpl in Ha. congruence.
        -- split.
           ++ intros [= <-]. split; [reflexivity |]. split.
              ** intros H. eapply H. reflexivity.
              ** exists z. split; [reflexivity | exact Hz].
           ++ intros (-> & _). reflexivity.
    + destruct (getitem_raises _ _ _ Ham) as [-> | ->]; simpl;
        (split; [discriminate | intros H; refute]).
  - destruct (getitem_raises _ _ _ Hts) as [-> | ->]; simpl;
      (split; [discriminate |]); intros (_ & H & _); exfalso; apply H;
      intros v; discriminate.
Qed.
Lemma oversized_record_raises : parse_sale_record oversized_record = Raise OverflowError.
Proof. vm_compute. reflexivity. Qed.

End Validator.

(** ** Entering a sale, and the daily total *)

Section Actions.

Context {rt : Runtime}.

Lemma read_amount_rejects (text : string) :
  float_of_str text = None
  \/ (exists a, float_of_str text = Some a /\ Float64.ltb a Float64.zero = true) ->
  read_amount text = Raise ValueError.
Proof.
  unfold read_amount, py_float, rbind.
  intros [H | [a [H Hneg]]]; rewrite H; [reflexivity |].
  rewrite Hneg. reflexivity.
Qed.

Lemma read_amount_accepts (text : string) (a : float) :
  float_of_str text = Some a -> Float64.ltb a Float64.zero = false ->
  read_amount text = Ok a.
Proof.
  unfold read_amount, py_float, rbind. intros H Hnn. rewrite H, Hnn. reflexivity.
Qed.

Lemma add_sale_rejected (sales : list pyval) (w : world)
    (line : string) (rest : list string) :
  stdin w = line :: rest ->
  read_amount (strip line) = Raise ValueError ->
  add_sale sales w =
  (Ok sales,
   emit (Printed "Invalid amount. Please enter a non-negative number.")
     (after_input "Enter sale amount: " rest w)).
Proof.
  intros Hin Hbad. unfold add_sale, bind, input. rewrite Hin, Hbad. reflexivity.
Qed.

Lemma write_fault_emit (e : event) (w : world) :
  write_fault (emit e w) = write_fault w.
Proof. reflexivity. Qed.

Lemma write_fault_after_input (p : string) (rest : list string) (w : world) :
  write_fault (after_input p rest w) = write_fault w.
Proof. reflexivity. Qed.

Lemma write_fault_now (w : world) : write_fault (snd (now w)) = write_fault w.
Proof. reflexivity. Qed.

(** What the data file is after a write that failed as [f]. *)
Lemma write_data_file_ok (sales : list pyval) (w : world) :
  write_fault w = None ->
  write_data_file sales w =
  (Ok tt,
   emit (DataWritten sales) (written (Document (PList sales)) (report_files w) w)).
Proof. unfold write_data_file. intros ->. reflexivity. Qed.

Lemma write_data_file_fails (sales : list pyval) (w : world) (f : fault) :
  write_fault w = Some f ->
  write_data_file sales w =
  (Raise (exn_of_fault f),
   written (match f with Refused _ => data_file w | BrokenOff _ => Malformed end)
     (report_files w) w).
Proof. unfold write_data_file. intros ->. destruct f; reflexivity. Qed.

(** [add_sale] on an accepted amount, up to the saving of the list. *)
Lemma add_sale_saves (sales : list pyval) (w : world)
    (line : string) (rest : list string) (a : float) :
  stdin w = line :: rest ->
  read_amount (strip line) = Ok a ->
  let record := new_record a (clock w (ticks w)) in
  let sales' := (sales ++ [record])%list in
  add_sale sales w =
  bind (save_sales_data sales')
    (fun _ => bind (print ("Sale of " ++ format_2f a ++ " added successfully."))
                (fun _ => ret sales'))
    (emit (Appended record) (snd (now (after_input "Enter sale amount: " rest w)))).
Proof.
  intros Hin Ha. cbv zeta. unfold add_sale. unfold bind at 1. unfold input.
  rewrite Hin, Ha. reflexivity.
Qed.

Lemma add_sale_accepted (sales : list pyval) (w : world)
    (line : string) (rest : list string) (a : float) :
  stdin w = line :: rest ->
  read_amount (strip line) = Ok a ->
  write_fault w = None ->
  let record := new_record a (clock w (ticks w)) in
  let sales' := (sales ++ [record])%list in
  exists w',
    add_sale sales w = (Ok sales', w')
    /\ data_file w' = Document (PList sales')
    /\ stdin w' = rest
    /\ events w' =
       (events w ++ [Prompted "Enter sale amount: "; Appended record;
                     DataWritten sales';
                     Printed ("Sale of " ++ format_2f a ++ " added successfully.")])%list
    /\ clock w' = clock w
    /\ ticks w' = S (ticks w)
    /\ faults w' = faults w
    /\ writes w' = S (writes w)
    /\ report_files w' = report_files w.
Proof.
  intros Hin Ha Hfault. cbv zeta.
  rewrite (add_sale_saves sales w line rest a Hin Ha). cbv zeta.
  unfold bind at 1. unfold save_sales_data.
  rewrite write_data_file_ok
    by (rewrite write_fault_emit, write_fault_now, write_fault_after_input;
        exact Hfault).
  unfold bind, print, ret.
  eexists. split; [reflexivity |]. world_fields. repeat split.
Qed.

Lemma add_sale_refused (sales : list pyval) (w : world)
    (line : string) (rest : list string) (a : float) (f : fault) :
  stdin w = line :: rest ->
  read_amount (strip line) = Ok a ->
  write_fault w = Some f ->
  exists w',
    add_sale sales w = (Raise (exn_of_fault f), w')
    /\ data_file w' = match f with Refused _ => data_file w | BrokenOff _ => Malformed end
    /\ stdin w' = rest
    /\ events w' =
       (events w ++ [Prompted "Enter sale amount: ";
                     Appended (new_record a (clock w (ticks w)))])%list
    /\ clock w' = clock w
    /\ report_files w' = report_files w.
Proof.
  intros Hin Ha Hfault.
  rewrite (add_sale_saves sales w line rest a Hin Ha). cbv zeta.
  unfold bind at 1. unfold save_sales_data.
  rewrite (write_data_file_fails _ _ f)
    by (rewrite write_fault_emit, write_fault_now, write_fault_after_input;
        exact Hfault).
  eexists. split; [reflexivity |]. world_fields. repeat split.
Qed.

Lemma not_negative (a : float) :
  Float64.leb Float64.zero a = true -> Float64.ltb a Float64.zero = false.
Proof.
  unfold Float64.leb, Float64.ltb, SFleb, SFltb, SFcompare, Float64.zero.
  float_cases a; simpl; congruence.
Qed.

Lemma sale_validates (timestamp : string) (amount : float) (t : datetime) :
  fromisoformat timestamp = Some t ->
  parse_sale_record (sale timestamp amount) = Ok (Some (t, amount)).
Proof.
  intros Ht. apply (parse_sale_record_valid _ (PStr timestamp) (PFloat amount));
    try reflexivity. exact Ht.
Qed.

Lemma date_of_strftime (t : datetime) (y m d : Z) :
  date_of t = mkdate y m d ->
  strftime_date t = strftime_year y ++ "-" ++ pad2 m ++ "-" ++ pad2 d.
Proof. unfold date_of, strftime_date. intros [= -> -> ->]. reflexivity. Qed.

(** The record [add_sale] stores validates to the amount entered and the
    time of entry as the runtime reads its text back. *)
Lemma new_record_validates (a : float) (t t' : datetime) :
  fromisoformat (isoformat_seconds t) = Some t' ->
  parse_sale_record (new_record a t) = Ok (Some (t', a)).
Proof.
  intros H. apply (parse_sale_record_valid _ (PStr (isoformat_seconds t)) (PFloat a));
    try reflexivity. exact H.
Qed.

(** On a list where the validator returns on every record, the daily total
    shown is the sum, added in order from 0.0, of the amounts of the valid
    records of that date; the others are skipped. *)
Lemma show_daily_total_spec (sales : list pyval) (w : world) :
  Forall returns sales ->
  let today := date_of (clock w (ticks w)) in
  let total := py_sum (map snd (filter (on_date today) (valid_pairs sales))) in
  show_daily_total sales w =
  (Ok tt,
   emit (Printed ("Today's total sales: " ++ format_2f total)) (snd (now w))).
Proof.
  intros Hret. cbv zeta. unfold show_daily_total, bind, lift.
  cbn [now fst snd]. cbn [clock ticks].
  rewrite (daily_total_spec _ sales Float64.zero Hret). reflexivity.
Qed.

(** When no valid record is of today, the total shown is exactly 0.00. *)
Lemma show_daily_total_zero (sales : list pyval) (w : world) :
  Forall returns sales ->
  filter (on_date (date_of (clock w (ticks w)))) (valid_pairs sales) = [] ->
  show_daily_total sales w =
  (Ok tt, emit (Printed "Today's total sales: 0.00") (snd (now w))).
Proof.
  intros Hret Hnone. rewrite (show_daily_total_spec sales w Hret).
  cbv zeta. rewrite Hnone. reflexivity.
Qed.

End Actions.

(** ** Loading the data file *)

(** The data file is read as an empty list when it is missing, cannot be
    opened, holds text that is not JSON, or holds a JSON document that is
    not a list; the world is left as it is. *)
Lemma load_sales_data_empty (w : world) :
  reads_as_empty (data_file w) -> load_sales_data w = (Ok [], w).
Proof.
  unfold load_sales_data, reads_as_empty.
  destruct (data_file w) as [|[]| | | | |[]]; simpl; intros H;
    try reflexivity; destruct H.
Qed.

Lemma load_sales_data_list (w : world) (sales : list pyval) :
  data_file w = Document (PList sales) -> load_sales_data w = (Ok sales, w).
Proof. unfold load_sales_data. intros ->. reflexivity. Qed.

(** ** The login *)

Lemma login_attempt_fails (admin line : string) (rest : list string)
    (attempt : nat) (later : list nat) (w : world) :
  stdin w = line :: rest ->
  strip line <> admin ->
  login_attempts admin (attempt :: later) w =
  let w1 := after_input "Enter admin password: " rest w in
  let left := (MAX_LOGIN_ATTEMPTS - attempt)%nat in
  login_attempts admin later
    (if (0 <? left)%nat
     then emit (Printed ("Invalid password. Attempts left: " ++ str_of_Z (Z.of_nat left))) w1
     else w1).
Proof.
  intros Hin Hne. cbn [login_attempts]. unfold bind at 1. unfold input. rewrite Hin.
  assert (E : String.eqb (strip line) admin = false).
  { destruct (String.eqb (strip line) admin) eqn:E; [|reflexivity].
    apply String.eqb_eq in E. contradiction. }
  rewrite E. cbv zeta. unfold bind at 1.
  destruct (0 <? MAX_LOGIN_ATTEMPTS - attempt)%nat; reflexivity.
Qed.

(** ** The menu loop *)

Section Loop.

Context {rt : Runtime}.

Lemma keeps_stdin_bind {A B : Type} (m : M A) (k : A -> M B) :
  keeps_stdin m -> (forall a, keeps_stdin (k a)) -> keeps_stdin (bind m k).
Proof.
  intros Hm Hk w. unfold bind. specialize (Hm w).
  destruct (m w) as [[a|e] w']; simpl in *.
  - rewrite Hk. exact Hm.
  - exact Hm.
Qed.

Lemma keeps_stdin_print (text : string) : keeps_stdin (print text).
Proof. intros w. reflexivity. Qed.

Lemma keeps_stdin_ret {A : Type} (a : A) : keeps_stdin (ret a).
Proof. intros w. reflexivity. Qed.

Lemma keeps_stdin_lift {A : Type} (r : result A) : keeps_stdin (lift r).
Proof. intros w. reflexivity. Qed.

Lemma keeps_stdin_now : keeps_stdin now.
Proof. intros w. reflexivity. Qed.

Lemma keeps_stdin_append (record : pyval) : keeps_stdin (append_record record).
Proof. intros w. reflexivity. Qed.

Lemma keeps_stdin_path (name : string) : keeps_stdin (path_in_reports name).
Proof. intros w. reflexivity. Qed.

Lemma keeps_stdin_save (sales : list pyval) : keeps_stdin (save_sales_data sales).
Proof.
  intros w. unfold save_sales_data, write_data_file.
  destruct (write_fault w) as [[e|]|]; reflexivity.
Qed.

Lemma keeps_stdin_mkdir : keeps_stdin mkdir_reports.
Proof.
  intros w. unfold mkdir_reports. destruct (faults w (writes w)); reflexivity.
Qed.

Lemma keeps_stdin_write_report (name text : string) :
  keeps_stdin (write_report_file name text).
Proof.
  intros w. unfold write_report_file.
  destruct (faults w (writes w)) as [[e|]|]; reflexivity.
Qed.

Lemma keeps_stdin_view_sales_loop (records : list pyval) :
  forall index displayed, keeps_stdin (view_sales_loop index records displayed).
Proof.
  induction records as [|record records IH]; intros index displayed; simpl.
  - apply keeps_stdin_ret.
  - apply keeps_stdin_bind; [apply keeps_stdin_lift |].
    intros [[sale_time amount]|]; apply keeps_stdin_bind;
      try apply keeps_stdin_print; intros _; apply IH.
Qed.

Lemma keeps_stdin_view_sales (sales : list pyval) : keeps_stdin (view_sales sales).
Proof.
  destruct sales as [|record sales]; [apply keeps_stdin_print |].
  unfold view_sales. apply keeps_stdin_bind; [apply keeps_stdin_print |]. intros _.
  apply keeps_stdin_bind; [apply keeps_stdin_view_sales_loop |]. intros displayed.
  destruct (displayed =? 0); [apply keeps_stdin_print | apply keeps_stdin_ret].
Qed.

Lemma keeps_stdin_show_daily_total (sales : list pyval) :
  keeps_stdin (show_daily_total sales).
Proof.
  unfold show_daily_total. apply keeps_stdin_bind; [apply keeps_stdin_now |]. intros t.
  apply keeps_stdin_bind; [apply keeps_stdin_lift |]. intros total.
  apply keeps_stdin_print.
Qed.

Lemma keeps_stdin_generate_sales_report (sales : list pyval) :
  keeps_stdin (generate_sales_report sales).
Proof.
  unfold generate_sales_report.
  apply keeps_stdin_bind; [apply keeps_stdin_lift |]. intros [|p pairs].
  - apply keeps_stdin_print.
  - repeat (apply keeps_stdin_bind;
            [first [apply keeps_stdin_lift | apply keeps_stdin_now
                   | apply keeps_stdin_print | apply keeps_stdin_mkdir
                   | apply keeps_stdin_path | apply keeps_stdin_write_report]
            | intros ?]).
    apply keeps_stdin_print.
Qed.

Lemma keeps_stdin_print_menu : keeps_stdin print_menu.
Proof.
  unfold print_menu.
  repeat (apply keeps_stdin_bind; [apply keeps_stdin_print | intros _]).
  apply keeps_stdin_print.
Qed.

Lemma add_sale_stdin (sales : list pyval) (w : world) :
  (List.length (stdin (snd (add_sale sales w))) <= List.length (stdin w))%nat.
Proof.
  unfold add_sale, bind at 1, input.
  destruct (stdin w) as [|line rest] eqn:E; cbn [fst snd].
  - rewrite stdin_emit, E. apply Nat.le_refl.
  - destruct (read_amount (strip line)) as [amount|e].
    + match goal with
      | |- context [bind now ?k ?w0] =>
          assert (H : keeps_stdin (bind now k))
      end.
      { apply keeps_stdin_bind; [apply keeps_stdin_now |]. intros t.
        apply keeps_stdin_bind; [apply keeps_stdin_append |]. intros _.
        apply keeps_stdin_bind; [apply keeps_stdin_save |]. intros _.
        apply keeps_stdin_bind; [apply keeps_stdin_print |]. intros _.
        apply keeps_stdin_ret. }
      rewrite H. simpl. apply Nat.le_succ_diag_r.
    + destruct (catches [ValueError] e).
      * match goal with
        | |- context [bind (print ?t) ?k ?w0] =>
            assert (H : keeps_stdin (bind (print t) k))
        end.
        { apply keeps_stdin_bind; [apply keeps_stdin_print |]. intros _.
          apply keeps_stdin_ret. }
        rewrite H. simpl. apply Nat.le_succ_diag_r.
      * simpl. apply Nat.le_succ_diag_r.
Qed.

Lemma bind_ext_on {A B : Type} (m : M A) (k1 k2 : A -> M B) (w : world) :
  (forall a w', m w = (Ok a, w') -> k1 a w' = k2 a w') ->
  bind m k1 w = bind m k2 w.
Proof.
  intros H. unfold bind. destruct (m w) as [[a|e] w']; [|reflexivity].
  apply H. reflexivity.
Qed.

Lemma input_ok (prompt line : string) (w w' : world) :
  input prompt w = (Ok line, w') -> stdin w = line :: stdin w'.
Proof.
  unfold input. destruct (stdin w) as [|l rest]; [discriminate |].
  intros [= <- <-]. reflexivity.
Qed.

(** The loop does not depend on the turns it is given beyond the lines
    typed: with more turns than lines it gives the result of [menu_loop]. *)
Lemma menu_turns_enough (n : nat) :
  forall (m : nat) (sales : list pyval) (w : world),
    (List.length (stdin w) < n)%nat -> (n <= m)%nat ->
    menu_turns m sales w = menu_turns n sales w.
Proof.
  induction n as [|n IH]; intros m sales w Hlen Hle; [lia |].
  destruct m as [|m]; [lia |].
  cbn [menu_turns].
  apply bind_ext_on. intros [] w1 H1.
  assert (Hw1 : stdin w1 = stdin w).
  { rewrite <- (keeps_stdin_print_menu w), H1. reflexivity. }
  apply bind_ext_on. intros line w2 H2.
  apply input_ok in H2.
  assert (Hw2 : (List.length (stdin w2) < n)%nat).
  { rewrite <- Hw1, H2 in Hlen. cbn [List.length] in Hlen. lia. }
  assert (Hkeep : forall (act : M unit), keeps_stdin act ->
            bind act (fun _ => menu_turns m sales) w2
            = bind act (fun _ => menu_turns n sales) w2).
  { intros act Hact. apply bind_ext_on. intros [] w3 H3.
    apply IH; [|lia]. rewrite <- (Hact w2), H3 in Hw2. exact Hw2. }
  destruct (String.eqb (strip line) "1").
  { apply bind_ext_on. intros sales' w3 H3.
    pose proof (add_sale_stdin sales w2) as Hadd. rewrite H3 in Hadd.
    cbn [snd] in Hadd. apply IH; lia. }
  destruct (String.eqb (strip line) "2");
    [apply Hkeep, keeps_stdin_view_sales |].
  destruct (String.eqb (strip line) "3");
    [apply Hkeep, keeps_stdin_show_daily_total |].
  destruct (String.eqb (strip line) "4");
    [apply Hkeep, keeps_stdin_generate_sales_report |].
  destruct (String.eqb (strip line) "5"); [reflexivity |].
  apply Hkeep, keeps_stdin_print.
Qed.

Ltac blind_primitive :=
  intros [] [] (H1 & H2 & H3 & H4 & H5 & H6 & H7 & H8 & H9 & H10); cbn in *;
  subst; repeat split; (reflexivity || assumption).

Lemma file_blind_bind {A B : Type} (m : M A) (k : A -> M B) :
  file_blind m -> (forall a, file_blind (k a)) -> file_blind (bind m k).
Proof.
  intros Hm Hk w1 w2 Hw. unfold bind. destruct (Hm w1 w2 Hw) as [Hr Hs].
  destruct (m w1) as [[a|e] w1'], (m w2) as [[a'|e'] w2']; cbn in *;
    try discriminate.
  - injection Hr as <-. apply Hk, Hs.
  - injection Hr as <-. split; [reflexivity | exact Hs].
Qed.

Lemma file_blind_print (text : string) : file_blind (print text).
Proof. blind_primitive. Qed.

Lemma file_blind_ret {A : Type} (a : A) : file_blind (ret a).
Proof. blind_primitive. Qed.

Lemma file_blind_lift {A : Type} (r : result A) : file_blind (lift r).
Proof. blind_primitive. Qed.

Lemma file_blind_now : file_blind now.
Proof. blind_primitive. Qed.

Lemma file_blind_append (record : pyval) : file_blind (append_record record).
Proof. blind_primitive. Qed.

Lemma file_blind_path (name : string) : file_blind (path_in_reports name).
Proof. blind_primitive. Qed.

Lemma file_blind_mkdir : file_blind mkdir_reports.
Proof.
  intros [lines1 c1 t1 e1 f1 r1 d1 n1 p1 v1] [lines2 c2 t2 e2 f2 r2 d2 n2 p2 v2]
    (H1 & H2 & H3 & H4 & H5 & H6 & H7 & H8 & H9 & H10); cbn in *; subst.
  unfold mkdir_reports; cbn. destruct (d2 n2); cbn; repeat split; assumption.
Qed.

Lemma file_blind_write_report (name text : string) :
  file_blind (write_report_file name text).
Proof.
  intros [lines1 c1 t1 e1 f1 r1 d1 n1 p1 v1] [lines2 c2 t2 e2 f2 r2 d2 n2 p2 v2]
    (H1 & H2 & H3 & H4 & H5 & H6 & H7 & H8 & H9 & H10); cbn in *; subst.
  unfold write_report_file; cbn.
  destruct (d2 n2) as [[e|]|]; cbn; repeat split; assumption.
Qed.

(** Saving the list does not depend on what the data file holds, only on
    whether its path can be opened. *)
Lemma file_blind_save (sales : list pyval) : file_blind (save_sales_data sales).
Proof.
  intros [lines1 c1 t1 e1 f1 r1 d1 n1 p1 v1] [lines2 c2 t2 e2 f2 r2 d2 n2 p2 v2]
    (H1 & H2 & H3 & H4 & H5 & H6 & H7 & H8 & H9 & H10); cbn in *; subst.
  unfold save_sales_data, write_data_file, write_fault; cbn.
  destruct f1, f2; cbn in H10; try discriminate;
    try (injection H10 as ->); cbn;
    try (destruct (d2 n2) as [[e|]|]; cbn); repeat split; reflexivity.
Qed.

Lemma file_blind_input (prompt : string) : file_blind (input prompt).
Proof.
  intros [lines1 c1 t1 e1 f1 r1 d1 n1 p1 v1] [lines2 c2 t2 e2 f2 r2 d2 n2 p2 v2]
    (H1 & H2 & H3 & H4 & H5 & H6 & H7 & H8 & H9 & H10); cbn in *; subst.
  unfold input; cbn. destruct lines2; cbn; repeat split; (reflexivity || assumption).
Qed.

Ltac blind :=
  repeat first
    [ apply file_blind_print | apply file_blind_ret | apply file_blind_lift
    | apply file_blind_now | apply file_blind_mkdir | apply file_blind_write_report
    | apply file_blind_save | apply file_blind_input | apply file_blind_append
    | apply file_blind_path
    | apply file_blind_bind; [|intros ?] ].

Lemma file_blind_add_sale (sales : list pyval) : file_blind (add_sale sales).
Proof.
  unfold add_sale. apply file_blind_bind; [blind |]. intros line.
  destruct (read_amount (strip line)) as [amount|e]; [blind |].
  destruct (catches [ValueError] e); blind.
Qed.

Lemma file_blind_view_sales_loop (records : list pyval) :
  forall index displayed, file_blind (view_sales_loop index records displayed).
Proof.
  induction records as [|record records IH]; intros index displayed; simpl.
  - blind.
  - apply file_blind_bind; [blind |].
    intros [[sale_time amount]|]; (apply file_blind_bind; [blind | intros _; apply IH]).
Qed.

Lemma file_blind_view_sales (sales : list pyval) : file_blind (view_sales sales).
Proof.
  destruct sales as [|record sales]; [blind |].
  unfold view_sales. apply file_blind_bind; [blind |]. intros _.
  apply file_blind_bind; [apply file_blind_view_sales_loop |]. intros displayed.
  destruct (displayed =? 0); blind.
Qed.

Lemma file_blind_show_daily_total (sales : list pyval) :
  file_blind (show_daily_total sales).
Proof. unfold show_daily_total. blind. Qed.

Lemma file_blind_generate_sales_report (sales : list pyval) :
  file_blind (generate_sales_report sales).
Proof.
  unfold generate_sales_report. apply file_blind_bind; [blind |].
  intros [|p pairs]; blind.
Qed.

Lemma file_blind_menu_turns (fuel : nat) :
  forall sales, file_blind (menu_turns fuel sales).
Proof.
  induction fuel as [|fuel IH]; intros sales; cbn [menu_turns]; [blind |].
  apply file_blind_bind; [unfold print_menu; blind |]. intros _.
  apply file_blind_bind; [blind |]. intros line.
  destruct (String.eqb (strip line) "1").
  { apply file_blind_bind; [apply file_blind_add_sale | intros sales'; apply IH]. }
  destruct (String.eqb (strip line) "2").
  { apply file_blind_bind; [apply file_blind_view_sales | intros _; apply IH]. }
  destruct (String.eqb (strip line) "3").
  { apply file_blind_bind; [apply file_blind_show_daily_total | intros _; apply IH]. }
  destruct (String.eqb (strip line) "4").
  { apply file_blind_bind; [apply file_blind_generate_sales_report | intros _; apply IH]. }
  destruct (String.eqb (strip line) "5"); [blind |].
  apply file_blind_bind; [blind | intros _; apply IH].
Qed.

(** After a data file that can be opened and reads as no list, the menu
    runs as on the empty list: same results, same prompts and messages,
    same reports as with a file holding the empty list, on the same
    disk. *)
Lemma menu_loop_as_on_empty_dataset (w : world) :
  reads_as_empty (data_file w) ->
  blocked (data_file w) = None ->
  let w0 := with_data_file (Document (PList [])) w in
  fst (menu_loop w) = fst (menu_loop w0)
  /\ same_session (snd (menu_loop w)) (snd (menu_loop w0)).
Proof.
  intros Hfile Hopen. cbv zeta. unfold menu_loop, bind.
  rewrite (load_sales_data_empty w Hfile).
  rewrite (load_sales_data_list (with_data_file (Document (PList [])) w) []
             eq_refl).
  apply file_blind_menu_turns. repeat split. exact Hopen.
Qed.

(** After a data file that reads as no list, be it one that cannot be
    opened, the menu starts from the empty list. *)
Lemma menu_loop_starts_empty (w : world) :
  reads_as_empty (data_file w) ->
  menu_loop w = menu_turns (S (List.length (stdin w))) [] w.
Proof.
  intros Hfile. unfold menu_loop, bind.
  rewrite (load_sales_data_empty w Hfile). reflexivity.
Qed.

End Loop.

(** ** The reference runtime *)

Lemma digit_value_digit (n : Z) : Reference.digit_value (digit n) = Some (n mod 10).
Proof.
  unfold digit.
  assert (H : 0 <= n mod 10 < 10) by (apply Z.mod_pos_bound; lia).
  generalize dependent (n mod 10). intros k Hk.
  assert (C : k = 0 \/ k = 1 \/ k = 2 \/ k = 3 \/ k = 4 \/ k = 5 \/ k = 6
              \/ k = 7 \/ k = 8 \/ k = 9) by lia.
  repeat (destruct C as [-> | C]; [reflexivity |]). subst k. reflexivity.
Qed.

Lemma two_pad2 (n : Z) :
  0 <= n < 100 -> Reference.two (digit (n / 10)) (digit n) = Some n.
Proof.
  intros Hn. unfold Reference.two. rewrite !digit_value_digit.
  f_equal. Z.div_mod_to_equations. lia.
Qed.

Lemma four_pad4 (n : Z) :
  0 <= n < 10000 ->
  Reference.four (digit (n / 1000)) (digit (n / 100)) (digit (n / 10)) (digit n)
  = Some n.
Proof.
  intros Hn. unfold Reference.four, Reference.two. rewrite !digit_value_digit.
  f_equal. Z.div_mod_to_equations. lia.
Qed.

Lemma valid_date_bounds (y m d : Z) :
  Reference.valid_date y m d = true ->
  0 <= y < 10000 /\ 0 <= m < 100 /\ 0 <= d < 100.
Proof.
  unfold Reference.valid_date, Reference.days_in_month. intros H.
  repeat (apply andb_prop in H; destruct H as [H ?]).
  destruct (m =? 2); [destruct (Reference.is_leap y) |];
    try destruct ((m =? 4) || (m =? 6) || (m =? 9) || (m =? 11)); lia.
Qed.

Lemma valid_time_bounds (h mi s : Z) :
  Reference.valid_time h mi s = true ->
  0 <= h < 100 /\ 0 <= mi < 100 /\ 0 <= s < 100.
Proof.
  unfold Reference.valid_time. intros H.
  repeat (apply andb_prop in H; destruct H as [H ?]). lia.
Qed.

(** The reference parser reads back what [isoformat] prints for a naive
    time, to the second. *)
Lemma fromisoformat_iso_text (y m d h mi s : Z) :
  Reference.valid_date y m d = true ->
  Reference.valid_time h mi s = true ->
  Reference.fromisoformat (iso_text y m d h mi s)
  = Some (mkdatetime y m d h mi s 0 None).
Proof.
  intros Hdate Htime.
  destruct (valid_date_bounds _ _ _ Hdate) as (Hy & Hm & Hd).
  destruct (valid_time_bounds _ _ _ Htime) as (Hh & Hmi & Hs).
  unfold iso_text, pad4, pad2. cbn [String.append].
  unfold Reference.fromisoformat.
  rewrite (four_pad4 _ Hy), (two_pad2 _ Hm), (two_pad2 _ Hd), Hdate.
  rewrite (two_pad2 _ Hh), (two_pad2 _ Hmi), (two_pad2 _ Hs), Htime.
  reflexivity.
Qed.

Lemma isoformat_seconds_naive (t : datetime) :
  utcoffset t = None ->
  isoformat_seconds t
  = iso_text (year t) (month t) (day t) (hour t) (minute t) (second t).
Proof.
  intros Hnaive. unfold isoformat_seconds, iso_text, strftime_time.
  rewrite Hnaive. unfold pad4, pad2. cbn [String.append]. reflexivity.
Qed.

Lemma fromisoformat_isoformat (t : datetime) :
  valid_datetime t = true -> utcoffset t = None ->
  Reference.fromisoformat (isoformat_seconds t) = Some (truncate_seconds t).
Proof.
  unfold valid_datetime. intros Hvalid Hnaive.
  apply andb_prop in Hvalid. destruct Hvalid as [Hdate Htime].
  rewrite (isoformat_seconds_naive t Hnaive).
  rewrite (fromisoformat_iso_text _ _ _ _ _ _ Hdate Htime).
  unfold truncate_seconds. rewrite Hnaive. reflexivity.
Qed.

(** And a date alone. *)
Lemma fromisoformat_date_text (y m d : Z) :
  Reference.valid_date y m d = true ->
  Reference.fromisoformat (pad4 y ++ "-" ++ pad2 m ++ "-" ++ pad2 d)
  = Some (mkdatetime y m d 0 0 0 0 None).
Proof.
  intros Hdate. destruct (valid_date_bounds _ _ _ Hdate) as (Hy & Hm & Hd).
  unfold pad4, pad2. cbn [String.append].
  unfold Reference.fromisoformat.
  rewrite (four_pad4 _ Hy), (two_pad2 _ Hm), (two_pad2 _ Hd), Hdate.
  reflexivity.
Qed.

(** ** The year in a day key *)

(** The digits of a year read back as the year. *)
Lemma number_str_of_Z (y : Z) :
  1 <= y <= 9999 -> Reference.number (str_of_Z y) = Some y.
Proof.
  intros Hy.
  assert (H : forallb (fun n => match Reference.number (str_of_Z (Z.of_nat n)) with
                                | Some v => v =? Z.of_nat n
                                | None => false
                                end) (seq 1 (Z.to_nat 9999)) = true)
    by (vm_compute; reflexivity).
  rewrite forallb_forall in H. specialize (H (Z.to_nat y)).
  rewrite Z2Nat.id in H by lia.
  destruct (Reference.number (str_of_Z y)) as [v|].
  - f_equal. apply Z.eqb_eq, H, in_seq. lia.
  - discriminate H. apply in_seq. lia.
Qed.

Lemma split_at_digits (s rest : string) :
  forall acc count r,
    Reference.digits_from s acc count = Some r ->
    Reference.split_at "-" (s ++ String "-" rest) = (s, Some rest).
Proof.
  induction s as [|c s IH]; intros acc count r H; cbn [String.append Reference.split_at].
  - reflexivity.
  - cbn [Reference.digits_from] in H.
    destruct (Reference.digit_value c) as [d|] eqn:Hc; [|discriminate].
    destruct (Ascii.eqb c "-") eqn:E.
    + apply Ascii.eqb_eq in E. subst c. discriminate Hc.
    + rewrite (IH _ _ _ H). reflexivity.
Qed.

Lemma split_at_year (y : Z) (rest : string) :
  1 <= y <= 9999 ->
  Reference.split_at "-" (str_of_Z y ++ String "-" rest) = (str_of_Z y, Some rest).
Proof.
  intros Hy. pose proof (number_str_of_Z y Hy) as H.
  unfold Reference.number in H.
  destruct (str_of_Z y) as [|c s] eqn:E; [discriminate |].
  destruct (Reference.digits_from (String c s) 0 0) as [r|] eqn:Hd; [|discriminate].
  exact (split_at_digits _ rest _ _ _ Hd).
Qed.

Lemma pad2_inj (m1 m2 : Z) :
  0 <= m1 < 100 -> 0 <= m2 < 100 ->
  digit (m1 / 10) = digit (m2 / 10) -> digit m1 = digit m2 -> m1 = m2.
Proof.
  intros H1 H2 Ha Hb.
  pose proof (two_pad2 m1 H1) as P1. pose proof (two_pad2 m2 H2) as P2.
  rewrite Ha, Hb, P2 in P1. congruence.
Qed.

Section DayKeys.

Context {rt : Runtime}.

(** The day keys of a report stand for calendar dates, whichever way the
    year is written: two valid dates with the same key are the same
    date. *)
Lemma strftime_date_inj (t1 t2 : datetime) :
  Reference.valid_date (year t1) (month t1) (day t1) = true ->
  Reference.valid_date (year t2) (month t2) (day t2) = true ->
  strftime_date t1 = strftime_date t2 -> date_of t1 = date_of t2.
Proof.
  intros H1 H2 E. unfold strftime_date, strftime_year in E.
  destruct strftime_pads_year.
  - pose proof (fromisoformat_date_text _ _ _ H1) as P1.
    pose proof (fromisoformat_date_text _ _ _ H2) as P2.
    rewrite E, P2 in P1. injection P1 as Hy Hm Hd. unfold date_of. congruence.
  - destruct (valid_date_bounds _ _ _ H1) as (Hy1 & Hm1 & Hd1).
    destruct (valid_date_bounds _ _ _ H2) as (Hy2 & Hm2 & Hd2).
    assert (Y1 : 1 <= year t1 <= 9999).
    { unfold Reference.valid_date in H1.
      repeat (apply andb_prop in H1; destruct H1 as [H1 ?]). lia. }
    assert (Y2 : 1 <= year t2 <= 9999).
    { unfold Reference.valid_date in H2.
      repeat (apply andb_prop in H2; destruct H2 as [H2 ?]). lia. }
    apply (f_equal (Reference.split_at "-")) in E.
    change ("-" ++ ?r) with (String "-" r) in E.
    cbn [String.append] in E.
    rewrite (split_at_year _ _ Y1), (split_at_year _ _ Y2) in E.
    injection E as Ey Em1 Em2 Ed1 Ed2.
    assert (Hy : year t1 = year t2).
    { pose proof (number_str_of_Z _ Y1) as N1.
      pose proof (number_str_of_Z _ Y2) as N2.
      rewrite Ey, N2 in N1. congruence. }
    unfold date_of. f_equal; [exact Hy | |]; apply pad2_inj; assumption.
Qed.

End DayKeys.

(** * The properties of the program *)

(** C1 (as amended). The three sales of the example (10.00 and 5.00 on
    2024-01-01, 3.00 on 2024-01-02, at any time of day) give a report of 3
    records, total 18.00, average 6.00, highest 10.00, lowest 3.00 and daily
    totals 15.00 and 3.00, whichever way the runtime sums and writes the
    year. In general, when the validator returns on every record and at
    least one record is valid, the figures of the report are the number of
    valid records, what [sum] and [mean] give for their amounts (the mean
    of finite amounts being their exact sum over their number, rounded
    once to the nearest float) and, per day in ascending order of day key,
    the running total of the valid amounts of that day; the highest and the lowest figure are the largest
    and the smallest of the valid amounts that are numbers, unless the
    first valid amount is a NaN, and then both are NaN. The report with
    these figures is shown in every case; it is saved, in a file named
    after the time, when the disk refuses neither the directory nor the
    file. *)
Theorem sales_report_figures {rt : Runtime} :
  (forall (s1 s2 s3 : string) (t1 t2 t3 : datetime) (w : world),
      fromisoformat s1 = Some t1 ->
      fromisoformat s2 = Some t2 ->
      fromisoformat s3 = Some t3 ->
      date_of t1 = mkdate 2024 1 1 ->
      date_of t2 = mkdate 2024 1 1 ->
      date_of t3 = mkdate 2024 1 2 ->
      let sales := [sale s1 (Float64.of_Z 10); sale s2 (Float64.of_Z 5);
                    sale s3 (Float64.of_Z 3)] in
      compute_statistics (valid_pairs sales) = Ok example_statistics
      /\ (faults w (writes w) = None ->
          faults w (S (writes w)) = None ->
          generate_sales_report sales w
          = (Ok tt, report_saved example_statistics w)))
  /\ (forall generated_at : datetime,
         report_lines generated_at example_statistics =
         ["=== Sales Report ===";
          "Generated At: " ++ strftime_seconds generated_at;
          "Total Records: 3";
          "Total Sales: 18.00";
          "Average Sale: 6.00";
          "Highest Sale: 10.00";
          "Lowest Sale: 3.00";
          "";
          "Daily Totals:";
          "- 2024-01-01: 15.00";
          "- 2024-01-02: 3.00"])
  /\ (forall (sales : list pyval) (w : world),
         Forall returns sales ->
         valid_pairs sales <> [] ->
         exists s,
           compute_statistics (valid_pairs sales) = Ok s
           /\ figures_of (valid_pairs sales) s
           /\ (forallb Float64.is_finite (valid_amounts sales) = true ->
               exists total : Z * Z,
                 (exact_value total == exact_total (valid_amounts sales))%Q
                 /\ average_sale s =
                    Float64.round_ratio (fst total) (snd total)
                      (Z.to_pos (Z.of_nat (List.length (valid_amounts sales)))))
           /\ extremes_of (valid_pairs sales) s
           /\ (exists later,
                  events (snd (generate_sales_report sales w)) =
                  (events w ++ Printed (nl ++ report_text_of s w) :: later)%list)
           /\ (faults w (writes w) = None ->
               faults w (S (writes w)) = None ->
               generate_sales_report sales w = (Ok tt, report_saved s w))).
Proof.
  split; [|split].
  - intros s1 s2 s3 t1 t2 t3 w H1 H2 H3 D1 D2 D3. cbv zeta.
    assert (V1 := sale_validates s1 (Float64.of_Z 10) t1 H1).
    assert (V2 := sale_validates s2 (Float64.of_Z 5) t2 H2).
    assert (V3 := sale_validates s3 (Float64.of_Z 3) t3 H3).
    assert (Hvalid : valid_pairs
                       [sale s1 (Float64.of_Z 10); sale s2 (Float64.of_Z 5);
                        sale s3 (Float64.of_Z 3)]
                     = [(t1, Float64.of_Z 10); (t2, Float64.of_Z 5);
                        (t3, Float64.of_Z 3)]).
    { unfold valid_pairs. cbn [flat_map]. rewrite V1, V2, V3. reflexivity. }
    assert (Hs : compute_statistics
                   (valid_pairs
                      [sale s1 (Float64.of_Z 10); sale s2 (Float64.of_Z 5);
                       sale s3 (Float64.of_Z 3)]) = Ok example_statistics).
    { rewrite Hvalid.
      unfold compute_statistics, builtin_sum, group_by_day, add_to_day.
      cbn [fold_left fst snd map].
      rewrite (date_of_strftime _ _ _ _ D1), (date_of_strftime _ _ _ _ D2),
        (date_of_strftime _ _ _ _ D3).
      unfold strftime_year.
      destruct sum_compensates, strftime_pads_year; vm_compute; reflexivity. }
    split; [exact Hs |]. intros Hdir Hfile.
    apply generate_sales_report_saved; try assumption.
    + repeat constructor; eexists; eassumption.
    + rewrite Hvalid. discriminate.
  - intros generated_at. reflexivity.
  - intros sales w Hret Hne.
    destruct (compute_statistics_spec (valid_pairs sales) Hne) as [s [Hs [Hfig Hext]]].
    exists s. split; [exact Hs |]. split; [exact Hfig |]. split; [|split; [exact Hext |]].
    { intros Hfinite.
      assert (Hne' : valid_amounts sales <> []).
      { unfold valid_amounts. destruct (valid_pairs sales); [congruence | discriminate]. }
      destruct (mean_exact _ Hne' Hfinite) as [total [Hvalue Hmean]].
      exists total. split; [exact Hvalue |].
      destruct Hfig as (_ & _ & Haverage & _).
      unfold valid_amounts in Hmean. rewrite Haverage in Hmean.
      injection Hmean as ->. reflexivity. }
    split.
    + exact (generate_sales_report_shown sales w s Hret Hne Hs).
    + intros Hdir Hfile. apply generate_sales_report_saved; assumption.
Qed.

Lemma sales_report_figures_witness :
  let w := initial_world [] (Document (PList example_sales)) in
  generate_sales_report (rt := Reference.runtime) example_sales w
  = (Ok tt, report_saved (rt := Reference.runtime) example_statistics w)
  /\ exists s,
       compute_statistics (rt := Reference.runtime)
         (valid_pairs (rt := Reference.runtime) example_sales) = Ok s
       /\ figures_of (rt := Reference.runtime)
            (valid_pairs (rt := Reference.runtime) example_sales) s
       /\ extremes_of (valid_pairs (rt := Reference.runtime) example_sales) s.
Proof.
  cbv zeta.
  destruct (@sales_report_figures Reference.runtime) as [Hexample [_ Hgeneral]].
  split.
  - eapply Hexample; reflexivity.
  - destruct (Hgeneral example_sales
                (initial_world [] (Document (PList example_sales))))
      as (s & Hs & Hfig & _ & Hext & _).
    + repeat constructor; eexists; vm_compute; reflexivity.
    + vm_compute. discriminate.
    + exists s. split; [exact Hs | split; [exact Hfig | exact Hext]].
Defined.

(** C1, as first stated, fails when the first valid amount is a NaN: of
    the valid amounts NaN, 5.00 and 7.00 the largest is 7.00 and the
    smallest 5.00, and the report gives NaN as the highest and as the
    lowest sale. *)
Lemma report_with_nan_amount :
  let sales := [sale "2024-01-01T09:00:00" Float64.nan;
                sale "2024-01-01T10:00:00" (Float64.of_Z 5);
                sale "2024-01-02T11:00:00" (Float64.of_Z 7)] in
  let w := initial_world [] (Document (PList sales)) in
  let s := mkstatistics 3 Float64.nan Float64.nan Float64.nan Float64.nan
             [("2024-01-01", Float64.nan); ("2024-01-02", Float64.of_Z 7)] in
  Forall (returns (rt := Reference.runtime)) sales
  /\ valid_amounts (rt := Reference.runtime) sales
     = [Float64.nan; Float64.of_Z 5; Float64.of_Z 7]
  /\ generate_sales_report (rt := Reference.runtime) sales w
     = (Ok tt, report_saved (rt := Reference.runtime) s w)
  /\ is_maximum (Float64.of_Z 7) (valid_amounts (rt := Reference.runtime) sales)
  /\ max_sale s <> Float64.of_Z 7
  /\ is_minimum (Float64.of_Z 5) (valid_amounts (rt := Reference.runtime) sales)
  /\ min_sale s <> Float64.of_Z 5.
Proof.
  cbv zeta.
  assert (Hamounts :
            valid_amounts (rt := Reference.runtime)
              [sale "2024-01-01T09:00:00" Float64.nan;
               sale "2024-01-01T10:00:00" (Float64.of_Z 5);
               sale "2024-01-02T11:00:00" (Float64.of_Z 7)]
            = [Float64.nan; Float64.of_Z 5; Float64.of_Z 7])
    by (vm_compute; reflexivity).
  split; [|split; [|split; [|split; [|split; [|split]]]]].
  - repeat constructor; eexists; vm_compute; reflexivity.
  - exact Hamounts.
  - vm_compute. reflexivity.
  - rewrite Hamounts. split; [right; right; left; reflexivity |].
    split; [reflexivity |].
    intros x [<- | [<- | [<- | []]]] Hx; [discriminate | |]; vm_compute; reflexivity.
  - discriminate.
  - rewrite Hamounts. split; [right; left; reflexivity |].
    split; [reflexivity |].
    intros x [<- | [<- | [<- | []]]] Hx; [discriminate | |]; vm_compute; reflexivity.
  - discriminate.
Qed.

(** C2 (the code departs from it). A stored record whose amount is the
    integer [10^400] is invalid, yet it is not skipped: computing the daily
    total over it stops with an [OverflowError] and no total is shown. *)
Theorem daily_total_aborts_on_oversized_amount {rt : Runtime} (w : world) :
  show_daily_total [oversized_record] w = (Raise OverflowError, snd (now w)).
Proof.
  unfold show_daily_total, bind, lift. cbn [now fst snd daily_total].
  rewrite oversized_record_raises. reflexivity.
Qed.

(** C3 (the code departs from it). On the list of that one record, which
    does not validate, the report stops with an [OverflowError]: nothing is
    written, and the no-data message is not shown either. *)
Theorem report_aborts_on_oversized_amount {rt : Runtime} (w : world) :
  generate_sales_report [oversized_record] w = (Raise OverflowError, w).
Proof.
  unfold generate_sales_report, bind, lift. cbn [collect_valid].
  rewrite oversized_record_raises. reflexivity.
Qed.

(** C4. The program saves the list in one place, [add_sale], after it
    has appended the sale entered. For an accepted amount [a] entered at a
    time [t] of the clock, the record appended holds [a] and the text
    [isoformat] gives for [t], to the second; when the write succeeds, a
    later load returns the list saved, the earlier records as they were
    followed by the new one. The validator then gives for the new record
    the amount [a], unchanged, with the time that the runtime reads from
    that text; for a runtime that reads the text as the time it denotes,
    the valid pairs of the loaded list are those the list had, followed by
    the pair of [t] without its microseconds and of [a]. *)
Theorem persist_then_load_roundtrip {rt : Runtime} (sales : list pyval)
    (w : world) (line : string) (rest : list string) (a : float) :
  let t := clock w (ticks w) in
  let text :=
    iso_text (year t) (month t) (day t) (hour t) (minute t) (second t) in
  let record := PDict [("amount", PFloat a); ("timestamp", PStr text)] in
  stdin w = line :: rest ->
  read_amount (strip line) = Ok a ->
  write_fault w = None ->
  utcoffset t = None ->
  exists w1,
    add_sale sales w = (Ok (sales ++ [record])%list, w1)
    /\ forall w2,
         data_file w2 = data_file w1 ->
         load_sales_data w2 = (Ok (sales ++ [record])%list, w2)
         /\ parse_sale_record record =
            Ok (match fromisoformat text with
                | Some t' => Some (t', a)
                | None => None
                end)
         /\ (fromisoformat text = Some (truncate_seconds t) ->
             valid_pairs (sales ++ [record]) =
             (valid_pairs sales ++ [(truncate_seconds t, a)])%list).
Proof.
  intros t text record Hin Ha Hfault Hnaive.
  destruct (add_sale_accepted sales w line rest a Hin Ha Hfault)
    as [w1 (Hrun & Hfile & _)].
  assert (Hrecord : new_record a (clock w (ticks w)) = record).
  { unfold new_record, record, text. fold t.
    rewrite (isoformat_seconds_naive t Hnaive). reflexivity. }
  rewrite Hrecord in Hrun, Hfile.
  exists w1. split; [exact Hrun |].
  intros w2 Hw2. split; [|split].
  - apply load_sales_data_list. rewrite Hw2. exact Hfile.
  - apply (parse_sale_record_converts record (PStr text) (PFloat a) a);
      reflexivity.
  - intros Hparse. rewrite valid_pairs_app. f_equal.
    unfold valid_pairs. cbn [flat_map].
    rewrite (parse_sale_record_valid record (PStr text) (PFloat a)
               (truncate_seconds t) a); try reflexivity.
    exact Hparse.
Qed.

Lemma persist_then_load_roundtrip_witness :
  exists w1,
    add_sale (rt := Reference.runtime) example_sales
      (initial_world ["12.50"] (Document (PList example_sales)))
    = (Ok (example_sales
           ++ [PDict [("amount", PFloat (S754_finite false 7036874417766400 (-49)));
                      ("timestamp", PStr "2024-01-02T12:00:00")]])%list, w1)
    /\ load_sales_data (initial_world ["2"; "5"] (data_file w1))
       = (Ok (example_sales
              ++ [PDict [("amount",
                          PFloat (S754_finite false 7036874417766400 (-49)));
                         ("timestamp", PStr "2024-01-02T12:00:00")]])%list,
          initial_world ["2"; "5"] (data_file w1))
    /\ valid_pairs (rt := Reference.runtime)
         (example_sales
          ++ [PDict [("amount", PFloat (S754_finite false 7036874417766400 (-49)));
                     ("timestamp", PStr "2024-01-02T12:00:00")]])
       = (valid_pairs (rt := Reference.runtime) example_sales
          ++ [(mkdatetime 2024 1 2 12 0 0 0 None,
               S754_finite false 7036874417766400 (-49))])%list.
Proof.
  destruct (@persist_then_load_roundtrip Reference.runtime example_sales
              (initial_world ["12.50"] (Document (PList example_sales)))
              "12.50" [] (S754_finite false 7036874417766400 (-49))
              eq_refl ltac:(vm_compute; reflexivity) eq_refl eq_refl)
    as (w1 & Hrun & Hload).
  exists w1. split; [exact Hrun |].
  destruct (Hload (initial_world ["2"; "5"] (data_file w1)) eq_refl)
    as (H1 & _ & H3).
  split; [exact H1 | apply H3; vm_compute; reflexivity].
Defined.

(** C5. When the text entered for the amount, stripped, is no number or
    parses to a number below zero, [add_sale] shows the error message and
    returns with the list as it was: no record is appended, the data file
    is not written (the only events are the prompt and the message) and
    its content is unchanged. *)
Theorem add_sale_rejects_invalid_amount {rt : Runtime} (sales : list pyval)
    (w : world) (line : string) (rest : list string) :
  stdin w = line :: rest ->
  float_of_str (strip line) = None
  \/ (exists a, float_of_str (strip line) = Some a
                /\ Float64.ltb a Float64.zero = true) ->
  exists w',
    add_sale sales w = (Ok sales, w')
    /\ data_file w' = data_file w
    /\ report_files w' = report_files w
    /\ stdin w' = rest
    /\ events w' =
       (events w ++ [Prompted "Enter sale amount: ";
                     Printed "Invalid amount. Please enter a non-negative number."])%list.
Proof.
  intros Hin Hbad.
  rewrite (add_sale_rejected sales w line rest Hin (read_amount_rejects _ Hbad)).
  eexists. split; [reflexivity |]. world_fields. repeat split.
Qed.

Lemma add_sale_rejects_invalid_amount_witness :
  exists w',
    add_sale (rt := Reference.runtime) [] (initial_world ["-3.50"] Missing)
    = (Ok [], w')
    /\ data_file w' = Missing.
Proof.
  destruct (@add_sale_rejects_invalid_amount Reference.runtime []
              (initial_world ["-3.50"] Missing) "-3.50" [])
    as [w' [Hrun [Hfile _]]].
  - reflexivity.
  - right. eexists. split; vm_compute; reflexivity.
  - exists w'. split; [exact Hrun | exact Hfile].
Defined.

(** C6 (the code departs from it). The validator is not total: on a record
    with a timestamp and the integer amount [10^400] it raises
    [OverflowError], which its [except] clause does not catch. *)
Theorem validator_raises_on_oversized_amount {rt : Runtime} :
  parse_sale_record oversized_record = Raise OverflowError
  /\ catches [KeyError; TypeError; ValueError] OverflowError = false.
Proof. split; [apply oversized_record_raises | reflexivity]. Qed.

(** C7 (as amended). A stored record with a timestamp that parses and an
    amount that [float] turns into a negative number is validated, with
    that negative amount: nothing is checked but the conversions, while
    [add_sale] refuses the same number when it is entered. The amount then
    enters the daily total of its date and the valid sales of the
    report. *)
Theorem negative_amount_validates {rt : Runtime} (record ts am : pyval)
    (t : datetime) (a : float) :
  getitem record "timestamp" = Ok ts ->
  fromisoformat (py_str ts) = Some t ->
  getitem record "amount" = Ok am ->
  py_float am = Ok a ->
  Float64.ltb a Float64.zero = true ->
  parse_sale_record record = Ok (Some (t, a))
  /\ (forall text, float_of_str text = Some a -> read_amount text = Raise ValueError)
  /\ daily_total (date_of t) [record] Float64.zero = Ok (Float64.add Float64.zero a)
  /\ collect_valid [record] [] = Ok [(t, a)].
Proof.
  intros Hts Ht Ham Ha Hneg.
  assert (H : parse_sale_record record = Ok (Some (t, a)))
    by (eapply parse_sale_record_valid; eassumption).
  split; [exact H | split; [|split]].
  - intros text Htext. apply read_amount_rejects. right.
    exists a. split; assumption.
  - cbn [daily_total]. rewrite H. cbn [rbind].
    assert (E : date_eqb (date_of t) (date_of t) = true).
    { unfold date_eqb. rewrite !Z.eqb_refl. reflexivity. }
    rewrite E. reflexivity.
  - cbn [collect_valid]. rewrite H. reflexivity.
Qed.

Lemma negative_amount_validates_witness :
  parse_sale_record (rt := Reference.runtime)
    (sale "2024-03-05T08:00:00" (Float64.of_Z (-25)))
  = Ok (Some (mkdatetime 2024 3 5 8 0 0 0 None, Float64.of_Z (-25)))
  /\ read_amount (rt := Reference.runtime) "-25" = Raise ValueError.
Proof.
  destruct (@negative_amount_validates Reference.runtime
              (sale "2024-03-05T08:00:00" (Float64.of_Z (-25)))
              (PStr "2024-03-05T08:00:00") (PFloat (Float64.of_Z (-25)))
              (mkdatetime 2024 3 5 8 0 0 0 None) (Float64.of_Z (-25)))
    as (Hvalid & Hentry & _); try reflexivity.
  split; [exact Hvalid | apply Hentry; vm_compute; reflexivity].
Defined.

(** C7, as first stated, fails on a negative integer beyond the range of
    a float: the record has a valid timestamp and the negative amount
    [-10^400], and the validator does not accept it; it raises
    [OverflowError]. *)
Lemma negative_oversized_amount_raises :
  getitem negative_oversized_record "timestamp" = Ok (PStr "2024-01-01T00:00:00")
  /\ Reference.fromisoformat "2024-01-01T00:00:00"
     = Some (mkdatetime 2024 1 1 0 0 0 0 None)
  /\ getitem negative_oversized_record "amount" = Ok (PInt (- (10 ^ 400)))
  /\ - (10 ^ 400) < 0
  /\ parse_sale_record (rt := Reference.runtime) negative_oversized_record
     = Raise OverflowError.
Proof. repeat split; vm_compute; reflexivity. Qed.

(** C8 (the code departs from it). A data file whose bytes are not valid
    UTF-8 is not read as an empty list: loading raises
    [UnicodeDecodeError], which the [except] clause of [load_sales_data],
    for [JSONDecodeError] and [OSError], does not catch. *)
Theorem load_raises_on_undecodable_file (lines : list string) :
  load_sales_data (initial_world lines Undecodable)
  = (Raise UnicodeDecodeError, initial_world lines Undecodable)
  /\ catches [JSONDecodeError; OSError] UnicodeDecodeError = false.
Proof. split; reflexivity. Qed.

(** C9 (as amended). When none of the three lines entered is, once
    leading and trailing white space is stripped, the expected password,
    [authenticate] returns [False] and [main] ends there: the login banner,
    the three prompts, the two warnings and the denial are all that is
    shown, the dashboard is not, and no file is touched. *)
Theorem three_failed_attempts_deny {rt : Runtime} (w : world)
    (p1 p2 p3 : string) (rest : list string) :
  stdin w = p1 :: p2 :: p3 :: rest ->
  strip p1 <> admin_password_of w ->
  strip p2 <> admin_password_of w ->
  strip p3 <> admin_password_of w ->
  exists w',
    authenticate w = (Ok false, w')
    /\ main w = (Ok tt, w')
    /\ stdin w' = rest
    /\ data_file w' = data_file w
    /\ report_files w' = report_files w
    /\ events w' =
       (events w ++
        [Printed (nl ++ "=== Sales Management Login ===");
         Prompted "Enter admin password: ";
         Printed "Invalid password. Attempts left: 2";
         Prompted "Enter admin password: ";
         Printed "Invalid password. Attempts left: 1";
         Prompted "Enter admin password: ";
         Printed "Access denied. Too many failed attempts."])%list.
Proof.
  intros Hin H1 H2 H3.
  assert (Hauth : exists w', authenticate w = (Ok false, w')
    /\ stdin w' = rest
    /\ data_file w' = data_file w
    /\ report_files w' = report_files w
    /\ events w' =
       (events w ++
        [Printed (nl ++ "=== Sales Management Login ===");
         Prompted "Enter admin password: ";
         Printed "Invalid password. Attempts left: 2";
         Prompted "Enter admin password: ";
         Printed "Invalid password. Attempts left: 1";
         Prompted "Enter admin password: ";
         Printed "Access denied. Too many failed attempts."])%list).
  { unfold authenticate, get_admin_password. unfold bind at 1 2.
    unfold print at 1. unfold getenv at 1. cbn [environ emit].
    fold (admin_password_of w). cbn [seq MAX_LOGIN_ATTEMPTS].
    erewrite login_attempt_fails; [| cbn [stdin]; exact Hin | exact H1].
    cbv zeta. cbn [Nat.sub Nat.ltb Nat.leb MAX_LOGIN_ATTEMPTS].
    erewrite login_attempt_fails; [| world_fields; reflexivity | exact H2].
    cbv zeta. cbn [Nat.sub Nat.ltb Nat.leb MAX_LOGIN_ATTEMPTS].
    erewrite login_attempt_fails; [| world_fields; reflexivity | exact H3].
    cbv zeta. cbn [Nat.sub Nat.ltb Nat.leb MAX_LOGIN_ATTEMPTS].
    cbn [login_attempts]. unfold bind.
    eexists. split; [reflexivity |]. world_fields. repeat split. }
  destruct Hauth as [w' [Hauth Hrest]].
  exists w'. split; [exact Hauth |]. split; [|exact Hrest].
  unfold main, bind. rewrite Hauth. reflexivity.
Qed.

Lemma three_failed_attempts_deny_witness :
  exists w',
    main (rt := Reference.runtime)
      (initial_world ["admin"; "admin 123"; "Admin123"; "1"] Missing)
    = (Ok tt, w')
    /\ stdin w' = ["1"].
Proof.
  destruct (@three_failed_attempts_deny Reference.runtime
              (initial_world ["admin"; "admin 123"; "Admin123"; "1"] Missing)
              "admin" "admin 123" "Admin123" ["1"])
    as [w' [_ [Hmain [Hrest _]]]]; try reflexivity; try discriminate.
  exists w'. split; [exact Hmain | exact Hrest].
Defined.

(** C9, as first stated, fails on a padded password: none of the lines
    [" admin123"], ["5"], ["5"] equals the expected ["admin123"], yet the
    first one logs in and the dashboard is shown. *)
Lemma padded_password_logs_in :
  let w := initial_world [" admin123"; "5"; "5"] Missing in
  " admin123" <> admin_password_of w
  /\ "5" <> admin_password_of w
  /\ fst (authenticate w) = Ok true
  /\ existsb is_menu_line (events (snd (main (rt := Reference.runtime) w))) = true.
Proof.
  cbv zeta. split; [discriminate | split; [discriminate | split]];
    vm_compute; reflexivity.
Qed.

(** C10. NaN, positive infinity and every float that is at least zero are
    not below zero; and when the text entered parses to a float that is not
    below zero, [add_sale] accepts it: it appends a record with that amount
    and the text of the time of entry, and then saves the grown list. When
    the write succeeds, the data file holds the grown list and the sale is
    confirmed; when the disk refuses the write, [add_sale] ends with that
    error, after the append. The message for an invalid amount is shown in
    neither case. *)
Theorem add_sale_accepts_not_negative {rt : Runtime} :
  (Float64.ltb Float64.nan Float64.zero = false
   /\ Float64.ltb Float64.inf Float64.zero = false
   /\ forall a, Float64.leb Float64.zero a = true -> Float64.ltb a Float64.zero = false)
  /\ forall (sales : list pyval) (w : world) (line : string) (rest : list string)
            (a : float),
      stdin w = line :: rest ->
      float_of_str (strip line) = Some a ->
      Float64.ltb a Float64.zero = false ->
      let record :=
        PDict [("amount", PFloat a);
               ("timestamp", PStr (isoformat_seconds (clock w (ticks w))))] in
      let sales' := (sales ++ [record])%list in
      exists r w',
        add_sale sales w = (r, w')
        /\ stdin w' = rest
        /\ match write_fault w with
           | None =>
               r = Ok sales'
               /\ data_file w' = Document (PList sales')
               /\ events w' =
                  (events w ++
                   [Prompted "Enter sale amount: "; Appended record;
                    DataWritten sales';
                    Printed ("Sale of " ++ format_2f a ++ " added successfully.")])%list
           | Some f =>
               r = Raise (exn_of_fault f)
               /\ data_file w' =
                  match f with
                  | Refused _ => data_file w
                  | BrokenOff _ => Malformed
                  end
               /\ events w' =
                  (events w ++
                   [Prompted "Enter sale amount: "; Appended record])%list
           end.
Proof.
  split.
  - split; [reflexivity | split; [reflexivity | exact not_negative]].
  - intros sales w line rest a Hin Ha Hnn. cbv zeta.
    pose proof (read_amount_accepts _ _ Ha Hnn) as Hread.
    destruct (write_fault w) as [f|] eqn:Hfault.
    + destruct (add_sale_refused sales w line rest a f Hin Hread Hfault)
        as [w' (Hrun & Hfile & Hrest & Hev & _)].
      exists (Raise (exn_of_fault f)), w'. repeat split; assumption.
    + destruct (add_sale_accepted sales w line rest a Hin Hread Hfault)
        as [w' (Hrun & Hfile & Hrest & Hev & _)].
      eexists. exists w'. split; [exact Hrun |]. repeat split; assumption.
Qed.

Lemma add_sale_accepts_not_negative_witness :
  (exists w',
      add_sale (rt := Reference.runtime) [] (initial_world ["nan"] Missing)
      = (Ok [PDict [("amount", PFloat Float64.nan);
                    ("timestamp", PStr "2024-01-02T12:00:00")]], w')
      /\ data_file w' =
         Document (PList [PDict [("amount", PFloat Float64.nan);
                                 ("timestamp", PStr "2024-01-02T12:00:00")]]))
  /\ (exists w',
         add_sale (rt := Reference.runtime) []
           (initial_world ["inf"] (Unopenable IsADirectory))
         = (Raise IsADirectoryError, w')
         /\ events w' =
            [Prompted "Enter sale amount: ";
             Appended (PDict [("amount", PFloat Float64.inf);
                              ("timestamp", PStr "2024-01-02T12:00:00")])]).
Proof.
  split.
  - destruct (proj2 (@add_sale_accepts_not_negative Reference.runtime) []
                (initial_world ["nan"] Missing) "nan" [] Float64.nan)
      as (r & w' & Hrun & _ & H); try reflexivity.
    cbn in H. destruct H as (-> & Hfile & _).
    exists w'. split; [exact Hrun | exact Hfile].
  - destruct (proj2 (@add_sale_accepts_not_negative Reference.runtime) []
                (initial_world ["inf"] (Unopenable IsADirectory)) "inf" []
                Float64.inf)
      as (r & w' & Hrun & _ & H); try reflexivity.
    cbn in H. destruct H as (-> & _ & Hev).
    exists w'. split; [exact Hrun | exact Hev].
Defined.

(** * Further properties *)

(** ** Lemmas *)

Lemma emit_all_app (es1 es2 : list event) (w : world) :
  emit_all (es1 ++ es2) w = emit_all es2 (emit_all es1 w).
Proof. unfold emit_all. apply fold_left_app. Qed.

Lemma events_emit_all (es : list event) (w : world) :
  events (emit_all es w) = (events w ++ es)%list.
Proof.
  revert w. induction es as [|e es IH]; intros w; simpl.
  - rewrite app_nil_r. reflexivity.
  - rewrite IH, events_emit, <- app_assoc. reflexivity.
Qed.

Lemma emit_all_rest (es : list event) (w : world) :
  stdin (emit_all es w) = stdin w /\ clock (emit_all es w) = clock w
  /\ ticks (emit_all es w) = ticks w /\ environ (emit_all es w) = environ w
  /\ data_file (emit_all es w) = data_file w
  /\ report_files (emit_all es w) = report_files w
  /\ faults (emit_all es w) = faults w /\ writes (emit_all es w) = writes w
  /\ report_path (emit_all es w) = report_path w.
Proof.
  revert w. induction es as [|e es IH]; intros w; simpl.
  - repeat split.
  - destruct (IH (emit e w)) as (H1 & H2 & H3 & H4 & H5 & H6 & H7 & H8 & H9).
    rewrite H1, H2, H3, H4, H5, H6, H7, H8, H9. repeat split.
Qed.

Section Listing.

Context {rt : Runtime}.

Lemma validated_returns (record : pyval) :
  returns record -> parse_sale_record record = Ok (validated record).
Proof. intros [parsed H]. unfold validated. rewrite H. reflexivity. Qed.

Lemma not_returns_raises (record : pyval) :
  ~ returns record -> parse_sale_record record = Raise OverflowError.
Proof.
  intros H. destruct (parse_sale_record record) as [parsed|e] eqn:E.
  - exfalso. apply H. exists parsed. exact E.
  - apply parse_sale_record_raises in E. destruct E as [-> _]. reflexivity.
Qed.

Lemma returns_dec (record : pyval) : returns record \/ ~ returns record.
Proof.
  unfold returns. destruct (parse_sale_record record) as [parsed|e].
  - left. exists parsed. reflexivity.
  - right. intros [parsed H]. discriminate.
Qed.

Lemma not_all_return (record : pyval) (sales : list pyval) :
  returns record -> ~ Forall returns (record :: sales) -> ~ Forall returns sales.
Proof. intros Hr Hn Hall. apply Hn. constructor; assumption. Qed.

Lemma valid_pairs_cons (record : pyval) (sales : list pyval) :
  valid_pairs (record :: sales) =
  (match validated record with Some p => [p] | None => [] end
   ++ valid_pairs sales)%list.
Proof.
  unfold valid_pairs, validated. cbn [flat_map].
  destruct (parse_sale_record record) as [[p|]|e]; reflexivity.
Qed.

Lemma view_sales_loop_spec (records : list pyval) :
  forall (index displayed : Z) (w : world),
    Forall returns records ->
    view_sales_loop index records displayed w =
    (Ok (displayed + Z.of_nat (List.length (valid_pairs records))),
     emit_all (numbered_lines index (map validated records)) w).
Proof.
  induction records as [|record records IH]; intros index displayed w Hret.
  - cbn. rewrite Z.add_0_r. reflexivity.
  - inversion Hret as [|? ? Hrec Hrest]; subst.
    cbn [view_sales_loop map numbered_lines]. unfold bind at 1, lift.
    rewrite (validated_returns record Hrec), valid_pairs_cons.
    destruct (validated record) as [[sale_time amount]|].
    + unfold bind, print. rewrite (IH _ _ _ Hrest). cbn [app List.length sales_line].
      f_equal. f_equal. lia.
    + unfold bind, print. rewrite (IH _ _ _ Hrest). reflexivity.
Qed.

Lemma view_sales_loop_raises (records : list pyval) :
  forall (index displayed : Z) (w : world),
    ~ Forall returns records ->
    fst (view_sales_loop index records displayed w) = Raise OverflowError.
Proof.
  induction records as [|record records IH]; intros index displayed w Hnot.
  - exfalso. apply Hnot. constructor.
  - cbn [view_sales_loop]. unfold bind at 1, lift.
    destruct (returns_dec record) as [Hrec | Hrec].
    + rewrite (validated_returns record Hrec).
      pose proof (not_all_return _ _ Hrec Hnot) as Hrest.
      destruct (validated record) as [[sale_time amount]|];
        unfold bind, print; apply IH, Hrest.
    + rewrite (not_returns_raises record Hrec). reflexivity.
Qed.

Lemma collect_valid_raises (sales : list pyval) :
  forall acc, ~ Forall returns sales -> collect_valid sales acc = Raise OverflowError.
Proof.
  induction sales as [|record sales IH]; intros acc Hnot.
  - exfalso. apply Hnot. constructor.
  - cbn [collect_valid].
    destruct (returns_dec record) as [Hrec | Hrec].
    + rewrite (validated_returns record Hrec). cbn [rbind].
      pose proof (not_all_return _ _ Hrec Hnot) as Hrest.
      destruct (validated record); apply IH, Hrest.
    + rewrite (not_returns_raises record Hrec). reflexivity.
Qed.

Lemma daily_total_raises (today : date) (sales : list pyval) :
  forall total, ~ Forall returns sales ->
                daily_total today sales total = Raise OverflowError.
Proof.
  induction sales as [|record sales IH]; intros total Hnot.
  - exfalso. apply Hnot. constructor.
  - cbn [daily_total].
    destruct (returns_dec record) as [Hrec | Hrec].
    + rewrite (validated_returns record Hrec). cbn [rbind].
      pose proof (not_all_return _ _ Hrec Hnot) as Hrest.
      destruct (validated record) as [[sale_time amount]|]; [|apply IH, Hrest].
      destruct (date_eqb (date_of sale_time) today); apply IH, Hrest.
    + rewrite (not_returns_raises record Hrec). reflexivity.
Qed.

Lemma view_sales_run (sales : list pyval) (w : world) :
  Forall returns sales ->
  sales <> [] ->
  view_sales sales w =
  (Ok tt,
   emit_all
     ([Printed (nl ++ "=== Sales Records ===")]
      ++ numbered_lines 1 (map validated sales)
      ++ match valid_pairs sales with
         | [] => [Printed "No valid sales records to display."]
         | _ => []
         end) w).
Proof.
  intros Hret Hne. destruct sales as [|record sales]; [congruence |].
  unfold view_sales. unfold bind at 1. unfold print at 1.
  unfold bind at 1. rewrite (view_sales_loop_spec _ _ _ _ Hret).
  rewrite !emit_all_app.
  change (emit_all [Printed (nl ++ "=== Sales Records ===")] w)
    with (emit (Printed (nl ++ "=== Sales Records ===")) w).
  destruct (valid_pairs (record :: sales)) as [|p pairs].
  - reflexivity.
  - cbn [List.length]. rewrite Z.add_0_l.
    destruct (Z.of_nat (S (List.length pairs)) =? 0) eqn:E; [|reflexivity].
    apply Z.eqb_eq in E. lia.
Qed.

(** How [generate_sales_report] ends on a list on whose records the
    validator returns: well when there is nothing to report, and otherwise
    as the making of the directory and then the writing of the file end. *)
Lemma generate_sales_report_result (sales : list pyval) (w : world) :
  Forall returns sales ->
  fst (generate_sales_report sales w) =
  match valid_pairs sales with
  | [] => Ok tt
  | _ =>
      match faults w (writes w), faults w (S (writes w)) with
      | Some f, _ => Raise (exn_of_fault f)
      | None, Some f => Raise (exn_of_fault f)
      | None, None => Ok tt
      end
  end.
Proof.
  intros Hret. destruct (valid_pairs sales) as [|p pairs] eqn:E.
  - unfold generate_sales_report, bind, lift.
    rewrite (collect_valid_spec sales [] Hret), E. reflexivity.
  - assert (Hne : valid_pairs sales <> []) by (rewrite E; discriminate).
    destruct (compute_statistics_spec _ Hne) as [s [Hs _]].
    destruct (faults w (writes w)) as [f|] eqn:Hdir.
    + rewrite (generate_sales_report_mkdir_fails sales w s f Hret Hne Hs Hdir).
      reflexivity.
    + destruct (faults w (S (writes w))) as [f|] eqn:Hfile.
      * destruct (generate_sales_report_write_fails sales w s f Hret Hne Hs Hdir Hfile)
          as [w' (Hrun & _)].
        rewrite Hrun. reflexivity.
      * rewrite (generate_sales_report_saved sales w s Hret Hne Hs Hdir Hfile).
        reflexivity.
Qed.

Lemma listing_outcomes (sales : list pyval) (w : world) :
  (Forall returns sales ->
   fst (view_sales sales w) = Ok tt
   /\ fst (show_daily_total sales w) = Ok tt
   /\ fst (generate_sales_report sales w) =
      match valid_pairs sales with
      | [] => Ok tt
      | _ =>
          match faults w (writes w), faults w (S (writes w)) with
          | Some f, _ => Raise (exn_of_fault f)
          | None, Some f => Raise (exn_of_fault f)
          | None, None => Ok tt
          end
      end)
  /\ (~ Forall returns sales ->
      fst (view_sales sales w) = Raise OverflowError
      /\ show_daily_total sales w = (Raise OverflowError, snd (now w))
      /\ generate_sales_report sales w = (Raise OverflowError, w)).
Proof.
  split.
  - intros Hret. split; [|split].
    + destruct sales as [|record sales]; [reflexivity |].
      rewrite (view_sales_run _ w Hret); [reflexivity | discriminate].
    + rewrite (show_daily_total_spec sales w Hret). reflexivity.
    + exact (generate_sales_report_result sales w Hret).
  - intros Hnot. split; [|split].
    + destruct sales as [|record sales]; [exfalso; apply Hnot; constructor |].
      unfold view_sales. unfold bind at 1. unfold print at 1. unfold bind.
      pose proof (view_sales_loop_raises (record :: sales) 1 0
                    (emit (Printed (nl ++ "=== Sales Records ===")) w) Hnot) as H.
      destruct (view_sales_loop 1 (record :: sales) 0 _) as [[d|e] w'];
        cbn [fst] in *; [discriminate | injection H as ->; reflexivity].
    + unfold show_daily_total, bind, lift. cbn [now fst snd]. cbn [clock ticks].
      rewrite (daily_total_raises _ sales _ Hnot). reflexivity.
    + unfold generate_sales_report, bind, lift.
      rewrite (collect_valid_raises sales [] Hnot). reflexivity.
Qed.

Lemma returns_app (sales more : list pyval) :
  Forall returns sales -> Forall returns more -> Forall returns (sales ++ more).
Proof. intros H1 H2. apply Forall_app. split; assumption. Qed.

End Listing.

Lemma only_prints_bind {A B : Type} (m : M A) (k : A -> M B) :
  only_prints m -> (forall a, only_prints (k a)) -> only_prints (bind m k).
Proof.
  intros Hm Hk w. unfold bind. destruct (Hm w) as [texts Hw].
  destruct (m w) as [[a|e] w1]; cbn [snd] in *.
  - destruct (Hk a w1) as [texts' Hw']. exists (texts ++ texts')%list.
    rewrite Hw', Hw, map_app, emit_all_app. reflexivity.
  - exists texts. exact Hw.
Qed.

Lemma only_prints_print (text : string) : only_prints (print text).
Proof. intros w. exists [text]. reflexivity. Qed.

Lemma only_prints_ret {A : Type} (a : A) : only_prints (ret a).
Proof. intros w. exists []. reflexivity. Qed.

Lemma only_prints_lift {A : Type} (r : result A) : only_prints (lift r).
Proof. intros w. exists []. reflexivity. Qed.

Lemma preserves_bind {F A B : Type} (field : world -> F) (m : M A) (k : A -> M B) :
  preserves field m -> (forall a, preserves field (k a)) ->
  preserves field (bind m k).
Proof.
  intros Hm Hk w. unfold bind. specialize (Hm w).
  destruct (m w) as [[a|e] w1]; cbn [snd] in *.
  - rewrite Hk. exact Hm.
  - exact Hm.
Qed.

Ltac preserved :=
  repeat first
    [ apply preserves_bind; [|intros ?]
    | intros ?; reflexivity
    | let w := fresh "w" in
      intros w; unfold mkdir_reports, write_report_file;
      destruct (faults w (writes w)) as [[?|]|]; reflexivity ].

Section Quiet.

Context {rt : Runtime}.

Lemma only_prints_view_sales_loop (records : list pyval) :
  forall index displayed, only_prints (view_sales_loop index records displayed).
Proof.
  induction records as [|record records IH]; intros index displayed; simpl.
  - apply only_prints_ret.
  - apply only_prints_bind; [apply only_prints_lift |].
    intros [[sale_time amount]|];
      (apply only_prints_bind; [apply only_prints_print | intros _; apply IH]).
Qed.

Lemma only_prints_view_sales (sales : list pyval) : only_prints (view_sales sales).
Proof.
  destruct sales as [|record sales]; [apply only_prints_print |].
  unfold view_sales. apply only_prints_bind; [apply only_prints_print |]. intros _.
  apply only_prints_bind; [apply only_prints_view_sales_loop |]. intros displayed.
  destruct (displayed =? 0); [apply only_prints_print | apply only_prints_ret].
Qed.

Lemma preserves_data_file_view_sales (sales : list pyval) :
  preserves data_file (view_sales sales).
Proof.
  intros w. destruct (only_prints_view_sales sales w) as [texts H].
  rewrite H. apply emit_all_rest.
Qed.

Lemma preserves_data_file_show_daily_total (sales : list pyval) :
  preserves data_file (show_daily_total sales).
Proof. unfold show_daily_total. preserved. Qed.

Lemma preserves_data_file_generate_sales_report (sales : list pyval) :
  preserves data_file (generate_sales_report sales).
Proof.
  unfold generate_sales_report. apply preserves_bind; [intros ?; reflexivity |].
  intros [|p pairs]; preserved.
Qed.

Lemma preserves_data_file_print_menu : preserves data_file print_menu.
Proof. unfold print_menu. preserved. Qed.

Lemma preserves_data_file_input (prompt : string) : preserves data_file (input prompt).
Proof. intros w. unfold input. destruct (stdin w); reflexivity. Qed.

Lemma preserves_clock_view_sales (sales : list pyval) :
  preserves clock (view_sales sales).
Proof.
  intros w. destruct (only_prints_view_sales sales w) as [texts H].
  rewrite H. apply emit_all_rest.
Qed.

Lemma preserves_clock_show_daily_total (sales : list pyval) :
  preserves clock (show_daily_total sales).
Proof. unfold show_daily_total. preserved. Qed.

Lemma preserves_clock_generate_sales_report (sales : list pyval) :
  preserves clock (generate_sales_report sales).
Proof.
  unfold generate_sales_report. apply preserves_bind; [intros ?; reflexivity |].
  intros [|p pairs]; preserved.
Qed.

Lemma preserves_clock_print_menu : preserves clock print_menu.
Proof. unfold print_menu. preserved. Qed.

Lemma preserves_clock_input (prompt : string) : preserves clock (input prompt).
Proof. intros w. unfold input. destruct (stdin w); reflexivity. Qed.

Lemma read_amount_cases (text : string) :
  read_amount text = Raise ValueError
  \/ exists a, float_of_str text = Some a
               /\ Float64.ltb a Float64.zero = false
               /\ read_amount text = Ok a.
Proof.
  unfold read_amount, py_float, rbind.
  destruct (float_of_str text) as [a|]; [|left; reflexivity].
  destruct (Float64.ltb a Float64.zero) eqn:E; [left; reflexivity |].
  right. exists a. repeat split. exact E.
Qed.

(** The outcomes of [add_sale]: end of input; an amount refused, and
    nothing changed; an amount accepted, and then the list saved or the
    error of the disk. *)
Lemma add_sale_cases (sales : list pyval) (w : world) :
  (stdin w = [] ->
   add_sale sales w = (Raise EOFError, emit (Prompted "Enter sale amount: ") w))
  /\ (forall line rest,
         stdin w = line :: rest ->
         exists r w',
           add_sale sales w = (r, w')
           /\ stdin w' = rest
           /\ clock w' = clock w
           /\ ((r = Ok sales /\ data_file w' = data_file w)
               \/ (exists a,
                      float_of_str (strip line) = Some a
                      /\ Float64.ltb a Float64.zero = false
                      /\ let sales' :=
                           (sales ++ [new_record a (clock w (ticks w))])%list in
                         match write_fault w with
                         | None =>
                             r = Ok sales'
                             /\ data_file w' = Document (PList sales')
                         | Some f =>
                             r = Raise (exn_of_fault f)
                             /\ data_file w' =
                                match f with
                                | Refused _ => data_file w
                                | BrokenOff _ => Malformed
                                end
                         end))).
Proof.
  split.
  - intros Hin. unfold add_sale, bind, input. rewrite Hin. reflexivity.
  - intros line rest Hin.
    destruct (read_amount_cases (strip line)) as [Hbad | [a (Ha & Hnn & Hread)]].
    + rewrite (add_sale_rejected sales w line rest Hin Hbad).
      eexists. eexists. split; [reflexivity |]. world_fields.
      split; [reflexivity |]. split; [reflexivity |]. left; split; reflexivity.
    + destruct (write_fault w) as [f|] eqn:Hfault.
      * destruct (add_sale_refused sales w line rest a f Hin Hread Hfault)
          as [w' (Hrun & Hfile & Hrest & _ & Hclock & _)].
        eexists. exists w'. split; [exact Hrun |]. split; [exact Hrest |].
        split; [exact Hclock |]. right. exists a. cbv zeta. repeat split; assumption.
      * destruct (add_sale_accepted sales w line rest a Hin Hread Hfault)
          as [w' (Hrun & Hfile & Hrest & _ & Hclock & _)].
        eexists. exists w'. split; [exact Hrun |]. split; [exact Hrest |].
        split; [exact Hclock |]. right. exists a. cbv zeta. repeat split; assumption.
Qed.

Lemma bind_ok_inv {A B : Type} (m : M A) (k : A -> M B) (w w' : world) (b : B) :
  bind m k w = (Ok b, w') ->
  exists a w1, m w = (Ok a, w1) /\ k a w1 = (Ok b, w').
Proof.
  unfold bind. destruct (m w) as [[a|e] w1]; [|discriminate].
  intros H. exists a, w1. split; [reflexivity | exact H].
Qed.

Lemma bind_inv {A B : Type} (m : M A) (k : A -> M B) (w w' : world) (r : result B) :
  bind m k w = (r, w') ->
  (exists a w1, m w = (Ok a, w1) /\ k a w1 = (r, w'))
  \/ (exists e, m w = (Raise e, w') /\ r = Raise e).
Proof.
  unfold bind. destruct (m w) as [[a|e] w1].
  - intros H. left. exists a, w1. split; [reflexivity | exact H].
  - intros [= <- <-]. right. exists e. split; reflexivity.
Qed.

Lemma preserves_run {F A : Type} (field : world -> F) (m : M A) (w w' : world)
    (r : result A) :
  preserves field m -> m w = (r, w') -> field w' = field w.
Proof. intros H E. rewrite <- (H w), E. reflexivity. Qed.

(** The data file after the loop, when it held the list in memory
    before: that list followed by the sales entered since, or, after a
    write that broke off, text that is no JSON. *)
Lemma menu_turns_data_file (n : nat) :
  forall (sales : list pyval) (w w' : world) (r : result unit)
         (lines : list string),
    menu_turns n sales w = (r, w') ->
    data_file w = Document (PList sales) ->
    (forall l, In l (stdin w) -> In l lines) ->
    (exists more,
        data_file w' = Document (PList (sales ++ more))
        /\ Forall (entered lines (clock w)) more)
    \/ (data_file w' = Malformed /\ r = Raise OSError).
Proof.
  induction n as [|n IH]; intros sales w w' r lines Hrun Hfile Hlines.
  { injection Hrun as _ <-. left. exists []. rewrite app_nil_r.
    split; [exact Hfile | constructor]. }
  assert (Hstay : forall w0, data_file w0 = data_file w ->
            (exists more,
                data_file w0 = Document (PList (sales ++ more))
                /\ Forall (entered lines (clock w)) more)
            \/ (data_file w0 = Malformed /\ r = Raise OSError)).
  { intros w0 H0. left. exists []. rewrite app_nil_r.
    split; [congruence | constructor]. }
  cbn [menu_turns] in Hrun.
  apply bind_inv in Hrun. destruct Hrun as [([] & w1 & Hmenu & Hrun) | (e & Hmenu & _)];
    [|apply Hstay; exact (preserves_run _ _ _ _ _ preserves_data_file_print_menu Hmenu)].
  pose proof (preserves_run _ _ _ _ _ preserves_data_file_print_menu Hmenu) as F1.
  pose proof (preserves_run _ _ _ _ _ preserves_clock_print_menu Hmenu) as C1.
  assert (S1 : stdin w1 = stdin w).
  { rewrite <- (keeps_stdin_print_menu w), Hmenu. reflexivity. }
  apply bind_inv in Hrun. destruct Hrun as [(line & w2 & Hline & Hrun) | (e & Hline & _)];
    [|apply Hstay; rewrite <- F1;
      exact (preserves_run _ _ _ _ _ (preserves_data_file_input _) Hline)].
  pose proof (preserves_run _ _ _ _ _ (preserves_data_file_input _) Hline) as F2.
  pose proof (preserves_run _ _ _ _ _ (preserves_clock_input _) Hline) as C2.
  apply input_ok in Hline. rewrite S1 in Hline.
  assert (Hw2 : data_file w2 = Document (PList sales)) by congruence.
  assert (Cw2 : clock w2 = clock w) by congruence.
  assert (Sw2 : forall l, In l (stdin w2) -> In l lines).
  { intros l Hl. apply Hlines. rewrite Hline. right. exact Hl. }
  assert (Hkeep : forall (act : M unit),
            preserves data_file act -> preserves clock act -> keeps_stdin act ->
            bind act (fun _ => menu_turns n sales) w2 = (r, w') ->
            (exists more,
                data_file w' = Document (PList (sales ++ more))
                /\ Forall (entered lines (clock w)) more)
            \/ (data_file w' = Malformed /\ r = Raise OSError)).
  { intros act Hfile_act Hclock_act Hstdin_act H. apply bind_inv in H.
    destruct H as [([] & w3 & Hact3 & H) | (e & Hact3 & _)].
    - pose proof (preserves_run _ _ _ _ _ Hfile_act Hact3) as F3.
      pose proof (preserves_run _ _ _ _ _ Hclock_act Hact3) as C3.
      assert (S3 : stdin w3 = stdin w2).
      { rewrite <- (Hstdin_act w2), Hact3. reflexivity. }
      rewrite <- Cw2, <- C3. apply (IH _ _ _ _ _ H); [congruence |].
      rewrite S3. exact Sw2.
    - apply Hstay. rewrite (preserves_run _ _ _ _ _ Hfile_act Hact3). congruence. }
  destruct (String.eqb (strip line) "1").
  { apply bind_inv in Hrun.
    destruct (stdin w2) as [|amount_line rest] eqn:Hin.
    - rewrite (proj1 (add_sale_cases sales w2) Hin) in Hrun.
      destruct Hrun as [(s' & w3 & Hadd & _) | (e & Hadd & _)]; [discriminate |].
      injection Hadd as _ <-. apply Hstay. rewrite data_file_emit. congruence.
    - destruct (proj2 (add_sale_cases sales w2) amount_line rest Hin)
        as (r1 & w3 & Hadd & Hrest & Hclock & Hcase).
      assert (Sw3 : forall l, In l (stdin w3) -> In l lines).
      { intros l Hl. apply Sw2. right. rewrite <- Hrest. exact Hl. }
      rewrite Hadd in Hrun.
      destruct Hcase as [[-> F3] | (a & Ha & Hnn & Hcase)].
      + destruct Hrun as [(s' & w3' & [= <- <-] & Hrun) | (e & [=] & _)].
        rewrite <- Cw2, <- Hclock. apply (IH _ _ _ _ _ Hrun); [congruence | exact Sw3].
      + cbv zeta in Hcase.
        assert (Hfault : write_fault w2 = faults w2 (writes w2))
          by (unfold write_fault; rewrite Hw2; reflexivity).
        assert (Hnew : entered lines (clock w) (new_record a (clock w2 (ticks w2)))).
        { exists amount_line, a, (ticks w2). split; [apply Sw2; left; reflexivity |].
          split; [exact Ha |]. split; [exact Hnn |]. rewrite Cw2. reflexivity. }
        destruct (write_fault w2) as [f|].
        * destruct Hcase as [-> F3].
          destruct Hrun as [(s' & w3' & [=] & _) | (e & [= <- <-] & ->)].
          destruct f as [e'|].
          -- apply Hstay. congruence.
          -- right. split; [exact F3 | reflexivity].
        * destruct Hcase as [-> F3].
          destruct Hrun as [(s' & w3' & [= <- <-] & Hrun) | (e & [=] & _)].
          destruct (IH _ _ _ _ lines Hrun F3 Sw3) as [(more & Hmore & Hall) | Hbroken].
          -- left. exists (new_record a (clock w2 (ticks w2)) :: more).
             split; [rewrite Hmore, <- app_assoc; reflexivity |].
             constructor; [exact Hnew |]. rewrite <- Cw2, <- Hclock. exact Hall.
          -- right. exact Hbroken. }
  destruct (String.eqb (strip line) "2");
    [apply (Hkeep _ (preserves_data_file_view_sales sales)
              (preserves_clock_view_sales sales) (keeps_stdin_view_sales sales) Hrun) |].
  destruct (String.eqb (strip line) "3");
    [apply (Hkeep _ (preserves_data_file_show_daily_total sales)
              (preserves_clock_show_daily_total sales)
              (keeps_stdin_show_daily_total sales) Hrun) |].
  destruct (String.eqb (strip line) "4");
    [apply (Hkeep _ (preserves_data_file_generate_sales_report sales)
              (preserves_clock_generate_sales_report sales)
              (keeps_stdin_generate_sales_report sales) Hrun) |].
  destruct (String.eqb (strip line) "5").
  - apply Hstay. unfold print in Hrun. injection Hrun as _ <-.
    rewrite data_file_emit. congruence.
  - refine (Hkeep _ _ _ _ Hrun); intros ?; reflexivity.
Qed.

Lemma menu_loop_data_file (w w' : world) (r : result unit) (stored : list pyval) :
  data_file w = Document (PList stored) ->
  menu_loop w = (r, w') ->
  (exists more,
      data_file w' = Document (PList (stored ++ more))
      /\ Forall (entered (stdin w) (clock w)) more)
  \/ (data_file w' = Malformed /\ r = Raise OSError).
Proof.
  intros Hfile. unfold menu_loop, bind.
  rewrite (load_sales_data_list w stored Hfile). intros Hrun.
  exact (menu_turns_data_file _ _ _ _ _ _ Hrun Hfile (fun l H => H)).
Qed.

(** The loop returns only through the choice 5. *)
Lemma menu_turns_exit (n : nat) :
  forall (sales : list pyval) (w w' : world),
    menu_turns n sales w = (Ok tt, w') ->
    (exists line, In line (stdin w) /\ strip line = "5")
    /\ exists before,
         events w' =
         (before ++ [Printed "Exiting Sales Management System. Goodbye!"])%list.
Proof.
  induction n as [|n IH]; intros sales w w' Hrun; [discriminate |].
  cbn [menu_turns] in Hrun.
  apply bind_ok_inv in Hrun. destruct Hrun as ([] & w1 & Hmenu & Hrun).
  assert (Hw1 : stdin w1 = stdin w).
  { rewrite <- (keeps_stdin_print_menu w), Hmenu. reflexivity. }
  apply bind_ok_inv in Hrun. destruct Hrun as (line & w2 & Hline & Hrun).
  apply input_ok in Hline. rewrite Hw1 in Hline.
  assert (Hkeep : forall (act : M unit), keeps_stdin act ->
            bind act (fun _ => menu_turns n sales) w2 = (Ok tt, w') ->
            (exists l, In l (stdin w) /\ strip l = "5")
            /\ exists before,
                 events w' =
                 (before ++ [Printed "Exiting Sales Management System. Goodbye!"])%list).
  { intros act Hact H. apply bind_ok_inv in H. destruct H as ([] & w3 & Hact3 & H).
    destruct (IH _ _ _ H) as [[l [Hl Hs]] Hev]. split; [|exact Hev].
    exists l. split; [|exact Hs].
    rewrite Hline. right. rewrite <- (Hact w2), Hact3. exact Hl. }
  destruct (String.eqb (strip line) "1").
  { apply bind_ok_inv in Hrun. destruct Hrun as (sales' & w3 & Hadd & Hrun).
    destruct (IH _ _ _ Hrun) as [[l [Hl Hs]] Hev]. split; [|exact Hev].
    exists l. split; [|exact Hs]. rewrite Hline. right.
    destruct (stdin w2) as [|amount_line rest] eqn:Hin.
    - rewrite (proj1 (add_sale_cases sales w2) Hin) in Hadd. discriminate.
    - destruct (proj2 (add_sale_cases sales w2) amount_line rest Hin)
        as (r1 & w3' & Hrun' & Hrest & _).
      rewrite Hrun' in Hadd. injection Hadd as _ <-.
      right. rewrite <- Hrest. exact Hl. }
  destruct (String.eqb (strip line) "2");
    [apply (Hkeep _ (keeps_stdin_view_sales sales) Hrun) |].
  destruct (String.eqb (strip line) "3");
    [apply (Hkeep _ (keeps_stdin_show_daily_total sales) Hrun) |].
  destruct (String.eqb (strip line) "4");
    [apply (Hkeep _ (keeps_stdin_generate_sales_report sales) Hrun) |].
  destruct (String.eqb (strip line) "5") eqn:E5.
  - apply String.eqb_eq in E5. split.
    + exists line. split; [rewrite Hline; left; reflexivity | exact E5].
    + unfold print in Hrun. injection Hrun as <-. exists (events w2).
      apply events_emit.
  - apply (Hkeep _ (keeps_stdin_print _) Hrun).
Qed.

Lemma menu_loop_exit_run (w w' : world) :
  menu_loop w = (Ok tt, w') ->
  (exists line, In line (stdin w) /\ strip line = "5")
  /\ exists before,
       events w' =
       (before ++ [Printed "Exiting Sales Management System. Goodbye!"])%list.
Proof.
  unfold menu_loop. intros H. apply bind_ok_inv in H.
  destruct H as (sales & w1 & Hload & H).
  assert (w1 = w).
  { unfold load_sales_data in Hload.
    destruct (negb (file_exists (data_file w))); [congruence |].
    injection Hload as _ <-. reflexivity. }
  subst w1. exact (menu_turns_exit _ _ _ _ H).
Qed.
End Quiet.

Lemma login_attempt_succeeds (admin line : string) (rest : list string)
    (attempt : nat) (later : list nat) (w : world) :
  stdin w = line :: rest ->
  strip line = admin ->
  login_attempts admin (attempt :: later) w =
  (Ok true,
   emit (Printed ("Login successful." ++ nl))
     (after_input "Enter admin password: " rest w)).
Proof.
  intros Hin Heq. cbn [login_attempts]. unfold bind at 1. unfold input. rewrite Hin.
  rewrite Heq, String.eqb_refl. reflexivity.
Qed.

Lemma login_attempt_eof (admin : string) (attempt : nat) (later : list nat)
    (w : world) :
  stdin w = [] ->
  login_attempts admin (attempt :: later) w =
  (Raise EOFError, emit (Prompted "Enter admin password: ") w).
Proof.
  intros Hin. cbn [login_attempts]. unfold bind at 1. unfold input. rewrite Hin.
  reflexivity.
Qed.

Ltac fail_once H :=
  erewrite login_attempt_fails; [| world_fields; reflexivity | exact H];
  cbv zeta; cbn [Nat.sub Nat.ltb Nat.leb MAX_LOGIN_ATTEMPTS].

Ltac start_login w :=
  unfold authenticate, get_admin_password; unfold bind at 1 2;
  unfold print at 1; unfold getenv at 1; cbn [environ emit];
  fold (admin_password_of w); cbn [seq MAX_LOGIN_ATTEMPTS].

(** ** The validator *)

(** X1. The validator returns the pair [(t, a)] exactly when the record has
    both fields, [float] turns the amount into [a] and the text of the
    timestamp, as [str] gives it, parses to [t]. *)
Theorem validator_accepts_iff {rt : Runtime} (record : pyval) (t : datetime)
    (a : float) :
  parse_sale_record record = Ok (Some (t, a)) <->
  exists ts am,
    getitem record "timestamp" = Ok ts
    /\ getitem record "amount" = Ok am
    /\ py_float am = Ok a
    /\ fromisoformat (py_str ts) = Some t.
Proof.
  split.
  - apply parse_sale_record_valid_inv.
  - intros (ts & am & Hts & Ham & Ha & Ht).
    exact (parse_sale_record_valid record ts am t a Hts Ham Ha Ht).
Qed.

(** X2. The validator returns [None] exactly when the timestamp field is
    missing, or the amount field is missing, or [float] refuses the amount
    with a [TypeError] or a [ValueError], or the timestamp does not parse
    while the amount is not an integer out of range. *)
Theorem validator_rejects_iff {rt : Runtime} (record : pyval) :
  parse_sale_record record = Ok None <->
  field_missing record "timestamp"
  \/ field_missing record "amount"
  \/ amount_not_a_number record
  \/ (timestamp_unparseable record /\ ~ amount_out_of_range record).
Proof. exact (parse_sale_record_rejects record). Qed.

(** X3. The validator raises exactly when the record has a timestamp field
    and an integer amount too large for a float, and the exception is then
    [OverflowError]: no other exception leaves it. *)
Theorem validator_raises_iff {rt : Runtime} (record : pyval) (e : exn) :
  parse_sale_record record = Raise e <->
  e = OverflowError
  /\ ~ field_missing record "timestamp"
  /\ amount_out_of_range record.
Proof. exact (parse_sale_record_raises record e). Qed.

(** ** The daily total and the listings *)

(** X4. When the validator returns on every record, [show_daily_total]
    reads the clock once and prints the sum, added in order from 0.0, of the
    amounts of the valid records whose date is today's, whatever the other
    records are; with no such record it prints 0.00. *)
Theorem daily_total_is_the_sum_of_the_day {rt : Runtime} (sales : list pyval)
    (w : world) :
  Forall returns sales ->
  let today := date_of (clock w (ticks w)) in
  let matching := filter (on_date today) (valid_pairs sales) in
  show_daily_total sales w =
  (Ok tt,
   emit (Printed ("Today's total sales: " ++ format_2f (py_sum (map snd matching))))
     (snd (now w)))
  /\ (matching = [] ->
      show_daily_total sales w =
      (Ok tt, emit (Printed "Today's total sales: 0.00") (snd (now w)))).
Proof.
  intros Hret. cbv zeta. split.
  - apply (show_daily_total_spec sales w Hret).
  - apply (show_daily_total_zero sales w Hret).
Qed.

Lemma daily_total_is_the_sum_of_the_day_witness :
  show_daily_total (rt := Reference.runtime) example_sales
    (initial_world [] Missing)
  = (Ok tt,
     emit (Printed "Today's total sales: 3.00")
       (snd (now (initial_world [] Missing)))).
Proof.
  refine (eq_trans
            (proj1 (@daily_total_is_the_sum_of_the_day Reference.runtime
                      example_sales (initial_world [] Missing) _)) _).
  - repeat constructor; eexists; vm_compute; reflexivity.
  - vm_compute. reflexivity.
Defined.

(** X5. When the validator returns on every record and no record is valid,
    [generate_sales_report] prints that no report was generated and does
    nothing else: no clock reading, no directory, no file. *)
Theorem report_without_valid_records {rt : Runtime} (sales : list pyval)
    (w : world) :
  Forall returns sales ->
  valid_pairs sales = [] ->
  generate_sales_report sales w = (Ok tt, emit (Printed NO_DATA) w).
Proof.
  intros Hret Hnone. unfold generate_sales_report, bind, lift.
  rewrite (collect_valid_spec sales [] Hret), Hnone. reflexivity.
Qed.

Lemma report_without_valid_records_witness :
  generate_sales_report (rt := Reference.runtime)
    [PNone; PInt 3; sale "yesterday" (Float64.of_Z 5)]
    (initial_world [] Missing)
  = (Ok tt, emit (Printed NO_DATA) (initial_world [] Missing)).
Proof.
  apply (@report_without_valid_records Reference.runtime).
  - repeat constructor; eexists; vm_compute; reflexivity.
  - vm_compute. reflexivity.
Defined.

(** X6. [view_sales] and [show_daily_total] succeed when the validator
    returns on every record, and so does [generate_sales_report] unless
    there is a report to save and the disk refuses the directory or the
    file: it then ends with the error of the disk. When the validator
    raises on some record, all three end with [OverflowError], the report
    before anything is printed or written and the daily total after the
    clock reading alone. *)
Theorem listing_fails_only_on_overflow {rt : Runtime} (sales : list pyval)
    (w : world) :
  (Forall returns sales ->
   fst (view_sales sales w) = Ok tt
   /\ fst (show_daily_total sales w) = Ok tt
   /\ fst (generate_sales_report sales w) =
      match valid_pairs sales with
      | [] => Ok tt
      | _ =>
          match faults w (writes w), faults w (S (writes w)) with
          | Some f, _ => Raise (exn_of_fault f)
          | None, Some f => Raise (exn_of_fault f)
          | None, None => Ok tt
          end
      end)
  /\ (~ Forall returns sales ->
      fst (view_sales sales w) = Raise OverflowError
      /\ show_daily_total sales w = (Raise OverflowError, snd (now w))
      /\ generate_sales_report sales w = (Raise OverflowError, w)).
Proof. exact (listing_outcomes sales w). Qed.

Lemma listing_fails_only_on_overflow_witness :
  fst (view_sales (rt := Reference.runtime)
         (example_sales ++ [oversized_record]) (initial_world [] Missing))
  = Raise OverflowError
  /\ fst (generate_sales_report (rt := Reference.runtime) example_sales
            (initial_world [] Missing)) = Ok tt
  /\ fst (generate_sales_report (rt := Reference.runtime) example_sales
            (with_faults (fun _ => Some (Refused AlreadyExists))
               (initial_world [] Missing))) = Raise FileExistsError.
Proof.
  split; [|split].
  - apply (proj2 (@listing_fails_only_on_overflow Reference.runtime
                    (example_sales ++ [oversized_record])
                    (initial_world [] Missing))).
    intros H. apply Forall_app, proj2, Forall_inv in H.
    destruct H as [parsed H]. vm_compute in H. discriminate.
  - refine (eq_trans
              (proj2 (proj2 (proj1 (@listing_fails_only_on_overflow Reference.runtime
                                      example_sales (initial_world [] Missing)) _))) _).
    + repeat constructor; eexists; vm_compute; reflexivity.
    + vm_compute. reflexivity.
  - refine (eq_trans
              (proj2 (proj2 (proj1 (@listing_fails_only_on_overflow Reference.runtime
                                      example_sales
                                      (with_faults (fun _ => Some (Refused AlreadyExists))
                                         (initial_world [] Missing))) _))) _).
    + repeat constructor; eexists; vm_compute; reflexivity.
    + vm_compute. reflexivity.
Defined.

(** X7. On a list that is not empty and on whose records the validator
    returns, [view_sales] prints the heading, then one line per record, in
    the order of the list and numbered from 1, the rejected records
    included as skipped, and at the end the notice that nothing could be
    displayed exactly when no record is valid. The line of a valid record
    gives the amount on two decimals and the time as [strftime] writes it,
    the year as the runtime writes years. *)
Theorem view_sales_lines {rt : Runtime} (sales : list pyval) (w : world) :
  Forall returns sales ->
  sales <> [] ->
  view_sales sales w =
  (Ok tt,
   emit_all
     ([Printed (nl ++ "=== Sales Records ===")]
      ++ numbered_lines 1 (map validated sales)
      ++ match valid_pairs sales with
         | [] => [Printed "No valid sales records to display."]
         | _ => []
         end) w).
Proof. exact (view_sales_run sales w). Qed.

Lemma view_sales_lines_witness :
  view_sales (rt := Reference.runtime)
    [sale "2024-01-01T09:00:00" (Float64.of_Z 10); PNone;
     sale "0999-05-05T01:02:03" (Float64.of_Z 3)]
    (initial_world [] Missing)
  = (Ok tt,
     emit_all
       [Printed (nl ++ "=== Sales Records ===");
        Printed "1. Amount: 10.00 | Time: 2024-01-01 09:00:00";
        Printed "2. Invalid record skipped";
        Printed "3. Amount: 3.00 | Time: 999-05-05 01:02:03"]
       (initial_world [] Missing)).
Proof.
  refine (eq_trans
            (@view_sales_lines Reference.runtime
               [sale "2024-01-01T09:00:00" (Float64.of_Z 10); PNone;
                sale "0999-05-05T01:02:03" (Float64.of_Z 3)]
               (initial_world [] Missing) _ _) _).
  - repeat constructor; eexists; vm_compute; reflexivity.
  - discriminate.
  - vm_compute. reflexivity.
Defined.

(** X8. Whatever the records, and also when it ends with an error,
    [view_sales] does nothing but print: the world it leaves is the one it
    found with printed lines added. It reads no input and no clock and
    touches no file. *)
Theorem view_sales_only_prints {rt : Runtime} (sales : list pyval) :
  only_prints (view_sales sales).
Proof. exact (only_prints_view_sales sales). Qed.

(** X9. A new sale and the daily total: when the daily total of a list is
    [total], the daily total of the list with the record [add_sale] makes
    of an amount [a] is [total + a] when the stored time reads back as
    today's date, and [total] otherwise. *)
Theorem new_sale_raises_daily_total {rt : Runtime} (sales : list pyval) (today : date)
    (total a : float) (t t' : datetime) :
  daily_total today sales Float64.zero = Ok total ->
  fromisoformat (isoformat_seconds t) = Some t' ->
  daily_total today (sales ++ [new_record a t]) Float64.zero =
  Ok (if date_eqb (date_of t') today then Float64.add total a else total).
Proof.
  intros Htotal Ht.
  assert (Hnew : parse_sale_record (new_record a t) = Ok (Some (t', a)))
    by (apply new_record_validates, Ht).
  assert (Hloop : forall records acc r,
            daily_total today records acc = Ok r ->
            daily_total today (records ++ [new_record a t]) acc =
            Ok (if date_eqb (date_of t') today then Float64.add r a else r)).
  { induction records as [|record records IH]; intros acc r Hr.
    - cbn in Hr. injection Hr as <-. cbn [app daily_total]. rewrite Hnew.
      cbn [rbind]. destruct (date_eqb (date_of t') today); reflexivity.
    - cbn [app daily_total] in *.
      destruct (parse_sale_record record) as [[[sale_time amount]|]|e];
        cbn [rbind] in *; [| apply IH, Hr | discriminate].
      destruct (date_eqb (date_of sale_time) today); apply IH, Hr. }
  apply Hloop, Htotal.
Qed.

Lemma new_sale_raises_daily_total_witness :
  daily_total (rt := Reference.runtime) (mkdate 2024 1 2)
    (example_sales
     ++ [new_record Float64.one (mkdatetime 2024 1 2 12 0 0 0 None)])
    Float64.zero
  = Ok (if date_eqb (date_of (mkdatetime 2024 1 2 12 0 0 0 None))
             (mkdate 2024 1 2)
        then Float64.add (Float64.of_Z 3) Float64.one
        else Float64.of_Z 3).
Proof.
  apply (@new_sale_raises_daily_total Reference.runtime); vm_compute; reflexivity.
Defined.

(** X10. The daily total and the report agree: when the dates are
    calendar dates, the figure the report gives for a day is the daily
    total [show_daily_total] computes for that date. *)
Theorem daily_total_agrees_with_report {rt : Runtime} (sales : list pyval) (s : statistics)
    (t : datetime) (v : float) :
  Forall returns sales ->
  compute_statistics (valid_pairs sales) = Ok s ->
  Reference.valid_date (year t) (month t) (day t) = true ->
  Forall (fun p => Reference.valid_date (year (fst p)) (month (fst p))
                     (day (fst p)) = true) (valid_pairs sales) ->
  In (strftime_date t, v) (daily_totals s) ->
  daily_total (date_of t) sales Float64.zero = Ok v.
Proof.
  intros Hret Hs Ht Hdates Hin.
  rewrite (daily_total_spec _ sales Float64.zero Hret).
  assert (Hne : valid_pairs sales <> []).
  { intros E. rewrite E in Hs. discriminate. }
  destruct (compute_statistics_spec _ Hne) as [s' [Hs' [Hfig _]]].
  rewrite Hs in Hs'. injection Hs' as <-.
  destruct Hfig as (_ & _ & _ & _ & _ & _ & Hday).
  rewrite (Hday _ _ Hin). unfold py_sum. f_equal. f_equal. f_equal.
  apply filter_ext_in. intros p Hp.
  rewrite Forall_forall in Hdates. specialize (Hdates p Hp).
  unfold on_date, on_day.
  destruct (date_eqb (date_of (fst p)) (date_of t)) eqn:E.
  - symmetry. apply String.eqb_eq.
    unfold date_eqb in E. apply andb_prop in E. destruct E as [E E3].
    apply andb_prop in E. destruct E as [E1 E2].
    apply Z.eqb_eq in E1, E2, E3. cbn in E1, E2, E3.
    unfold strftime_date. rewrite E1, E2, E3. reflexivity.
  - symmetry.
    destruct (String.eqb (strftime_date (fst p)) (strftime_date t)) eqn:E'; [|reflexivity].
    apply String.eqb_eq in E'.
    apply (strftime_date_inj _ _ Hdates Ht) in E'.
    rewrite E' in E. unfold date_eqb in E. rewrite !Z.eqb_refl in E. discriminate.
Qed.

Lemma daily_total_agrees_with_report_witness :
  daily_total (rt := Reference.runtime)
    (date_of (mkdatetime 2024 1 1 8 0 0 0 None)) example_sales Float64.zero
  = Ok (Float64.of_Z 15).
Proof.
  apply (@daily_total_agrees_with_report Reference.runtime example_sales
           example_statistics (mkdatetime 2024 1 1 8 0 0 0 None)).
  - repeat constructor; eexists; vm_compute; reflexivity.
  - vm_compute. reflexivity.
  - reflexivity.
  - vm_compute. repeat constructor.
  - left. reflexivity.
Defined.

(** X11. Two calendar dates have the same day key in the report exactly
    when they are the same date, whether the runtime pads the year or not:
    grouping by the text groups by the date. *)
Theorem day_key_is_the_date {rt : Runtime} (t1 t2 : datetime) :
  Reference.valid_date (year t1) (month t1) (day t1) = true ->
  Reference.valid_date (year t2) (month t2) (day t2) = true ->
  (strftime_date t1 = strftime_date t2 <-> date_of t1 = date_of t2).
Proof.
  intros H1 H2. split.
  - apply strftime_date_inj; assumption.
  - unfold date_of, strftime_date. intros [= -> -> ->]. reflexivity.
Qed.

Lemma day_key_is_the_date_witness :
  strftime_date (rt := Reference.runtime) (mkdatetime 999 2 28 10 0 0 0 None)
  = strftime_date (rt := Reference.runtime) (mkdatetime 999 2 28 23 59 59 0 None)
  <-> date_of (mkdatetime 999 2 28 10 0 0 0 None)
      = date_of (mkdatetime 999 2 28 23 59 59 0 None).
Proof. apply (@day_key_is_the_date Reference.runtime); reflexivity. Defined.

(** ** Loading and entering *)


(** X13. [add_sale] at the end of input raises [EOFError] after its prompt,
    with nothing saved. On a typed line it reads that line and no more,
    and either returns the list unchanged, the data file unchanged; or has
    an amount that [float] read from the line and that is not below zero,
    and then, when the write succeeds, returns the list with one record of
    that amount and of the clock's time appended, which the data file then
    holds; and when the disk refuses the write, ends with that error, the
    data file as it was or, after a write that broke off, no JSON any
    more. *)
Theorem add_sale_outcomes {rt : Runtime} (sales : list pyval) (w : world) :
  (stdin w = [] ->
   add_sale sales w = (Raise EOFError, emit (Prompted "Enter sale amount: ") w))
  /\ (forall line rest,
         stdin w = line :: rest ->
         exists r w',
           add_sale sales w = (r, w')
           /\ stdin w' = rest
           /\ clock w' = clock w
           /\ ((r = Ok sales /\ data_file w' = data_file w)
               \/ (exists a,
                      float_of_str (strip line) = Some a
                      /\ Float64.ltb a Float64.zero = false
                      /\ let sales' :=
                           (sales ++ [new_record a (clock w (ticks w))])%list in
                         match write_fault w with
                         | None =>
                             r = Ok sales'
                             /\ data_file w' = Document (PList sales')
                         | Some f =>
                             r = Raise (exn_of_fault f)
                             /\ data_file w' =
                                match f with
                                | Refused _ => data_file w
                                | BrokenOff _ => Malformed
                                end
                         end))).
Proof. exact (add_sale_cases sales w). Qed.

Lemma add_sale_outcomes_witness :
  add_sale (rt := Reference.runtime) example_sales (initial_world [] Missing)
  = (Raise EOFError,
     emit (Prompted "Enter sale amount: ") (initial_world [] Missing)).
Proof.
  apply (proj1 (@add_sale_outcomes Reference.runtime example_sales
                  (initial_world [] Missing))).
  reflexivity.
Defined.

(** ** The login *)

(** X14. When the first line that, stripped, is the password comes after
    fewer than three lines that are not, [authenticate] returns [True]: it
    has read the lines up to that one and no more, shown a warning with the
    attempts left for each failure, and touched no file. *)
Theorem login_succeeds_within_three (w : world) (failed : list string)
    (good : string) (rest : list string) :
  stdin w = (failed ++ good :: rest)%list ->
  (List.length failed < MAX_LOGIN_ATTEMPTS)%nat ->
  Forall (fun line => strip line <> admin_password_of w) failed ->
  strip good = admin_password_of w ->
  exists w',
    authenticate w = (Ok true, w')
    /\ stdin w' = rest
    /\ data_file w' = data_file w
    /\ events w' =
       (events w ++ [Printed (nl ++ "=== Sales Management Login ===")]
        ++ failed_attempts (List.length failed)
        ++ [Prompted "Enter admin password: ";
            Printed ("Login successful." ++ nl)])%list.
Proof.
  intros Hin Hlen Hfail Hgood.
  destruct failed as [|f1 [|f2 [|f3 more]]]; cbn [List.length] in Hlen;
    [| | |unfold MAX_LOGIN_ATTEMPTS in Hlen; lia]; cbn [app] in Hin.
  - start_login w.
    erewrite login_attempt_succeeds; [| cbn [stdin]; exact Hin | exact Hgood].
    eexists. split; [reflexivity |]. world_fields. repeat split.
  - inversion Hfail as [|? ? H1 _]; subst.
    start_login w.
    erewrite login_attempt_fails; [| cbn [stdin]; exact Hin | exact H1].
    cbv zeta. cbn [Nat.sub Nat.ltb Nat.leb MAX_LOGIN_ATTEMPTS].
    erewrite login_attempt_succeeds; [| world_fields; reflexivity | exact Hgood].
    eexists. split; [reflexivity |]. world_fields. repeat split.
  - inversion Hfail as [|? ? H1 Hfail']; subst.
    inversion Hfail' as [|? ? H2 _]; subst.
    start_login w.
    erewrite login_attempt_fails; [| cbn [stdin]; exact Hin | exact H1].
    cbv zeta. cbn [Nat.sub Nat.ltb Nat.leb MAX_LOGIN_ATTEMPTS].
    fail_once H2.
    erewrite login_attempt_succeeds; [| world_fields; reflexivity | exact Hgood].
    eexists. split; [reflexivity |]. world_fields. repeat split.
Qed.

Lemma login_succeeds_within_three_witness :
  exists w',
    authenticate (initial_world ["guess"; " admin123 "; "5"] Missing)
    = (Ok true, w')
    /\ stdin w' = ["5"]
    /\ data_file w' = data_file (initial_world ["guess"; " admin123 "; "5"] Missing)
    /\ events w' =
       (events (initial_world ["guess"; " admin123 "; "5"] Missing)
        ++ [Printed (nl ++ "=== Sales Management Login ===")]
        ++ failed_attempts (List.length ["guess"])
        ++ [Prompted "Enter admin password: ";
            Printed ("Login successful." ++ nl)])%list.
Proof.
  apply (login_succeeds_within_three
           (initial_world ["guess"; " admin123 "; "5"] Missing)
           ["guess"] " admin123 " ["5"]).
  - reflexivity.
  - unfold MAX_LOGIN_ATTEMPTS. cbn. lia.
  - repeat constructor. discriminate.
  - reflexivity.
Defined.

(** X15. When the input ends after fewer than three lines, none of them
    the password, [authenticate] raises [EOFError] at the next prompt: it
    returns neither [True] nor [False], the denial is not printed, and
    [main] ends with the same error. *)
Theorem login_at_end_of_input {rt : Runtime} (w : world) :
  (List.length (stdin w) < MAX_LOGIN_ATTEMPTS)%nat ->
  Forall (fun line => strip line <> admin_password_of w) (stdin w) ->
  exists w',
    authenticate w = (Raise EOFError, w')
    /\ main w = (Raise EOFError, w')
    /\ data_file w' = data_file w
    /\ events w' =
       (events w ++ [Printed (nl ++ "=== Sales Management Login ===")]
        ++ failed_attempts (List.length (stdin w))
        ++ [Prompted "Enter admin password: "])%list.
Proof.
  intros Hlen Hfail.
  assert (Hauth : exists w',
    authenticate w = (Raise EOFError, w')
    /\ data_file w' = data_file w
    /\ events w' =
       (events w ++ [Printed (nl ++ "=== Sales Management Login ===")]
        ++ failed_attempts (List.length (stdin w))
        ++ [Prompted "Enter admin password: "])%list).
  { destruct (stdin w) as [|f1 [|f2 [|f3 more]]] eqn:Hin; cbn [List.length] in Hlen;
      [| | |unfold MAX_LOGIN_ATTEMPTS in Hlen; lia].
    - start_login w.
      erewrite login_attempt_eof; [| cbn [stdin]; exact Hin].
      eexists. split; [reflexivity |]. world_fields. repeat split.
    - inversion Hfail as [|? ? H1 _]; subst.
      start_login w.
      erewrite login_attempt_fails; [| cbn [stdin]; exact Hin | exact H1].
      cbv zeta. cbn [Nat.sub Nat.ltb Nat.leb MAX_LOGIN_ATTEMPTS].
      erewrite login_attempt_eof; [| world_fields; reflexivity].
      eexists. split; [reflexivity |]. world_fields. repeat split.
    - inversion Hfail as [|? ? H1 Hfail']; subst.
      inversion Hfail' as [|? ? H2 _]; subst.
      start_login w.
      erewrite login_attempt_fails; [| cbn [stdin]; exact Hin | exact H1].
      cbv zeta. cbn [Nat.sub Nat.ltb Nat.leb MAX_LOGIN_ATTEMPTS].
      fail_once H2.
      erewrite login_attempt_eof; [| world_fields; reflexivity].
      eexists. split; [reflexivity |]. world_fields. repeat split. }
  destruct Hauth as [w' [Hauth Hrest]].
  exists w'. split; [exact Hauth |]. split; [|exact Hrest].
  unfold main, bind. rewrite Hauth. reflexivity.
Qed.

Lemma login_at_end_of_input_witness :
  exists w',
    authenticate (initial_world ["guess"; "again"] Missing) = (Raise EOFError, w')
    /\ main (rt := Reference.runtime) (initial_world ["guess"; "again"] Missing)
       = (Raise EOFError, w')
    /\ data_file w' = data_file (initial_world ["guess"; "again"] Missing)
    /\ events w' =
       (events (initial_world ["guess"; "again"] Missing)
        ++ [Printed (nl ++ "=== Sales Management Login ===")]
        ++ failed_attempts
             (List.length (stdin (initial_world ["guess"; "again"] Missing)))
        ++ [Prompted "Enter admin password: "])%list.
Proof.
  apply (@login_at_end_of_input Reference.runtime
           (initial_world ["guess"; "again"] Missing)).
  - unfold MAX_LOGIN_ATTEMPTS. cbn. lia.
  - repeat constructor; discriminate.
Defined.

(** ** The menu *)

(** X16. After a data file that reads as no list (missing, not to be
    opened, not JSON, or JSON that is no list) the menu starts from the
    empty list. When the path of the file can be opened, the menu then
    runs as it does after a file holding the empty list, on the same disk:
    the same result, and the same lines read, clock readings, reports and
    events. *)
Theorem unreadable_file_runs_as_empty {rt : Runtime} (w : world) :
  reads_as_empty (data_file w) ->
  menu_loop w = menu_turns (S (List.length (stdin w))) [] w
  /\ (blocked (data_file w) = None ->
      let w0 := with_data_file (Document (PList [])) w in
      fst (menu_loop w) = fst (menu_loop w0)
      /\ same_session (snd (menu_loop w)) (snd (menu_loop w0))).
Proof.
  intros Hfile. split.
  - exact (menu_loop_starts_empty w Hfile).
  - exact (menu_loop_as_on_empty_dataset w Hfile).
Qed.

Lemma unreadable_file_runs_as_empty_witness :
  fst (menu_loop (rt := Reference.runtime)
         (initial_world ["1"; "2.50"; "5"] Malformed))
  = fst (menu_loop (rt := Reference.runtime)
           (with_data_file (Document (PList []))
              (initial_world ["1"; "2.50"; "5"] Malformed)))
  /\ same_session
       (snd (menu_loop (rt := Reference.runtime)
               (initial_world ["1"; "2.50"; "5"] Malformed)))
       (snd (menu_loop (rt := Reference.runtime)
               (with_data_file (Document (PList []))
                  (initial_world ["1"; "2.50"; "5"] Malformed)))).
Proof.
  apply (proj2 (@unreadable_file_runs_as_empty Reference.runtime
                  (initial_world ["1"; "2.50"; "5"] Malformed) I)).
  reflexivity.
Defined.

(** X17. The menu returns only through its exit: when [menu_loop] returns
    normally, one of the lines typed is, stripped, the choice 5, and the
    last thing printed is the goodbye. In every other run it ends with an
    exception. *)
Theorem menu_returns_only_on_exit {rt : Runtime} (w w' : world) :
  menu_loop w = (Ok tt, w') ->
  (exists line, In line (stdin w) /\ strip line = "5")
  /\ exists before,
       events w' =
       (before ++ [Printed "Exiting Sales Management System. Goodbye!"])%list.
Proof. exact (menu_loop_exit_run w w'). Qed.

Lemma menu_returns_only_on_exit_witness :
  (exists line,
      In line (stdin (initial_world ["9"; " 5 "] Missing)) /\ strip line = "5")
  /\ exists before,
       events (snd (menu_loop (rt := Reference.runtime)
                      (initial_world ["9"; " 5 "] Missing))) =
       (before ++ [Printed "Exiting Sales Management System. Goodbye!"])%list.
Proof.
  apply (@menu_returns_only_on_exit Reference.runtime
           (initial_world ["9"; " 5 "] Missing)).
  vm_compute. reflexivity.
Defined.

(** X18. The menu removes or changes no stored record, unless a write
    breaks off: when the data file holds a list at the start, it holds at
    the end, however the menu ends, that list followed by sales entered in
    the session, each with an amount that [float] read from a line typed
    and that is not below zero, and with the text of a reading of the
    clock; or else a write to the data file broke off, which ended the
    menu with [OSError] and left text that is no JSON. *)
Theorem menu_loop_only_appends {rt : Runtime} (w w' : world) (r : result unit)
    (stored : list pyval) :
  data_file w = Document (PList stored) ->
  menu_loop w = (r, w') ->
  (exists more,
      data_file w' = Document (PList (stored ++ more))
      /\ Forall (entered (stdin w) (clock w)) more)
  \/ (data_file w' = Malformed /\ r = Raise OSError).
Proof. exact (menu_loop_data_file w w' r stored). Qed.

Lemma menu_loop_only_appends_witness :
  (exists more,
      data_file
        (snd (menu_loop (rt := Reference.runtime)
                (initial_world ["1"; "2.50"; "4"]
                   (Document (PList example_sales)))))
      = Document (PList (example_sales ++ more))
      /\ Forall (entered (rt := Reference.runtime) ["1"; "2.50"; "4"]
                   (clock (initial_world ["1"; "2.50"; "4"]
                             (Document (PList example_sales))))) more)
  \/ (data_file
        (snd (menu_loop (rt := Reference.runtime)
                (initial_world ["1"; "2.50"; "4"]
                   (Document (PList example_sales)))))
      = Malformed
      /\ fst (menu_loop (rt := Reference.runtime)
                (initial_world ["1"; "2.50"; "4"]
                   (Document (PList example_sales))))
         = Raise OSError).
Proof.
  apply (@menu_loop_only_appends Reference.runtime
           (initial_world ["1"; "2.50"; "4"] (Document (PList example_sales)))).
  - reflexivity.
  - apply surjective_pairing.
Defined.
